(** * Bandwidth ingestion of [app.py]: unit conversion, report parsing, upload

    A shallow embedding of the ingestion path of [app.py]
    ([convert_to_bytes], [convert_speed_to_bps], [parse_bandwidth_data],
    [init_db], [upload_data]) and of the query [get_consumo_interface],
    with the properties the specification states about the ingestion and
    further properties of the parser, the tables and the query.

    Modelling choices.
    - A Python [str] is a Rocq [string] whose characters are the code
      points below 256; on that range [str.lower], [str.strip], the
      regular-expression class [\d] and [float()] are modelled exactly.
    - A Python [float] is an IEEE-754 binary64 value, given by the
      Standard Library's [spec_float] with [prec = 53], [emax = 1024].
    - An exception is a value of [exn]; code that may raise returns a
      [result].
    - The SQLite database is a record of its two tables, which exist
      (possibly empty); the column [created_at] (wall-clock time) is left
      out, and so are failures of the database file itself. *)

From Stdlib Require Import ZArith NArith List String Ascii Bool Lia.
From Stdlib Require Import Floats.SpecFloat DecimalString.
From Stdlib Require Import Sorted Permutation.
Import ListNotations.
Local Open Scope string_scope.
Local Open Scope Z_scope.

(** ** Exceptions and results *)

Inductive exn : Type :=
| ValueError (msg : string)
| OverflowError (msg : string).

Inductive result (A : Type) : Type :=
| Ok (a : A)
| Raise (e : exn).
Arguments Ok {A} a.
Arguments Raise {A} e.

Definition bind {A B : Type} (r : result A) (k : A -> result B) : result B :=
  match r with
  | Ok a => k a
  | Raise e => Raise e
  end.

Notation "x <- c ;; k" := (bind c (fun x => k))
  (at level 61, c at next level, right associativity).

(** [str(e)] *)
Definition str_exn (e : exn) : string :=
  match e with
  | ValueError msg => msg
  | OverflowError msg => msg
  end.

(** ** Python strings *)

Module Str.

Definition code (c : ascii) : Z := Z.of_N (N_of_ascii c).
Definition chr (n : Z) : ascii := ascii_of_N (Z.to_N n).
Definition between (lo hi : Z) (c : ascii) : bool :=
  (lo <=? code c) && (code c <=? hi).

(** [c.isspace()] on code points below 256 *)
Definition isspace (c : ascii) : bool :=
  between 9 13 c || between 28 32 c || (code c =? 133) || (code c =? 160).

(** one character of [str.lower()] on code points below 256: A-Z and the
    Latin-1 capitals U+00C0..U+00DE, the sign U+00D7 apart *)
Definition lower_char (c : ascii) : ascii :=
  if between 65 90 c || (between 192 222 c && negb (code c =? 215))
  then chr (code c + 32) else c.

Fixpoint lower (s : string) : string :=
  match s with
  | EmptyString => EmptyString
  | String c s' => String (lower_char c) (lower s')
  end.

Fixpoint startswith (s p : string) : bool :=
  match p, s with
  | EmptyString, _ => true
  | String a p', String b s' => Ascii.eqb a b && startswith s' p'
  | String _ _, EmptyString => false
  end.

(** [s.replace(old, '')] for a non-empty [old]: the occurrences of [old]
    are removed from left to right, without overlap. [skip] counts the
    characters of the occurrence being removed that are still ahead. *)
Fixpoint remove_from (old : string) (skip : nat) (s : string) : string :=
  match s with
  | EmptyString => EmptyString
  | String c s' =>
      match skip with
      | S k => remove_from old k s'
      | O => if startswith s old
             then remove_from old (Nat.pred (String.length old)) s'
             else String c (remove_from old O s')
      end
  end.

Definition remove (old s : string) : string := remove_from old O s.

Fixpoint lstrip (s : string) : string :=
  match s with
  | EmptyString => EmptyString
  | String c s' => if isspace c then lstrip s' else s
  end.

Fixpoint rstrip (s : string) : string :=
  match s with
  | EmptyString => EmptyString
  | String c s' =>
      match rstrip s' with
      | EmptyString => if isspace c then EmptyString else String c EmptyString
      | r => String c r
      end
  end.

(** [s.strip()] *)
Definition strip (s : string) : string := rstrip (lstrip s).

(** [s.split(sep)] for a one-character separator; the list is never empty *)
Fixpoint split (sep : ascii) (s : string) : list string :=
  match s with
  | EmptyString => [EmptyString]
  | String c s' =>
      if Ascii.eqb c sep then EmptyString :: split sep s'
      else match split sep s' with
           | [] => [String c EmptyString]
           | w :: ws => String c w :: ws
           end
  end.

(** the longest prefix of [s] whose characters satisfy [p], and the rest *)
Fixpoint span (p : ascii -> bool) (s : string) : string * string :=
  match s with
  | EmptyString => (EmptyString, EmptyString)
  | String c s' =>
      if p c then let '(a, b) := span p s' in (String c a, b)
      else (EmptyString, s)
  end.

Fixpoint all (p : ascii -> bool) (s : string) : bool :=
  match s with
  | EmptyString => true
  | String c s' => p c && all p s'
  end.

Fixpoint mem (c : ascii) (s : string) : bool :=
  match s with
  | EmptyString => false
  | String d s' => Ascii.eqb c d || mem c s'
  end.

Definition is_empty (s : string) : bool :=
  match s with EmptyString => true | _ => false end.

(** [\d] on code points below 256 *)
Definition isdigit (c : ascii) : bool := between 48 57 c.
(** [[a-z]] *)
Definition isaz (c : ascii) : bool := between 97 122 c.
(** [[\d.]] *)
Definition isnum (c : ascii) : bool := isdigit c || (code c =? 46).

Definition newline : ascii := chr 10.
Definition quote : ascii := chr 39.
Definition dquote : ascii := chr 34.
Definition backslash : ascii := chr 92.

Definition hexdigit (n : Z) : ascii :=
  if n <? 10 then chr (48 + n) else chr (87 + n).

(** [c.isprintable()] on code points below 256 *)
Definition isprintable (c : ascii) : bool :=
  between 32 126 c || (between 161 255 c && negb (code c =? 173)).

(** [repr(s)] *)
Definition repr_char (q : ascii) (c : ascii) : string :=
  if Ascii.eqb c q || Ascii.eqb c backslash then String backslash (String c "")
  else if code c =? 9 then String backslash "t"
  else if code c =? 10 then String backslash "n"
  else if code c =? 13 then String backslash "r"
  else if isprintable c then String c ""
  else String backslash
         (String "x" (String (hexdigit (code c / 16)) (String (hexdigit (code c mod 16)) ""))).

Fixpoint repr_body (q : ascii) (s : string) : string :=
  match s with
  | EmptyString => EmptyString
  | String c s' => repr_char q c ++ repr_body q s'
  end.

Definition repr (s : string) : string :=
  let q := if mem quote s && negb (mem dquote s) then dquote else quote in
  String q (repr_body q s ++ String q "").

(** [str(n)] for an integer *)
Definition of_Z (n : Z) : string := NilZero.string_of_int (Z.to_int n).

End Str.

(** ** Python floats: IEEE-754 binary64 *)

Module Float.

Definition prec : Z := 53.
Definition emax : Z := 1024.

Definition float : Type := spec_float.

(** conversion of a Python [int] operand of a float operation *)
Definition of_Z (n : Z) : float := binary_normalize prec emax n 0 false.

(** [x * y] *)
Definition mul (x y : float) : float := SFmul prec emax x y.

(** The binary64 value nearest to [d * 10^n] (ties to even), negated when
    [neg]: the value [float()] gives to the decimal digits [d] scaled by
    the power of ten [n]. *)
Definition of_decimal (neg : bool) (d n : Z) : float :=
  if d =? 0 then S754_zero neg
  else if 0 <=? n then
    match d * 10 ^ n with
    | Zpos m => binary_round prec emax neg m 0
    | _ => S754_nan
    end
  else
    let '(q, e, l) := SFdiv_core_binary prec emax d 0 (10 ^ (- n)) 0 in
    binary_round_aux prec emax neg q e l.

(** [int(x)] *)
Definition to_int (x : float) : result Z :=
  match x with
  | S754_zero _ => Ok 0
  | S754_finite s m e =>
      let a := Z.shiftl (Zpos m) e in Ok (if s then - a else a)
  | S754_infinity _ => Raise (OverflowError "cannot convert float infinity to integer")
  | S754_nan => Raise (ValueError "cannot convert float NaN to integer")
  end.

(** the whitespace [float()] strips from both ends of its argument *)
Definition isspace (c : ascii) : bool :=
  Str.between 9 13 c || (Str.code c =? 32) || (Str.code c =? 133) || (Str.code c =? 160).

Fixpoint lstrip (s : string) : string :=
  match s with
  | EmptyString => EmptyString
  | String c s' => if isspace c then lstrip s' else s
  end.

Fixpoint rstrip (s : string) : string :=
  match s with
  | EmptyString => EmptyString
  | String c s' =>
      match rstrip s' with
      | EmptyString => if isspace c then EmptyString else String c EmptyString
      | r => String c r
      end
  end.

(** Underscores are allowed between two digits only; they are removed.
    [prev] is the character before [s], if any. *)
Fixpoint underscores (prev : option ascii) (s : string) : option string :=
  let prev_digit := match prev with Some p => Str.isdigit p | None => false end in
  let prev_under := match prev with Some p => Str.code p =? 95 | None => false end in
  match s with
  | EmptyString => if prev_under then None else Some EmptyString
  | String c s' =>
      if Str.code c =? 95 then
        if prev_digit then underscores (Some c) s' else None
      else if prev_under && negb (Str.isdigit c) then None
      else option_map (String c) (underscores (Some c) s')
  end.

Definition sign (s : string) : bool * string :=
  match s with
  | String c s' =>
      if Str.code c =? 45 then (true, s')
      else if Str.code c =? 43 then (false, s')
      else (false, s)
  | EmptyString => (false, s)
  end.

Definition lower_ascii (c : ascii) : ascii :=
  if Str.between 65 90 c then Str.chr (Str.code c + 32) else c.

Fixpoint lower (s : string) : string :=
  match s with
  | EmptyString => EmptyString
  | String c s' => String (lower_ascii c) (lower s')
  end.

(** value of a string of decimal digits, after the digits [acc] *)
Fixpoint digits_val (acc : Z) (s : string) : Z :=
  match s with
  | EmptyString => acc
  | String c s' => digits_val (10 * acc + (Str.code c - 48)) s'
  end.

(** the literal after the sign: digits, an optional point and digits, an
    optional exponent; at least one digit before the exponent *)
Definition magnitude (neg : bool) (s : string) : option float :=
  let '(ip, r1) := Str.span Str.isdigit s in
  let '(fp, r2) :=
    match r1 with
    | String c r' => if Str.code c =? 46 then Str.span Str.isdigit r' else (EmptyString, r1)
    | EmptyString => (EmptyString, r1)
    end in
  if Str.is_empty ip && Str.is_empty fp then None
  else
    let d := digits_val 0 (ip ++ fp) in
    let k := Z.of_nat (String.length fp) in
    match r2 with
    | EmptyString => Some (of_decimal neg d (- k))
    | String c r3 =>
        if Str.code (lower_ascii c) =? 101 then
          let '(eneg, r4) := sign r3 in
          let '(ed, r5) := Str.span Str.isdigit r4 in
          if Str.is_empty ed || negb (Str.is_empty r5) then None
          else
            let x := digits_val 0 ed in
            Some (of_decimal neg d ((if eneg then - x else x) - k))
        else None
    end.

Definition literal (s : string) : option float :=
  let '(neg, r) := sign s in
  let l := lower r in
  if String.eqb l "inf" || String.eqb l "infinity" then Some (S754_infinity neg)
  else if String.eqb l "nan" then Some S754_nan
  else magnitude neg r.

(** [float(s)] for a string [s] *)
Definition of_string (s : string) : result float :=
  match
    match underscores None (rstrip (lstrip s)) with
    | Some t => literal t
    | None => None
    end
  with
  | Some x => Ok x
  | None => Raise (ValueError ("could not convert string to float: " ++ Str.repr s))
  end.

End Float.

(** ** Unit converter *)

(** [d.get(key, default)] for a dictionary given by its items *)
Fixpoint dict_get (d : list (string * Z)) (key : string) (default : Z) : Z :=
  match d with
  | [] => default
  | (k, v) :: d' => if String.eqb k key then v else dict_get d' key default
  end.

(** [value.lower().replace(' ', '')] *)
Definition normalise (value : string) : string :=
  Str.remove " " (Str.lower value).

(** [re.match(r'([\d.]+)([a-z]+)', s)]: both classes are matched greedily,
    and neither can give a character back to what follows (a character of
    [[\d.]] is no letter), so the groups are the longest runs. *)
Definition match_size (s : string) : option (string * string) :=
  let '(number, r) := Str.span Str.isnum s in
  let '(unit, _) := Str.span Str.isaz r in
  if Str.is_empty number || Str.is_empty unit then None
  else Some (number, unit).

(** [re.match(r'([\d.]+)([a-z]+/s)', s)]: as above; the letters are
    followed by a slash, which is no letter, so the run of letters cannot be
    cut short. *)
Definition match_speed (s : string) : option (string * string) :=
  let '(number, r) := Str.span Str.isnum s in
  let '(letters, r') := Str.span Str.isaz r in
  if Str.is_empty number || Str.is_empty letters || negb (Str.startswith r' "/s") then None
  else Some (number, letters ++ "/s").

Definition size_units : list (string * Z) :=
  [ ("kib", 1024); ("mib", 1024 ^ 2); ("gib", 1024 ^ 3); ("tib", 1024 ^ 4);
    ("kb", 1000); ("mb", 1000 ^ 2); ("gb", 1000 ^ 3); ("tb", 1000 ^ 4) ].

Definition speed_units : list (string * Z) :=
  [ ("kbit/s", 1000); ("mbit/s", 1000 ^ 2); ("gbit/s", 1000 ^ 3); ("tbit/s", 1000 ^ 4) ].

(** [not value or value == 'None'], for a value that is a string or [None] *)
Definition no_value (value : option string) : bool :=
  match value with
  | None => true
  | Some v => Str.is_empty v || String.eqb v "None"
  end.

Definition convert_to_bytes (value : option string) : result Z :=
  match value with
  | None => Ok 0
  | Some v =>
      if no_value value then Ok 0
      else
        let value := normalise v in
        match match_size value with
        | Some (number, unit) =>
            x <- Float.of_string number ;;
            Float.to_int (Float.mul x (Float.of_Z (dict_get size_units unit 1)))
        | None =>
            x <- Float.of_string value ;;
            Float.to_int x
        end
  end.

Definition convert_speed_to_bps (speed : option string) : result Z :=
  match speed with
  | None => Ok 0
  | Some v =>
      if no_value speed then Ok 0
      else
        let speed := normalise v in
        match match_speed speed with
        | Some (number, unit) =>
            x <- Float.of_string number ;;
            Float.to_int (Float.mul x (Float.of_Z (dict_get speed_units unit 1)))
        | None =>
            x <- Float.of_string speed ;;
            Float.to_int x
        end
  end.

(** ** Report parser *)

Inductive period : Type := diario | mensal.

Definition period_eqb (p q : period) : bool :=
  match p, q with
  | diario, diario | mensal, mensal => true
  | _, _ => false
  end.

(** the text of a period, as stored in the column [periodo] *)
Definition period_str (p : period) : string :=
  match p with diario => "diario" | mensal => "mensal" end.

(** one dictionary of the list [data] *)
Record entry : Type := mk_entry {
  interface : string;
  data_referencia : string;
  periodo : period;
  entrada : option string;
  saida : option string;
  total : option string;
  taxa_media : option string
}.

Definition set_entrada (v : string) (e : entry) : entry :=
  mk_entry (interface e) (data_referencia e) (periodo e)
           (Some v) (saida e) (total e) (taxa_media e).
Definition set_saida (v : string) (e : entry) : entry :=
  mk_entry (interface e) (data_referencia e) (periodo e)
           (entrada e) (Some v) (total e) (taxa_media e).
Definition set_total (v : string) (e : entry) : entry :=
  mk_entry (interface e) (data_referencia e) (periodo e)
           (entrada e) (saida e) (Some v) (taxa_media e).
Definition set_taxa_media (v : string) (e : entry) : entry :=
  mk_entry (interface e) (data_referencia e) (periodo e)
           (entrada e) (saida e) (total e) (Some v).

(** [data[-1] = f(data[-1])] on a non-empty list; an empty list is left
    as it is (the source never reaches the assignment then) *)
Fixpoint update_last (f : entry -> entry) (data : list entry) : list entry :=
  match data with
  | [] => []
  | [e] => [f e]
  | e :: data' => e :: update_last f data'
  end.

(** the literals of the report format *)
Definition ontem_marker : string := "- Ontem (".
Definition mes_marker : string := "- No m" ++ String (Str.chr 234) "s (".
Definition interface_marker : string := "--- Interface ".
Definition entrada_label : string := "Entrada:".
Definition saida_label : string := "Saida:".
Definition total_label : string := "Total:".
Definition taxa_label : string :=
  "Taxa de transfer" ++ String (Str.chr 234) "ncia m" ++ String (Str.chr 233) "dia:".

(** the first [n] characters of [s] when they are [n] digits. The class
    [\d] of a pattern on [str] holds the decimal digits of Unicode; among
    the code points below 256 these are the digits 0 to 9. *)
Fixpoint take_digits (n : nat) (s : string) : option (string * string) :=
  match n with
  | O => Some (EmptyString, s)
  | S n' =>
      match s with
      | String c s' =>
          if Str.isdigit c then
            match take_digits n' s' with
            | Some (d, r) => Some (String c d, r)
            | None => None
            end
          else None
      | EmptyString => None
      end
  end.

Definition take_char (c : ascii) (s : string) : option string :=
  match s with
  | String d s' => if Ascii.eqb c d then Some s' else None
  | EmptyString => None
  end.

Definition opt_bind {A B : Type} (o : option A) (k : A -> option B) : option B :=
  match o with Some a => k a | None => None end.

(** the pattern [\((\d{4}-\d{2}-\d{2})\)] matched at the start of [s]:
    the text of its group *)
Definition day_here (s : string) : option string :=
  opt_bind (take_char "(" s) (fun s1 =>
  opt_bind (take_digits 4 s1) (fun '(y, s2) =>
  opt_bind (take_char "-" s2) (fun s3 =>
  opt_bind (take_digits 2 s3) (fun '(m, s4) =>
  opt_bind (take_char "-" s4) (fun s5 =>
  opt_bind (take_digits 2 s5) (fun '(d, s6) =>
  opt_bind (take_char ")" s6) (fun _ =>
  Some (y ++ "-" ++ m ++ "-" ++ d)))))))).

(** the pattern [\((\d{4}-\d{2})\)] matched at the start of [s] *)
Definition month_here (s : string) : option string :=
  opt_bind (take_char "(" s) (fun s1 =>
  opt_bind (take_digits 4 s1) (fun '(y, s2) =>
  opt_bind (take_char "-" s2) (fun s3 =>
  opt_bind (take_digits 2 s3) (fun '(m, s4) =>
  opt_bind (take_char ")" s4) (fun _ =>
  Some (y ++ "-" ++ m)))))).

(** [re.search]: the match at the leftmost position that has one *)
Fixpoint search (here : string -> option string) (s : string) : option string :=
  match here s with
  | Some g => Some g
  | None =>
      match s with
      | String _ s' => search here s'
      | EmptyString => None
      end
  end.

(** the local variables of the loop of [parse_bandwidth_data] *)
Record parser : Type := mk_parser {
  data : list entry;
  current_date : option string;
  current_period : option period
}.

(** truth value of a string or [None] *)
Definition truthy (o : option string) : bool :=
  match o with
  | Some s => negb (Str.is_empty s)
  | None => false
  end.

Definition is_some {A : Type} (o : option A) : bool :=
  match o with Some _ => true | None => false end.

Definition nonempty {A : Type} (l : list A) : bool :=
  match l with [] => false | _ => true end.

(** the value of a labelled line: [line.replace(label, '').strip()] *)
Definition value_of (label line : string) : string :=
  Str.strip (Str.remove label line).

(** one iteration of the loop over the lines *)
Definition parse_line (st : parser) (raw : string) : parser :=
  let line := Str.strip raw in
  if Str.startswith line ontem_marker then
    match search day_here line with
    | Some d => mk_parser (data st) (Some d) (Some diario)
    | None => st
    end
  else if Str.startswith line mes_marker then
    match search month_here line with
    | Some m => mk_parser (data st) (Some (m ++ "-01")) (Some mensal)
    | None => st
    end
  else if Str.startswith line interface_marker then
    let interface := value_of interface_marker line in
    match current_date st, current_period st with
    | Some d, Some p =>
        if truthy (current_date st) then
          mk_parser (data st ++ [mk_entry interface d p None None None None])
                    (current_date st) (current_period st)
        else st
    | _, _ => st
    end
  else if Str.startswith line entrada_label && nonempty (data st) then
    mk_parser (update_last (set_entrada (value_of entrada_label line)) (data st))
              (current_date st) (current_period st)
  else if Str.startswith line saida_label && nonempty (data st) then
    mk_parser (update_last (set_saida (value_of saida_label line)) (data st))
              (current_date st) (current_period st)
  else if Str.startswith line total_label && nonempty (data st) then
    mk_parser (update_last (set_total (value_of total_label line)) (data st))
              (current_date st) (current_period st)
  else if Str.startswith line taxa_label && nonempty (data st) then
    mk_parser (update_last (set_taxa_media (value_of taxa_label line)) (data st))
              (current_date st) (current_period st)
  else st.

Definition parse_lines (st : parser) (lines : list string) : parser :=
  fold_left parse_line lines st.

Definition parse_bandwidth_data (text : string) : list entry :=
  data (parse_lines (mk_parser [] None None) (Str.split Str.newline text)).

(** ** The database *)

(** a row of the table [interfaces] *)
Record interface_row : Type := mk_interface_row {
  if_id : Z;
  nome : string
}.

(** a row of the table [consumo_banda] *)
Record consumo_row : Type := mk_consumo_row {
  cb_id : Z;
  interface_id : Z;
  cb_data_referencia : string;
  cb_periodo : period;
  entrada_bytes : Z;
  saida_bytes : Z;
  total_bytes : Z;
  taxa_media_bps : Z
}.

(** The two tables, each in the order of its row ids, and for each the
    counter of [AUTOINCREMENT] (its entry in [sqlite_sequence], 0 when it
    has none yet): the largest row id a statement ever took for the
    table. *)
Record database : Type := mk_database {
  interfaces : list interface_row;
  interfaces_seq : Z;
  consumo_banda : list consumo_row;
  consumo_banda_seq : Z
}.

(** the database right after the two [CREATE TABLE] on a new file *)
Definition empty_db : database := mk_database [] 0 [] 0.

(** the row id [AUTOINCREMENT] gives to a new row *)
Definition next_id (seq : Z) (ids : list Z) : Z :=
  fold_left Z.max ids seq + 1.

(** [SELECT id FROM interfaces WHERE nome = ?] and [fetchone()] *)
Fixpoint select_interface_id (rows : list interface_row) (name : string) : option Z :=
  match rows with
  | [] => None
  | r :: rows' =>
      if String.eqb (nome r) name then Some (if_id r)
      else select_interface_id rows' name
  end.

(** [INSERT OR IGNORE INTO interfaces (nome) VALUES (?)]: the statement
    takes a new row id from the counter of [AUTOINCREMENT] before the
    constraint [UNIQUE] of [nome] is checked, and the counter keeps it
    also when the row is not inserted *)
Definition insert_or_ignore_interface (db : database) (name : string) : database :=
  let i := next_id (interfaces_seq db) (map if_id (interfaces db)) in
  match select_interface_id (interfaces db) name with
  | Some _ => mk_database (interfaces db) i (consumo_banda db) (consumo_banda_seq db)
  | None =>
      mk_database (interfaces db ++ [mk_interface_row i name]) i
                  (consumo_banda db) (consumo_banda_seq db)
  end.

Definition default_interfaces : list string :=
  ["WAN"; "CAMPUS"; "DI"; "ETICE_NUVENS"; "ETICE_GOV"].

Definition init_db (db : database) : database :=
  fold_left insert_or_ignore_interface default_interfaces db.

(** the columns of [UNIQUE(interface_id, data_referencia, periodo)] *)
Definition same_key (i : Z) (d : string) (p : period) (r : consumo_row) : bool :=
  (interface_id r =? i) && String.eqb (cb_data_referencia r) d
  && period_eqb (cb_periodo r) p.

(** an integer parameter of a statement must be a 64-bit signed integer *)
Definition sqlite_integer (n : Z) : result Z :=
  if (- 2 ^ 63 <=? n) && (n <? 2 ^ 63) then Ok n
  else Raise (OverflowError "Python int too large to convert to SQLite INTEGER").

(** [INSERT OR REPLACE INTO consumo_banda (interface_id, data_referencia,
    periodo, entrada_bytes, saida_bytes, total_bytes, taxa_media_bps)]:
    the rows that hold the same key are deleted, and the new row is
    added with a new id *)
Definition insert_or_replace_consumo (db : database) (i : Z) (d : string) (p : period)
    (entrada saida total taxa : Z) : result database :=
  entrada <- sqlite_integer entrada ;;
  saida <- sqlite_integer saida ;;
  total <- sqlite_integer total ;;
  taxa <- sqlite_integer taxa ;;
  let new_id := next_id (consumo_banda_seq db) (map cb_id (consumo_banda db)) in
  Ok (mk_database (interfaces db) (interfaces_seq db)
        (filter (fun r => negb (same_key i d p r)) (consumo_banda db)
           ++ [mk_consumo_row new_id i d p entrada saida total taxa])
        new_id).

(** ** Upload *)

(** a JSON value, as [jsonify] is given it *)
#[warnings="-register-all"]
Inductive json : Type :=
| JBool (b : bool)
| JInt (n : Z)
| JStr (s : string)
| JObj (items : list (string * json)).

(** the four numbers of an entry, lines 245-248 of [upload_data] *)
Definition convert_values (e : entry) : result (Z * Z * Z * Z) :=
  entrada_bytes <- convert_to_bytes (entrada e) ;;
  saida_bytes <- convert_to_bytes (saida e) ;;
  total_bytes <- convert_to_bytes (total e) ;;
  taxa_bps <- convert_speed_to_bps (taxa_media e) ;;
  Ok (entrada_bytes, saida_bytes, total_bytes, taxa_bps).

(** the body of the loop over [parsed_data]; the state is the database of
    the open transaction and [records_saved] *)
Definition save_entry (st : database * Z) (e : entry) : result (database * Z) :=
  let '(db, records_saved) := st in
  match select_interface_id (interfaces db) (interface e) with
  | Some interface_id =>
      v <- convert_values e ;;
      let '(entrada_bytes, saida_bytes, total_bytes, taxa_bps) := v in
      db' <- insert_or_replace_consumo db interface_id (data_referencia e) (periodo e)
               entrada_bytes saida_bytes total_bytes taxa_bps ;;
      Ok (db', records_saved + 1)
  | None => Ok st
  end.

Fixpoint save_entries (st : database * Z) (es : list entry) : result (database * Z) :=
  match es with
  | [] => Ok st
  | e :: es' => st' <- save_entry st e ;; save_entries st' es'
  end.

Definition failure (message : string) : json :=
  JObj [("success", JBool false); ("message", JStr message)].

Definition no_data_message : string := "Nenhum dado fornecido".
Definition no_valid_data_message : string :=
  "Nenhum dado v" ++ String (Str.chr 225) "lido encontrado".

(** [upload_data] for the request body [text_data] on the database [db]:
    the response and the database afterwards. An exception leaves the
    transaction uncommitted, and closing the connection discards it. *)
Definition upload_data (db : database) (text_data : string) : json * database :=
  if Str.is_empty text_data then (failure no_data_message, db)
  else
    let parsed_data := parse_bandwidth_data text_data in
    if negb (nonempty parsed_data) then (failure no_valid_data_message, db)
    else
      match save_entries (db, 0) parsed_data with
      | Ok (db', records_saved) =>
          (JObj [("success", JBool true);
                 ("message", JStr ("Dados processados com sucesso! "
                                   ++ Str.of_Z records_saved ++ " registros salvos."));
                 ("records", JInt records_saved)],
           db')
      | Raise e => (failure ("Erro: " ++ str_exn e), db)
      end.

(** ** Consumption of an interface *)

(** a JSON value that may hold floats *)
#[warnings="-register-all"]
Inductive jvalue : Type :=
| VInt (n : Z)
| VFloat (x : Float.float)
| VStr (s : string)
| VList (l : list jvalue)
| VObj (items : list (string * jvalue)).

(** [a / b] for two integers, [b] positive: the float nearest to the
    quotient, ties to even *)
Definition int_truediv (a b : Z) : result Float.float :=
  if a =? 0 then Ok (S754_zero false)
  else
    let '(q, e, l) := SFdiv_core_binary Float.prec Float.emax (Z.abs a) 0 b 0 in
    match binary_round_aux Float.prec Float.emax (a <? 0) q e l with
    | S754_infinity _ => Raise (OverflowError "integer division result too large for a float")
    | x => Ok x
    end.

(** the order of two texts in SQLite: by code point, a prefix first *)
Fixpoint text_compare (s t : string) : comparison :=
  match s, t with
  | EmptyString, EmptyString => Eq
  | EmptyString, String _ _ => Lt
  | String _ _, EmptyString => Gt
  | String a s', String b t' =>
      match Z.compare (Str.code a) (Str.code b) with
      | Eq => text_compare s' t'
      | c => c
      end
  end.

(** [ORDER BY data_referencia DESC], by insertion: the rows of one
    interface and period hold different dates (the [UNIQUE] constraint),
    so that the dates fix the order of the rows the query sorts *)
Fixpoint insert_by_date_desc (r : consumo_row) (l : list consumo_row) : list consumo_row :=
  match l with
  | [] => [r]
  | x :: l' =>
      match text_compare (cb_data_referencia r) (cb_data_referencia x) with
      | Gt => r :: l
      | _ => x :: insert_by_date_desc r l'
      end
  end.

Definition order_by_date_desc (l : list consumo_row) : list consumo_row :=
  fold_right insert_by_date_desc [] l.

(** the first [n] elements of [l], all of them when there are fewer *)
Fixpoint take {A : Type} (n : Z) (l : list A) : list A :=
  match l with
  | [] => []
  | x :: l' => if n <=? 0 then [] else x :: take (n - 1) l'
  end.

(** [LIMIT n]: a negative [n] sets no limit *)
Definition sql_limit {A : Type} (n : Z) (l : list A) : list A :=
  if n <? 0 then l else take n l.

(** the second query of [get_consumo_interface] *)
Definition select_consumo (db : database) (i : Z) (periodo : string) (limite : Z)
    : result (list consumo_row) :=
  limite <- sqlite_integer limite ;;
  Ok (sql_limit limite
        (order_by_date_desc
           (filter (fun r => (interface_id r =? i)
                             && String.eqb (period_str (cb_periodo r)) periodo)
                   (consumo_banda db)))).

(** the dictionary made of one row *)
Definition consumo_item (row : consumo_row) : result jvalue :=
  entrada_gib <- int_truediv (entrada_bytes row) (1024 ^ 3) ;;
  saida_gib <- int_truediv (saida_bytes row) (1024 ^ 3) ;;
  total_gib <- int_truediv (total_bytes row) (1024 ^ 3) ;;
  taxa_mbps <- int_truediv (taxa_media_bps row) (1000 ^ 2) ;;
  Ok (VObj [("data", VStr (cb_data_referencia row));
            ("periodo", VStr (period_str (cb_periodo row)));
            ("entrada_bytes", VInt (entrada_bytes row));
            ("saida_bytes", VInt (saida_bytes row));
            ("total_bytes", VInt (total_bytes row));
            ("taxa_media_bps", VInt (taxa_media_bps row));
            ("entrada_gib", VFloat entrada_gib);
            ("saida_gib", VFloat saida_gib);
            ("total_gib", VFloat total_gib);
            ("taxa_mbps", VFloat taxa_mbps)]).

(** the loop over the rows *)
Fixpoint consumo_items (rows : list consumo_row) : result (list jvalue) :=
  match rows with
  | [] => Ok []
  | row :: rows' =>
      item <- consumo_item row ;;
      items <- consumo_items rows' ;;
      Ok (item :: items)
  end.

Definition not_found_message : string :=
  "Interface n" ++ String (Str.chr 227) "o encontrada".

(** [get_consumo_interface] for the path parameter [interface], where
    [periodo] and [limite] are the values of its two local variables of
    these names: the JSON of the response and its status. An exception is
    not caught. *)
Definition get_consumo_interface (db : database) (interface periodo : string) (limite : Z)
    : result (jvalue * Z) :=
  match select_interface_id (interfaces db) interface with
  | None => Ok (VObj [("error", VStr not_found_message)], 404)
  | Some i =>
      dados <- select_consumo db i periodo limite ;;
      items <- consumo_items dados ;;
      Ok (VObj [("interface", VStr interface);
                ("periodo", VStr periodo);
                ("dados", VList items)],
          200)
  end.

(** * Notions used by the properties *)

(** ** Stored records *)

(** the key of a stored row and its four numbers *)
Definition key : Type := (Z * string * period)%type.
Definition numbers : Type := (Z * Z * Z * Z)%type.
Definition record : Type := (key * numbers)%type.

(** equality of keys, as the [UNIQUE] constraint compares them *)
Definition key_eqb (k k' : key) : bool :=
  let '(i, d, p) := k in
  let '(i', d', p') := k' in
  (i =? i') && String.eqb d d' && period_eqb p p'.

(** a stored row without its row id *)
Definition content (r : consumo_row) : record :=
  ((interface_id r, cb_data_referencia r, cb_periodo r),
   (entrada_bytes r, saida_bytes r, total_bytes r, taxa_media_bps r)).

(** the table [consumo_banda] without the row ids *)
Definition stored (db : database) : list record :=
  map content (consumo_banda db).

(** What one entry hands to the [INSERT OR REPLACE]: nothing for an
    unknown interface, and otherwise the converted record. *)
Definition accepted_record (ifs : list interface_row) (e : entry) : result (option record) :=
  match select_interface_id ifs (interface e) with
  | Some i =>
      v <- convert_values e ;;
      let '(a, b, c, d) := v in
      a <- sqlite_integer a ;;
      b <- sqlite_integer b ;;
      c <- sqlite_integer c ;;
      d <- sqlite_integer d ;;
      Ok (Some ((i, data_referencia e, periodo e), (a, b, c, d)))
  | None => Ok None
  end.

(** the records a run of the loop hands over, in order; the first
    exception of an entry ends the run *)
Fixpoint accepted_records (ifs : list interface_row) (es : list entry) : result (list record) :=
  match es with
  | [] => Ok []
  | e :: es' =>
      o <- accepted_record ifs e ;;
      rs <- accepted_records ifs es' ;;
      Ok (match o with Some r => r :: rs | None => rs end)
  end.

(** the effect of one [INSERT OR REPLACE] on the database *)
Definition put (db : database) (r : record) : database :=
  let '((i, d, p), (a, b, c, t)) := r in
  let new_id := next_id (consumo_banda_seq db) (map cb_id (consumo_banda db)) in
  mk_database (interfaces db) (interfaces_seq db)
    (filter (fun r => negb (same_key i d p r)) (consumo_banda db)
       ++ [mk_consumo_row new_id i d p a b c t])
    new_id.

(** the same on the stored records *)
Definition upsert (l : list record) (r : record) : list record :=
  filter (fun r' => negb (key_eqb (fst r) (fst r'))) l ++ [r].

Definition keys_of (rs : list record) : list key := map fst rs.

(** [k] is among the keys [ks] *)
Definition key_in (k : key) (ks : list key) : bool := existsb (key_eqb k) ks.

(** the records an upload accepts; none when the loop raises *)
Definition accepted (db : database) (text : string) : list record :=
  match accepted_records (interfaces db) (parse_bandwidth_data text) with
  | Ok rs => rs
  | Raise _ => []
  end.

(** ** Responses *)

(** the response of an upload that went through *)
Definition success_response (records_saved : Z) : json :=
  JObj [("success", JBool true);
        ("message", JStr ("Dados processados com sucesso! "
                          ++ Str.of_Z records_saved ++ " registros salvos."));
        ("records", JInt records_saved)].

(** the value of the key [success] of a response *)
Definition succeeded (j : json) : bool :=
  match j with
  | JObj (("success", JBool b) :: _) => b
  | _ => false
  end.

(** ** Reports and entries *)

(** an entry of an interface that is not registered, with values that
    are no numbers *)
Definition unknown_entry : entry :=
  mk_entry "LAB" "2024-03-15" diario (Some "abc") None (Some "-1.5.2") None.

(** the text of a report given by its lines *)
Definition lines_text (lines : list string) : string :=
  String.concat (String Str.newline "") lines.

(** a daily report of one section with an inbound figure *)
Definition one_section (name inbound : string) : string :=
  lines_text ["- Ontem (2024-03-15)"; interface_marker ++ name; "Entrada: " ++ inbound].

(** C8, as the specification states it: the accepted records can be read
    off the response of every successful upload. *)
Definition response_carries_records : Prop :=
  exists f : json -> list record,
    forall db text,
      succeeded (fst (upload_data db text)) = true ->
      f (fst (upload_data db text)) = accepted db text.

(** a daily report with two sections of the interface WAN *)
Definition two_sections : string :=
  lines_text ["- Ontem (2024-03-15)";
              "--- Interface WAN"; "Entrada: 1KiB";
              "--- Interface WAN"; "Entrada: 2KiB"].

(** ** States of the parser *)

(** the parser before the first line *)
Definition initial : parser := mk_parser [] None None.

(** [current_date and current_period] *)
Definition context_active (st : parser) : bool :=
  truthy (current_date st) && is_some (current_period st).

(** the line opens an interface section *)
Definition is_section (raw : string) : bool :=
  Str.startswith (Str.strip raw) interface_marker.

(** The parser never holds a record without an active context. *)
Definition context_invariant (st : parser) : Prop :=
  data st = [] \/ context_active st = true.

(** ** The end-to-end scenario *)

(** a letter, a digit or an underscore *)
Definition name_char (c : ascii) : bool :=
  Str.between 48 57 c || Str.between 65 90 c || Str.between 97 122 c || (Str.code c =? 95).

(** an interface name made of such characters, one at least *)
Definition plain_name (name : string) : bool :=
  negb (Str.is_empty name) && Str.all name_char name.

(** the report of the scenario: a daily marker and one section *)
Definition scenario (name : string) : string :=
  lines_text ["- Ontem (2024-03-15)";
              interface_marker ++ name;
              "Entrada: 1.00GiB";
              "Saida: 500.00MiB";
              "Total: 1.50GiB";
              taxa_label ++ " 10.00Mbit/s"].

(** what the parser makes of it *)
Definition scenario_entry (name : string) : entry :=
  mk_entry name "2024-03-15" diario
           (Some "1.00GiB") (Some "500.00MiB") (Some "1.50GiB") (Some "10.00Mbit/s").

(** the record expected for the interface of id [i] *)
Definition scenario_record (i : Z) : record :=
  ((i, "2024-03-15", diario), (1073741824, 524288000, 1610612736, 10000000)).

(** ** Floats *)

(** the exponent the format gives to a number of magnitude [2 ^ x] *)
Definition fexp64 (x : Z) : Z := Z.max (x - 53) (- 1074).

(** a float of the format, finite, below [2 ^ b] in magnitude *)
Definition finite_below (b : Z) (x : Float.float) : Prop :=
  match x with
  | S754_zero _ => True
  | S754_finite _ m e => bounded Float.prec Float.emax m e = true /\ Zpos (digits2_pos m) + e <= b
  | _ => False
  end.

(** the sign bit of a float; a NaN counts as unsigned *)
Definition sign_of (x : Float.float) : bool :=
  match x with
  | S754_zero s | S754_infinity s | S754_finite s _ _ => s
  | S754_nan => false
  end.

(** ** Numeric text *)

(** the digits before and after the point of a text made of digits and
    at most one point, with one digit at least *)
Definition decimal_parts (number : string) : option (string * string) :=
  let '(ip, r1) := Str.span Str.isdigit number in
  let '(fp, r2) :=
    match r1 with
    | String c r' => if Str.code c =? 46 then Str.span Str.isdigit r' else (EmptyString, r1)
    | EmptyString => (EmptyString, r1)
    end in
  if (Str.is_empty ip && Str.is_empty fp) || negb (Str.is_empty r2) then None
  else Some (ip, fp).

(** a decimal number of at most 290 digits *)
Definition decimal (number : string) : bool :=
  match decimal_parts number with
  | Some (ip, fp) => (String.length ip + String.length fp <=? 290)%nat
  | None => false
  end.

(** case analysis on the integer comparisons of the goal and of the
    hypotheses, then linear arithmetic *)
Ltac bool_cases :=
  repeat match goal with
    | H : context [Z.leb ?a ?b] |- _ => destruct (Z.leb_spec a b)
    | H : context [Z.eqb ?a ?b] |- _ => destruct (Z.eqb_spec a b)
    | |- context [Z.leb ?a ?b] => destruct (Z.leb_spec a b)
    | |- context [Z.eqb ?a ?b] => destruct (Z.eqb_spec a b)
    end;
  cbn in *; try discriminate; try lia; try reflexivity.

(** a multiplier of one of the two tables, or the default 1, as a float *)
Definition unit_float (y : Float.float) : Prop :=
  exists my ey,
    y = S754_finite false my ey /\ bounded Float.prec Float.emax my ey = true /\
    Zpos (digits2_pos my) = 53 /\ ey <= - 12.

(** a size text the converter accepts: once in lower case and without
    spaces, a decimal number of at most 290 digits, followed by nothing or
    by a letter (and then by anything) *)
Definition size_text (v : string) : bool :=
  let '(number, r) := Str.span Str.isnum (normalise v) in
  decimal number &&
  match r with
  | EmptyString => true
  | String c _ => Str.isaz c
  end.

(** a rate text the converter accepts: the same, where the letters are
    followed by [/s] *)
Definition speed_text (v : string) : bool :=
  let '(number, r) := Str.span Str.isnum (normalise v) in
  decimal number &&
  match r with
  | EmptyString => true
  | String c _ => Str.isaz c && Str.startswith (snd (Str.span Str.isaz r)) "/s"
  end.

(** the values the size converter is proved to accept *)
Definition size_accepted (value : option string) : bool :=
  no_value value || match value with Some v => size_text v | None => false end.

(** the values the rate converter is proved to accept *)
Definition speed_accepted (value : option string) : bool :=
  no_value value || match value with Some v => speed_text v | None => false end.

(** C2, as stated: both converters return an integer on every input. *)
Definition converters_total : Prop :=
  forall value : option string,
    (exists z, convert_to_bytes value = Ok z) /\
    (exists z, convert_speed_to_bps value = Ok z).

(** the value holds no minus sign *)
Definition no_minus (value : option string) : bool :=
  match value with
  | Some v => negb (Str.mem "-" v)
  | None => true
  end.

(** an entry whose inbound figure is a bare negative number *)
Definition negative_entry : entry :=
  mk_entry "WAN" "2024-03-15" diario (Some "-5") None None None.

(** C3, as stated: the four numbers converted from an entry are never
    negative. *)
Definition numbers_never_negative : Prop :=
  forall e a b c d,
    convert_values e = Ok (a, b, c, d) -> 0 <= a /\ 0 <= b /\ 0 <= c /\ 0 <= d.

(** [unit] is no key of the table *)
Definition unknown_unit (units : list (string * Z)) (unit : string) : bool :=
  forallb (fun kv => negb (String.eqb (fst kv) unit)) units.

(** C6, as stated: after a number, every suffix of letters that is no
    recognised unit counts as the multiplier 1. *)
Definition rate_suffix_is_multiplier_one : Prop :=
  forall number unit,
    Str.all Str.isnum number = true -> decimal number = true ->
    Str.is_empty unit = false -> Str.all Str.isaz unit = true ->
    unknown_unit speed_units unit = true ->
    convert_speed_to_bps (Some (number ++ unit))
    = (x <- Float.of_string number ;; Float.to_int x).

(** the value of a float as the fraction [float_num x / float_den x] *)
Definition float_num (x : Float.float) : Z :=
  match x with
  | S754_finite s m e =>
      let a := if 0 <=? e then Zpos m * 2 ^ e else Zpos m in
      if s then - a else a
  | _ => 0
  end.

(** its denominator, a power of two *)
Definition float_den (x : Float.float) : Z :=
  match x with
  | S754_finite _ _ e => if 0 <=? e then 1 else 2 ^ (- e)
  | _ => 1
  end.

(** the float [convert_to_bytes] hands to [int()]: the product of the
    number and the multiplier of the unit, or the whole text as a number *)
Definition size_float (v : string) : result Float.float :=
  match match_size (normalise v) with
  | Some (number, unit) =>
      x <- Float.of_string number ;;
      Ok (Float.mul x (Float.of_Z (dict_get size_units unit 1)))
  | None => Float.of_string (normalise v)
  end.

(** ** Invariants of the table [consumo_banda] *)

(** the key of a row *)
Definition row_key (r : consumo_row) : key := fst (content r).

(** the constraint [UNIQUE(interface_id, data_referencia, periodo)] *)
Definition unique_keys (db : database) : Prop :=
  NoDup (map row_key (consumo_banda db)).

(** the row ids grow along the table and none is above the counter of
    [AUTOINCREMENT] *)
Definition ids_increasing (db : database) : Prop :=
  StronglySorted Z.lt (map cb_id (consumo_banda db)) /\
  Forall (fun i => i <= consumo_banda_seq db) (map cb_id (consumo_banda db)).

(** the interface of the entry is registered *)
Definition known (ifs : list interface_row) (e : entry) : bool :=
  is_some (select_interface_id ifs (interface e)).

(** a 64-bit signed integer *)
Definition int64 (n : Z) : bool := (- 2 ^ 63 <=? n) && (n <? 2 ^ 63).

Definition numbers_int64 (r : record) : bool :=
  let '(_, (a, b, c, d)) := r in int64 a && int64 b && int64 c && int64 d.

(** the interface id of the record is one of the table [interfaces] *)
Definition references (ifs : list interface_row) (r : record) : Prop :=
  let '((i, _, _), _) := r in In i (map if_id ifs).

(** the numbers of the last record of key [k] in [rs] *)
Definition last_with_key (k : key) (rs : list record) : option numbers :=
  option_map snd (find (fun r => key_eqb k (fst r)) (rev rs)).

(** ** Lines and dates *)

(** the name a section line gives *)
Definition section_name (raw : string) : string :=
  value_of interface_marker (Str.strip raw).

(** the line starts with one of the two date markers *)
Definition is_marker (raw : string) : bool :=
  Str.startswith (Str.strip raw) ontem_marker || Str.startswith (Str.strip raw) mes_marker.

(** the line starts with one of the seven texts the parser looks for *)
Definition labelled (raw : string) : bool :=
  is_marker raw || is_section raw
  || Str.startswith (Str.strip raw) entrada_label
  || Str.startswith (Str.strip raw) saida_label
  || Str.startswith (Str.strip raw) total_label
  || Str.startswith (Str.strip raw) taxa_label.

(** the lines after the first one that sets a date and a period *)
Fixpoint after_first_context (lines : list string) : list string :=
  match lines with
  | [] => []
  | l :: lines' =>
      if context_active (parse_line initial l) then lines'
      else after_first_context lines'
  end.

(** year, month and day of a text of the form [YYYY-MM-DD] *)
Definition date_parts (s : string) : option (string * string * string) :=
  opt_bind (take_digits 4 s) (fun '(y, s1) =>
  opt_bind (take_char "-" s1) (fun s2 =>
  opt_bind (take_digits 2 s2) (fun '(m, s3) =>
  opt_bind (take_char "-" s3) (fun s4 =>
  opt_bind (take_digits 2 s4) (fun '(d, s5) =>
  if Str.is_empty s5 then Some (y, m, d) else None))))).

(** a date of the form [YYYY-MM-DD], on the first of the month for the
    monthly period *)
Definition date_shape (d : string) (p : period) : bool :=
  match date_parts d with
  | Some (_, _, day) =>
      match p with
      | mensal => String.eqb day "01"
      | diario => true
      end
  | None => false
  end.

(** the name and the values of the entry bear no white space at their
    ends *)
Definition stripped_value (o : option string) : Prop :=
  match o with
  | Some v => Str.strip v = v
  | None => True
  end.

Definition stripped (e : entry) : Prop :=
  Str.strip (interface e) = interface e /\
  stripped_value (entrada e) /\ stripped_value (saida e) /\
  stripped_value (total e) /\ stripped_value (taxa_media e).

(** ** The table [interfaces] *)

(** the name is in the table [interfaces] *)
Definition registered (db : database) (name : string) : bool :=
  is_some (select_interface_id (interfaces db) name).

(** the default names that the table does not hold *)
Definition missing_defaults (db : database) : list string :=
  filter (fun n => negb (registered db n)) default_interfaces.

(** the row id is above the counter and above the ids of the table *)
Definition fresh_row (db : database) (r : interface_row) : Prop :=
  interfaces_seq db < if_id r /\
  Forall (fun i => i < if_id r) (map if_id (interfaces db)).

(** the constraint [UNIQUE] of [interfaces.nome], and the row ids of the
    table: growing along it and none above the counter *)
Definition interfaces_sound (db : database) : Prop :=
  NoDup (map nome (interfaces db)) /\
  StronglySorted Z.lt (map if_id (interfaces db)) /\
  Forall (fun i => i <= interfaces_seq db) (map if_id (interfaces db)).

(** ** The rows of a query *)

(** the condition [WHERE interface_id = ? AND periodo = ?] *)
Definition selected (i : Z) (periodo : string) (r : consumo_row) : bool :=
  (interface_id r =? i) && String.eqb (period_str (cb_periodo r)) periodo.

(** the date of [a] comes after the date of [b] in the order of texts *)
Definition newer (a b : consumo_row) : Prop :=
  text_compare (cb_data_referencia a) (cb_data_referencia b) = Gt.

(** the day of a date [YYYY-MM-DD] as one number, [YYYYMMDD] *)
Definition date_number (d : string) : option Z :=
  match date_parts d with
  | Some (y, m, day) =>
      Some (Float.digits_val 0 y * 10000 + Float.digits_val 0 m * 100
            + Float.digits_val 0 day)
  | None => None
  end.

(** the answer of [get_consumo_interface] with the items [items] *)
Definition consumo_response (interface periodo : string) (items : list jvalue)
    : jvalue * Z :=
  (VObj [("interface", VStr interface); ("periodo", VStr periodo);
         ("dados", VList items)], 200).

(** a report of three days of the interface WAN, the database that holds
    it, and the two newest of its rows *)
Definition three_days : string :=
  lines_text ["- Ontem (2024-03-14)"; "--- Interface WAN"; "Total: 1GiB";
              "- Ontem (2024-03-15)"; "--- Interface WAN"; "Total: 2GiB";
              "- Ontem (2024-03-13)"; "--- Interface WAN"; "Total: 3GiB"].

Definition three_days_db : database :=
  snd (upload_data (init_db empty_db) three_days).

Definition row_of_14 : consumo_row := mk_consumo_row 1 1 "2024-03-14" diario 0 0 (2 ^ 30) 0.
Definition row_of_15 : consumo_row := mk_consumo_row 2 1 "2024-03-15" diario 0 0 (2 ^ 31) 0.
Definition row_of_13 : consumo_row :=
  mk_consumo_row 3 1 "2024-03-13" diario 0 0 (3 * 2 ^ 30) 0.

(** ** Whole numbers *)

(** the float that is the whole number [p], for [p] of at most 53 binary
    digits: a mantissa of 53 digits and the exponent that goes with it *)
Definition whole_float (p : Z) : Float.float :=
  match p with
  | Zpos _ => S754_finite false (Z.to_pos (p * 2 ^ (53 - Zdigits2 p))) (Zdigits2 p - 53)
  | _ => S754_zero false
  end.

(** ** Dates of ASCII texts *)

(** a text of ASCII characters *)
Definition ascii_text (s : string) : bool :=
  Str.all (fun c => Str.code c <? 128) s.

Definition hyphen_at (n : nat) (d : string) : bool :=
  match String.get n d with
  | Some c => Ascii.eqb c "-"
  | None => false
  end.

(** the frame of a date: ten characters with a hyphen as the fifth and as
    the eighth, and [-01] at the end for the monthly period *)
Definition date_frame (d : string) (p : period) : bool :=
  (String.length d =? 10)%nat && hyphen_at 4 d && hyphen_at 7 d
  && match p with
     | mensal => String.eqb (String.substring 7 3 d) "-01"
     | diario => true
     end.

(** a date with this frame that, when its characters are ASCII, has the
    form YYYY-MM-DD in the digits 0 to 9, with the day 01 for the monthly
    period *)
Definition date_sound (d : string) (p : period) : Prop :=
  date_frame d p = true /\ (ascii_text d = true -> date_shape d p = true).

Definition record_date_sound (r : record) : Prop :=
  let '((_, d, p), _) := r in date_sound d p.

(** the date of [a] is a later day of the calendar than the date of [b] *)
Definition later_day (a b : consumo_row) : Prop :=
  exists x y,
    date_number (cb_data_referencia a) = Some x /\
    date_number (cb_data_referencia b) = Some y /\ y < x.

(** ** Value lines *)

(** the four values of a record *)
Inductive field : Type := inbound | outbound | whole | rate.

Definition field_eqb (f g : field) : bool :=
  match f, g with
  | inbound, inbound | outbound, outbound | whole, whole | rate, rate => true
  | _, _ => false
  end.

Definition get_field (f : field) (e : entry) : option string :=
  match f with
  | inbound => entrada e
  | outbound => saida e
  | whole => total e
  | rate => taxa_media e
  end.

Definition set_field (f : field) (v : string) : entry -> entry :=
  match f with
  | inbound => set_entrada v
  | outbound => set_saida v
  | whole => set_total v
  | rate => set_taxa_media v
  end.

(** the field and the value a line gives, by the first of the four
    labels that its text starts with, in the order of the parser *)
Definition line_value (raw : string) : option (field * string) :=
  let line := Str.strip raw in
  if Str.startswith line entrada_label then Some (inbound, value_of entrada_label line)
  else if Str.startswith line saida_label then Some (outbound, value_of saida_label line)
  else if Str.startswith line total_label then Some (whole, value_of total_label line)
  else if Str.startswith line taxa_label then Some (rate, value_of taxa_label line)
  else None.

(** a value line: no date marker, no section line, and one of the four
    labels *)
Definition is_value_line (raw : string) : bool :=
  negb (is_marker raw) && negb (is_section raw) && is_some (line_value raw).

(** what a value line makes of the record it is applied to *)
Definition assign (raw : string) (e : entry) : entry :=
  match line_value raw with
  | Some (f, v) => set_field f v e
  | None => e
  end.

Definition apply_values (vals : list string) (e : entry) : entry :=
  fold_left (fun e v => assign v e) vals e.

(** ** The end-to-end scenario in any text *)

(** a daily marker line of 2024-03-15 *)
Definition scenario_marker (raw : string) : bool :=
  Str.startswith (Str.strip raw) ontem_marker
  && match search day_here (Str.strip raw) with
     | Some d => String.eqb d "2024-03-15"
     | None => false
     end.

(** the values of the scenario *)
Definition scenario_expected (f : field) : string :=
  match f with
  | inbound => "1.00GiB"
  | outbound => "500.00MiB"
  | whole => "1.50GiB"
  | rate => "10.00Mbit/s"
  end.

(** a value line that gives the value of the scenario for its field *)
Definition scenario_value (raw : string) : bool :=
  is_value_line raw
  && match line_value raw with
     | Some (f, v) => String.eqb v (scenario_expected f)
     | None => false
     end.

(** the line gives a value for the field [f] *)
Definition gives_field (f : field) (raw : string) : bool :=
  match line_value raw with
  | Some (g, _) => field_eqb f g
  | None => false
  end.

(** The lines hold the scenario for the interface [name] and nothing
    else that the parser recognises: the lines that start with one of its
    seven texts are a daily marker of 2024-03-15, then one section line of
    [name], then value lines that give the values of the scenario, each of
    the four values once at least, in any order. The other lines, and the
    white space around every line, are free. *)
Definition scenario_lines (name : string) (lines : list string) : bool :=
  match filter labelled lines with
  | m :: s :: vals =>
      scenario_marker m && is_section s && String.eqb (section_name s) name
      && forallb scenario_value vals
      && forallb (fun f => existsb (gives_field f) vals) [inbound; outbound; whole; rate]
  | _ => false
  end.

(** the text holds the six lines of the scenario, one after the other *)
Definition contains_scenario (name text : string) : Prop :=
  exists before after : list string,
    Str.split Str.newline text
    = (before ++ Str.split Str.newline (scenario name) ++ after)%list.

(** C1, as the specification states it: every text that contains the
    scenario for a registered interface is accepted as the one record of
    the scenario. *)
Definition scenario_one_record_in_every_text : Prop :=
  forall db name i text,
    select_interface_id (interfaces db) name = Some i ->
    contains_scenario name text ->
    accepted db text = [scenario_record i].

(** the scenario for WAN followed by a section of the interface DI *)
Definition scenario_and_section : string :=
  lines_text [scenario "WAN"; "--- Interface DI"; "Entrada: 1KiB"].

(** the scenario for WAN under a heading, with carriage returns, white
    space, a blank line, a line of other text, and the value lines in
    another order, one of them twice *)
Definition scenario_variant : string :=
  lines_text ["Relatorio de consumo" ++ String (Str.chr 13) "";
              "- Ontem (2024-03-15):" ++ String (Str.chr 13) "";
              "";
              "   --- Interface WAN" ++ String (Str.chr 13) "";
              "Total: 1.50GiB";
              "Saida:500.00MiB";
              "  Entrada:   1.00GiB  ";
              "sem dados";
              taxa_label ++ " 10.00Mbit/s" ++ String (Str.chr 13) "";
              "Entrada: 1.00GiB"].

(** * Properties *)

(** ** What a run of the loop stores *)

Lemma sqlite_integer_ok n m : sqlite_integer n = Ok m -> m = n.
Proof.
  unfold sqlite_integer. destruct (_ && _); congruence.
Qed.

Lemma period_eqb_sym p q : period_eqb p q = period_eqb q p.
Proof. destruct p, q; reflexivity. Qed.

Lemma period_eqb_eq p q : period_eqb p q = true <-> p = q.
Proof. destruct p, q; simpl; split; congruence. Qed.

Lemma key_eqb_eq k k' : key_eqb k k' = true <-> k = k'.
Proof.
  destruct k as [[i d] p], k' as [[i' d'] p']. unfold key_eqb.
  rewrite !andb_true_iff, Z.eqb_eq, String.eqb_eq, period_eqb_eq.
  split; [intros [[-> ->] ->]; reflexivity | intros [= -> -> ->]; auto].
Qed.

Lemma key_eqb_refl k : key_eqb k k = true.
Proof. apply key_eqb_eq. reflexivity. Qed.

Lemma same_key_content i d p r :
  same_key i d p r = key_eqb (i, d, p) (fst (content r)).
Proof.
  unfold same_key, key_eqb, content. simpl.
  rewrite (Z.eqb_sym (interface_id r)), (String.eqb_sym (cb_data_referencia r)),
    (period_eqb_sym (cb_periodo r)).
  reflexivity.
Qed.

Lemma put_interfaces db r : interfaces (put db r) = interfaces db.
Proof. destruct r as [[[i d] p] [[[a b] c] t]]. reflexivity. Qed.

Lemma fold_put_interfaces rs : forall db,
  interfaces (fold_left put rs db) = interfaces db.
Proof.
  induction rs as [| r rs IH]; intros db; simpl; [reflexivity |].
  rewrite IH. apply put_interfaces.
Qed.

Lemma content_filter k l :
  map content (filter (fun r => negb (let '(i, d, p) := k in same_key i d p r)) l) =
  filter (fun r' => negb (key_eqb k (fst r'))) (map content l).
Proof.
  induction l as [| x l IH]; [reflexivity |].
  cbn [map filter]. rewrite <- IH.
  replace (let '(i, d, p) := k in same_key i d p x) with (key_eqb k (fst (content x)))
    by (destruct k as [[i d] p]; symmetry; apply same_key_content).
  destruct (key_eqb k (fst (content x))); reflexivity.
Qed.

Lemma stored_put db r : stored (put db r) = upsert (stored db) r.
Proof.
  destruct r as [[[i d] p] [[[a b] c] t]]. unfold stored, upsert, put.
  cbn [consumo_banda fst]. rewrite map_app.
  rewrite <- (content_filter (i, d, p)). reflexivity.
Qed.

Lemma stored_fold_put rs : forall db,
  stored (fold_left put rs db) = fold_left upsert rs (stored db).
Proof.
  induction rs as [| r rs IH]; intros db; simpl; [reflexivity |].
  rewrite IH, stored_put. reflexivity.
Qed.

(** One iteration of the loop, in terms of the record it accepts. *)
Lemma save_entry_accepted db n e :
  save_entry (db, n) e =
  o <- accepted_record (interfaces db) e ;;
  Ok (match o with Some r => (put db r, n + 1) | None => (db, n) end).
Proof.
  unfold save_entry, accepted_record.
  destruct (select_interface_id (interfaces db) (interface e)) as [i |]; [| reflexivity].
  destruct (convert_values e) as [[[[a b] c] d] | x]; [| reflexivity].
  unfold insert_or_replace_consumo, bind.
  destruct (sqlite_integer a) as [a' |] eqn:Ha; [| reflexivity].
  destruct (sqlite_integer b) as [b' |] eqn:Hb; [| reflexivity].
  destruct (sqlite_integer c) as [c' |] eqn:Hc; [| reflexivity].
  destruct (sqlite_integer d) as [d' |] eqn:Hd; [| reflexivity].
  reflexivity.
Qed.

(** The whole loop: it fails exactly when some known entry cannot be
    converted or stored, and otherwise puts the accepted records in order
    and counts them. *)
Lemma save_entries_accepted es : forall db n,
  save_entries (db, n) es =
  rs <- accepted_records (interfaces db) es ;;
  Ok (fold_left put rs db, n + Z.of_nat (List.length rs)).
Proof.
  induction es as [| e es IH]; intros db n; cbn [save_entries accepted_records].
  - cbn. rewrite Z.add_0_r. reflexivity.
  - rewrite save_entry_accepted.
    destruct (accepted_record (interfaces db) e) as [[r |] | x]; cbn [bind]; [| | reflexivity].
    + rewrite IH, put_interfaces.
      destruct (accepted_records (interfaces db) es) as [rs | x]; cbn [bind]; [| reflexivity].
      cbn [fold_left List.length]. do 2 f_equal. lia.
    + rewrite IH.
      destruct (accepted_records (interfaces db) es) as [rs | x]; reflexivity.
Qed.

(** *** Repeated upserts *)

Lemma filter_filter {A : Type} (f g : A -> bool) (l : list A) :
  filter f (filter g l) = filter (fun x => g x && f x) l.
Proof.
  induction l as [| x l IH]; simpl; [reflexivity |].
  destruct (g x); simpl; [destruct (f x) |]; rewrite IH; reflexivity.
Qed.

(** Upserting [rs] into [l] keeps the records of [l] whose key is not in
    [rs], followed by what [rs] leaves in an empty table. *)
Lemma fold_upsert_split rs : forall l,
  fold_left upsert rs l =
  (filter (fun r => negb (key_in (fst r) (keys_of rs))) l ++ fold_left upsert rs [])%list.
Proof.
  induction rs as [| r rs IH]; intros l; simpl.
  - rewrite app_nil_r. induction l as [| x l IHl]; [reflexivity |].
    cbn. cbn in IHl. rewrite <- IHl. reflexivity.
  - rewrite IH, (IH (upsert [] r)). unfold upsert at 1 3. simpl.
    rewrite filter_app, filter_filter, <- app_assoc. f_equal.
    apply filter_ext. intros x. rewrite negb_orb.
    destruct r as [k v], x as [k' v']. simpl.
    assert (E : key_eqb k' k = key_eqb k k').
    { destruct (key_eqb k k') eqn:E1.
      - apply key_eqb_eq in E1. subst. apply key_eqb_refl.
      - destruct (key_eqb k' k) eqn:E2; [| reflexivity].
        apply key_eqb_eq in E2. subst. rewrite key_eqb_refl in E1. discriminate. }
    rewrite E. reflexivity.
Qed.

Lemma fold_upsert_keys rs : forall l r,
  In r (fold_left upsert rs l) -> In r l \/ In (fst r) (keys_of rs).
Proof.
  induction rs as [| x rs IH]; intros l r H; simpl in *; [auto |].
  apply IH in H. destruct H as [H | H]; [| auto].
  unfold upsert in H. apply in_app_or in H. destruct H as [H | H].
  - apply filter_In in H. tauto.
  - simpl in H. destruct H as [-> | []]. auto.
Qed.

Lemma key_in_In k ks : In k ks -> key_in k ks = true.
Proof.
  intros H. unfold key_in. apply existsb_exists. exists k. split; [assumption |].
  apply key_eqb_refl.
Qed.

Lemma filter_known_keys rs : forall l : list record,
  (forall r, In r l -> In (fst r) (keys_of rs)) ->
  filter (fun r => negb (key_in (fst r) (keys_of rs))) l = [].
Proof.
  induction l as [| x l IHl]; intros Hl; [reflexivity |].
  cbn [filter]. rewrite key_in_In by (apply Hl; left; reflexivity).
  apply IHl. intros r Hr. apply Hl. right. assumption.
Qed.

Lemma fold_upsert_idem rs l :
  fold_left upsert rs (fold_left upsert rs l) = fold_left upsert rs l.
Proof.
  rewrite (fold_upsert_split rs (fold_left upsert rs l)).
  rewrite (fold_upsert_split rs l).
  rewrite filter_app, filter_filter.
  rewrite (filter_known_keys rs (fold_left upsert rs [])).
  - rewrite app_nil_r. f_equal.
    apply filter_ext. intros x. destruct (negb _); reflexivity.
  - intros r Hr. apply fold_upsert_keys in Hr. destruct Hr as [[] | Hr]. assumption.
Qed.

Lemma accepted_records_app ifs es1 : forall es2,
  accepted_records ifs (es1 ++ es2) =
  rs1 <- accepted_records ifs es1 ;;
  rs2 <- accepted_records ifs es2 ;;
  Ok (rs1 ++ rs2)%list.
Proof.
  induction es1 as [| e es1 IH]; intros es2; cbn [accepted_records app].
  - cbn [bind]. destruct (accepted_records ifs es2); reflexivity.
  - destruct (accepted_record ifs e) as [o | x]; cbn [bind]; [| reflexivity].
    rewrite IH.
    destruct (accepted_records ifs es1) as [rs1 | x]; cbn [bind]; [| reflexivity].
    destruct (accepted_records ifs es2) as [rs2 | x]; cbn [bind]; [| reflexivity].
    destruct o; reflexivity.
Qed.

(** [upload_data] in terms of the records it accepts. *)
Lemma upload_data_accepted db text :
  upload_data db text =
  if Str.is_empty text then (failure no_data_message, db)
  else if negb (nonempty (parse_bandwidth_data text)) then (failure no_valid_data_message, db)
  else match accepted_records (interfaces db) (parse_bandwidth_data text) with
       | Ok rs => (success_response (Z.of_nat (List.length rs)), fold_left put rs db)
       | Raise e => (failure ("Erro: " ++ str_exn e), db)
       end.
Proof.
  unfold upload_data.
  destruct (Str.is_empty text); [reflexivity |].
  destruct (negb (nonempty (parse_bandwidth_data text))); [reflexivity |].
  rewrite save_entries_accepted.
  destruct (accepted_records (interfaces db) (parse_bandwidth_data text)); reflexivity.
Qed.

(** ** Unknown interfaces *)

(** C4: a parsed record whose interface name is not in the table
    [interfaces] is dropped silently: the loop body leaves the database and
    the count as they are and raises nothing (whatever the fields of the
    record hold), and the whole loop gives the result it gives without
    that record. *)
Theorem unknown_interface_dropped : forall db n es1 e es2,
  select_interface_id (interfaces db) (interface e) = None ->
  save_entry (db, n) e = Ok (db, n) /\
  save_entries (db, n) (es1 ++ e :: es2) = save_entries (db, n) (es1 ++ es2).
Proof.
  intros db n es1 e es2 H.
  assert (A : accepted_record (interfaces db) e = Ok None).
  { unfold accepted_record. rewrite H. reflexivity. }
  split.
  - rewrite save_entry_accepted, A. reflexivity.
  - rewrite !save_entries_accepted, !accepted_records_app.
    cbn [accepted_records]. rewrite A. cbn [bind].
    destruct (accepted_records (interfaces db) es1) as [rs1 | x]; cbn [bind]; [| reflexivity].
    destruct (accepted_records (interfaces db) es2) as [rs2 | x]; reflexivity.
Qed.

Lemma unknown_interface_dropped_witness :
  select_interface_id (interfaces (init_db empty_db)) (interface unknown_entry) = None /\
  save_entry (init_db empty_db, 0) unknown_entry = Ok (init_db empty_db, 0) /\
  save_entries (init_db empty_db, 0) ([] ++ unknown_entry :: []) =
  save_entries (init_db empty_db, 0) ([] ++ []).
Proof.
  split; [reflexivity |].
  apply (unknown_interface_dropped (init_db empty_db) 0 [] unknown_entry []).
  reflexivity.
Defined.

(** ** Idempotence *)

(** C5: uploading the same text a second time leaves the stored records
    (the rows without their row ids) as the first upload left them, row
    for row and in the same order, and answers with the same response:
    each row of a key is replaced in full, none is added and no value is
    summed. *)
Theorem upload_twice_same_content : forall db text,
  stored (snd (upload_data (snd (upload_data db text)) text)) =
  stored (snd (upload_data db text)) /\
  fst (upload_data (snd (upload_data db text)) text) = fst (upload_data db text).
Proof.
  intros db text.
  rewrite (upload_data_accepted db text).
  destruct (Str.is_empty text) eqn:E1.
  { cbn [snd fst]. rewrite upload_data_accepted, E1. split; reflexivity. }
  destruct (negb (nonempty (parse_bandwidth_data text))) eqn:E2.
  { cbn [snd fst]. rewrite upload_data_accepted, E1, E2. split; reflexivity. }
  destruct (accepted_records (interfaces db) (parse_bandwidth_data text)) as [rs | x] eqn:E3.
  - cbn [snd fst]. rewrite upload_data_accepted, E1, E2, fold_put_interfaces, E3.
    cbn [snd fst]. split; [| reflexivity].
    rewrite !stored_fold_put. apply fold_upsert_idem.
  - cbn [snd fst]. rewrite upload_data_accepted, E1, E2, E3. split; reflexivity.
Qed.

(** ** The response of an upload *)

(** C8 fails on the code: two uploads that accept different records are
    answered with the same response. *)
Lemma response_omits_records : ~ response_carries_records.
Proof.
  intros [f Hf].
  pose proof (Hf (init_db empty_db) (one_section "WAN" "1KiB") eq_refl) as H1.
  pose proof (Hf (init_db empty_db) (one_section "WAN" "2KiB") eq_refl) as H2.
  assert (E : fst (upload_data (init_db empty_db) (one_section "WAN" "1KiB")) =
              fst (upload_data (init_db empty_db) (one_section "WAN" "2KiB")))
    by (vm_compute; reflexivity).
  rewrite E, H2 in H1. vm_compute in H1. discriminate.
Qed.

(** C8, amended: the response of a successful upload is the object with
    the keys [success], [message] and [records], where [records] and the
    number in the message are the count of the accepted records; the
    records themselves are stored, in their order, and are not part of the
    response. *)
Theorem success_response_has_count : forall db text,
  succeeded (fst (upload_data db text)) = true ->
  fst (upload_data db text) = success_response (Z.of_nat (List.length (accepted db text))) /\
  snd (upload_data db text) = fold_left put (accepted db text) db.
Proof.
  intros db text. unfold accepted. rewrite upload_data_accepted.
  destruct (Str.is_empty text); [discriminate |].
  destruct (negb (nonempty (parse_bandwidth_data text))); [discriminate |].
  destruct (accepted_records (interfaces db) (parse_bandwidth_data text)); [| discriminate].
  intros _. split; reflexivity.
Qed.

Lemma success_response_has_count_witness :
  succeeded (fst (upload_data (init_db empty_db) (one_section "WAN" "1KiB"))) = true /\
  fst (upload_data (init_db empty_db) (one_section "WAN" "1KiB")) =
    success_response (Z.of_nat (List.length (accepted (init_db empty_db) (one_section "WAN" "1KiB")))) /\
  snd (upload_data (init_db empty_db) (one_section "WAN" "1KiB")) =
    fold_left put (accepted (init_db empty_db) (one_section "WAN" "1KiB")) (init_db empty_db).
Proof.
  split; [vm_compute; reflexivity |].
  apply (success_response_has_count (init_db empty_db) (one_section "WAN" "1KiB")).
  vm_compute. reflexivity.
Defined.

(** ** Count of saved records and stored rows *)

Lemma upsert_length l r : (List.length (upsert l r) <= S (List.length l))%nat.
Proof.
  unfold upsert. rewrite length_app, Nat.add_comm. cbn [List.length Nat.add].
  apply le_n_S, filter_length_le.
Qed.

Lemma fold_upsert_length rs : forall l,
  (List.length (fold_left upsert rs l) <= List.length l + List.length rs)%nat.
Proof.
  induction rs as [| r rs IH]; intros l; cbn [fold_left List.length]; [lia |].
  specialize (IH (upsert l r)). pose proof (upsert_length l r). lia.
Qed.

Lemma upsert_key_kept k l r :
  key_in k (keys_of l) = true -> key_in k (keys_of (upsert l r)) = true.
Proof.
  unfold key_in, keys_of, upsert. rewrite !existsb_exists.
  intros [k' [Hin Hk]]. apply key_eqb_eq in Hk. subst k'.
  apply in_map_iff in Hin. destruct Hin as [x [Hx Hin]].
  destruct (key_eqb (fst r) k) eqn:E.
  - exists (fst r). split.
    + apply in_map, in_or_app. right. left. reflexivity.
    + apply key_eqb_eq in E. apply key_eqb_eq. symmetry. exact E.
  - exists k. split; [| apply key_eqb_refl].
    apply in_map_iff. exists x. split; [assumption |].
    apply in_or_app. left. apply filter_In. split; [assumption |].
    rewrite Hx, E. reflexivity.
Qed.

Lemma fold_upsert_key_kept k rs : forall l,
  key_in k (keys_of l) = true -> key_in k (keys_of (fold_left upsert rs l)) = true.
Proof.
  induction rs as [| r rs IH]; intros l H; cbn [fold_left]; [assumption |].
  apply IH, upsert_key_kept, H.
Qed.

Lemma upsert_key_present l r : key_in (fst r) (keys_of (upsert l r)) = true.
Proof.
  apply key_in_In. unfold keys_of, upsert. apply in_map, in_or_app. right. left. reflexivity.
Qed.

Lemma filter_length_lt {A : Type} (f : A -> bool) (l : list A) x :
  In x l -> f x = false -> (List.length (filter f l) < List.length l)%nat.
Proof.
  induction l as [| y l IH]; intros Hin Hf; [destruct Hin |].
  cbn [filter List.length]. destruct Hin as [-> | Hin].
  - rewrite Hf. pose proof (filter_length_le f l). lia.
  - specialize (IH Hin Hf). destruct (f y); cbn [List.length]; lia.
Qed.

Lemma upsert_length_present l r :
  key_in (fst r) (keys_of l) = true -> (List.length (upsert l r) <= List.length l)%nat.
Proof.
  unfold key_in, keys_of. rewrite existsb_exists.
  intros [k [Hin Hk]]. apply in_map_iff in Hin. destruct Hin as [x [Hx Hin]].
  unfold upsert. rewrite length_app. cbn [List.length].
  pose proof (filter_length_lt (fun r' => negb (key_eqb (fst r) (fst r'))) l x Hin) as H.
  cbv beta in H. rewrite Hx, Hk in H. specialize (H eq_refl).
  rewrite Nat.add_comm. cbn [Nat.add]. apply H.
Qed.

(** Two records of one key among the upserted ones make the table grow
    by less than their number. *)
Lemma fold_upsert_length_dup (rs1 : list record) (r1 : record) (rs2 : list record)
    (r2 : record) (rs3 l : list record) :
  fst r2 = fst r1 ->
  (List.length (fold_left upsert (rs1 ++ r1 :: rs2 ++ r2 :: rs3) l)
   < List.length l + List.length (rs1 ++ r1 :: rs2 ++ r2 :: rs3))%nat.
Proof.
  intros Hk.
  rewrite fold_left_app. cbn [fold_left]. rewrite fold_left_app. cbn [fold_left].
  rewrite !length_app. cbn [List.length]. rewrite length_app. cbn [List.length].
  set (l1 := fold_left upsert rs1 l).
  set (l2 := fold_left upsert rs2 (upsert l1 r1)).
  pose proof (fold_upsert_length rs1 l) as H1. fold l1 in H1.
  pose proof (upsert_length l1 r1) as H2.
  pose proof (fold_upsert_length rs2 (upsert l1 r1)) as H3. fold l2 in H3.
  assert (H4 : (List.length (upsert l2 r2) <= List.length l2)%nat).
  { apply upsert_length_present. rewrite Hk. unfold l2.
    apply fold_upsert_key_kept, upsert_key_present. }
  pose proof (fold_upsert_length rs3 (upsert l2 r2)) as H5.
  lia.
Qed.

Lemma accepted_record_known ifs e i r :
  select_interface_id ifs (interface e) = Some i ->
  accepted_record ifs e = Ok r ->
  exists v, r = Some ((i, data_referencia e, periodo e), v).
Proof.
  unfold accepted_record. intros ->.
  destruct (convert_values e) as [[[[a b] c] d] | x]; cbn [bind]; [| discriminate].
  destruct (sqlite_integer a); cbn [bind]; [| discriminate].
  destruct (sqlite_integer b); cbn [bind]; [| discriminate].
  destruct (sqlite_integer c); cbn [bind]; [| discriminate].
  destruct (sqlite_integer d); cbn [bind]; [| discriminate].
  intros [= <-]. eexists. reflexivity.
Qed.

(** ** The parser: context and sections *)

Lemma is_empty_app_cons a c b : Str.is_empty (a ++ String c b) = false.
Proof. destruct a; reflexivity. Qed.

Lemma day_here_nonempty s d : day_here s = Some d -> Str.is_empty d = false.
Proof.
  unfold day_here, opt_bind.
  destruct (take_char "(" s) as [s1 |]; [| discriminate].
  destruct (take_digits 4 s1) as [[y s2] |]; [| discriminate].
  destruct (take_char "-" s2) as [s3 |]; [| discriminate].
  destruct (take_digits 2 s3) as [[m s4] |]; [| discriminate].
  destruct (take_char "-" s4) as [s5 |]; [| discriminate].
  destruct (take_digits 2 s5) as [[dd s6] |]; [| discriminate].
  destruct (take_char ")" s6); [| discriminate].
  intros [= <-]. apply is_empty_app_cons.
Qed.

Lemma search_day_nonempty s : forall d,
  search day_here s = Some d -> Str.is_empty d = false.
Proof.
  induction s as [| c s IH]; intros d; cbn [search].
  - destruct (day_here "") eqn:E; [| discriminate].
    intros [= <-]. eapply day_here_nonempty, E.
  - destruct (day_here (String c s)) eqn:E.
    + intros [= <-]. eapply day_here_nonempty, E.
    + apply IH.
Qed.

Lemma parse_line_invariant st raw :
  context_invariant st -> context_invariant (parse_line st raw).
Proof.
  unfold context_invariant, parse_line. intros H.
  destruct (Str.startswith (Str.strip raw) ontem_marker).
  { destruct (search day_here (Str.strip raw)) as [d |] eqn:E; [| assumption].
    destruct H as [H | H]; [left; assumption | right].
    unfold context_active. cbn [current_date current_period truthy is_some].
    rewrite (search_day_nonempty _ _ E). reflexivity. }
  destruct (Str.startswith (Str.strip raw) mes_marker).
  { destruct (search month_here (Str.strip raw)) as [m |] eqn:E; [| assumption].
    destruct H as [H | H]; [left; assumption | right].
    unfold context_active. cbn [current_date current_period truthy is_some].
    rewrite is_empty_app_cons. reflexivity. }
  destruct (Str.startswith (Str.strip raw) interface_marker).
  { destruct (current_date st) as [d |] eqn:Ed; [| assumption].
    destruct (current_period st) as [p |] eqn:Ep; [| assumption].
    destruct (truthy (Some d)) eqn:Et; [| assumption].
    right. unfold context_active. cbn [current_date current_period].
    rewrite Et. reflexivity. }
  assert (G : forall f, context_invariant
            (mk_parser (update_last f (data st)) (current_date st) (current_period st))).
  { intros f. destruct H as [H | H]; [left | right; exact H].
    cbn [data]. rewrite H. reflexivity. }
  destruct (Str.startswith (Str.strip raw) entrada_label && nonempty (data st)); [apply G |].
  destruct (Str.startswith (Str.strip raw) saida_label && nonempty (data st)); [apply G |].
  destruct (Str.startswith (Str.strip raw) total_label && nonempty (data st)); [apply G |].
  destruct (Str.startswith (Str.strip raw) taxa_label && nonempty (data st)); [apply G |].
  assumption.
Qed.

Lemma parse_lines_invariant lines : forall st,
  context_invariant st -> context_invariant (parse_lines st lines).
Proof.
  unfold parse_lines.
  induction lines as [| l lines IH]; intros st H; cbn [fold_left]; [assumption |].
  apply IH, parse_line_invariant, H.
Qed.

Lemma record_needs_context lines :
  context_active (parse_lines initial lines) = false ->
  data (parse_lines initial lines) = [].
Proof.
  intros H. destruct (parse_lines_invariant lines initial) as [G | G].
  - left. reflexivity.
  - assumption.
  - congruence.
Qed.

Lemma section_not_marker raw :
  is_section raw = true ->
  Str.startswith (Str.strip raw) ontem_marker = false /\
  Str.startswith (Str.strip raw) mes_marker = false.
Proof.
  unfold is_section, interface_marker. intros H.
  destruct (Str.strip raw) as [| a s]; [discriminate |].
  cbn [Str.startswith] in H. apply andb_true_iff in H. destruct H as [Ha H].
  destruct s as [| b s]; [discriminate |].
  cbn [Str.startswith] in H. apply andb_true_iff in H. destruct H as [Hb _].
  apply Ascii.eqb_eq in Ha, Hb. subst a b. split; reflexivity.
Qed.

Lemma update_last_snoc f d e : update_last f (d ++ [e]) = (d ++ [f e])%list.
Proof.
  induction d as [| x d IH]; [reflexivity |].
  cbn [app update_last]. rewrite IH.
  destruct (d ++ [e])%list eqn:E; [destruct d; discriminate | reflexivity].
Qed.

(** A line that opens no section leaves an empty list of records empty. *)
Lemma parse_line_no_section_empty st raw :
  is_section raw = false -> data st = [] -> data (parse_line st raw) = [].
Proof.
  unfold is_section, parse_line. intros Hs Hd.
  destruct (Str.startswith (Str.strip raw) ontem_marker).
  { destruct (search day_here (Str.strip raw)); assumption. }
  destruct (Str.startswith (Str.strip raw) mes_marker).
  { destruct (search month_here (Str.strip raw)); assumption. }
  rewrite Hs, Hd. cbn [nonempty]. rewrite !andb_false_r. assumption.
Qed.

(** A line that opens no section changes at most the last record, and
    not its interface name. *)
Lemma parse_line_no_section_last st raw d e :
  is_section raw = false -> data st = (d ++ [e])%list ->
  exists e', data (parse_line st raw) = (d ++ [e'])%list /\ interface e' = interface e.
Proof.
  unfold is_section, parse_line. intros Hs Hd.
  destruct (Str.startswith (Str.strip raw) ontem_marker).
  { exists e. destruct (search day_here (Str.strip raw)); split; auto. }
  destruct (Str.startswith (Str.strip raw) mes_marker).
  { exists e. destruct (search month_here (Str.strip raw)); split; auto. }
  rewrite Hs, Hd.
  destruct (Str.startswith (Str.strip raw) entrada_label && _).
  { eexists. cbn [data]. rewrite update_last_snoc. split; reflexivity. }
  destruct (Str.startswith (Str.strip raw) saida_label && _).
  { eexists. cbn [data]. rewrite update_last_snoc. split; reflexivity. }
  destruct (Str.startswith (Str.strip raw) total_label && _).
  { eexists. cbn [data]. rewrite update_last_snoc. split; reflexivity. }
  destruct (Str.startswith (Str.strip raw) taxa_label && _).
  { eexists. cbn [data]. rewrite update_last_snoc. split; reflexivity. }
  exists e. split; [assumption | reflexivity].
Qed.

Lemma parse_lines_no_section_empty rest : forall st,
  forallb (fun l => negb (is_section l)) rest = true ->
  data st = [] -> data (parse_lines st rest) = [].
Proof.
  unfold parse_lines.
  induction rest as [| l rest IH]; intros st Hr Hd; cbn [fold_left]; [assumption |].
  cbn [forallb] in Hr. apply andb_true_iff in Hr. destruct Hr as [Hl Hr].
  apply negb_true_iff in Hl.
  apply IH; [assumption |]. apply parse_line_no_section_empty; assumption.
Qed.

Lemma parse_lines_no_section_last rest : forall st d e,
  forallb (fun l => negb (is_section l)) rest = true ->
  data st = (d ++ [e])%list ->
  exists e', data (parse_lines st rest) = (d ++ [e'])%list /\ interface e' = interface e.
Proof.
  unfold parse_lines.
  induction rest as [| l rest IH]; intros st d e Hr Hd; cbn [fold_left].
  - exists e. split; [assumption | reflexivity].
  - cbn [forallb] in Hr. apply andb_true_iff in Hr. destruct Hr as [Hl Hr].
    apply negb_true_iff in Hl.
    destruct (parse_line_no_section_last st l d e Hl Hd) as [e1 [H1 H2]].
    destruct (IH (parse_line st l) d e1 Hr H1) as [e2 [H3 H4]].
    exists e2. split; [assumption | congruence].
Qed.

(** X29: on every input, an interface section line is ignored only while
    no context is active, and then no record was appended before, so that
    it and the lines after it up to the next section line leave the list of
    records empty; under an active context the section line appends a record
    of its own, and the lines after it up to the next section line change
    that record only, never an earlier one. *)
Theorem section_line_then_values : forall lines line rest,
  is_section line = true ->
  forallb (fun l => negb (is_section l)) rest = true ->
  (context_active (parse_lines initial lines) = false ->
   data (parse_lines initial lines) = [] /\
   parse_line (parse_lines initial lines) line = parse_lines initial lines /\
   data (parse_lines (parse_line (parse_lines initial lines) line) rest) = []) /\
  (context_active (parse_lines initial lines) = true ->
   exists e,
     data (parse_lines (parse_line (parse_lines initial lines) line) rest) =
       (data (parse_lines initial lines) ++ [e])%list /\
     interface e = value_of interface_marker (Str.strip line)).
Proof.
  intros lines line rest Hs Hr.
  set (st := parse_lines initial lines).
  destruct (section_not_marker line Hs) as [Ho Hm].
  unfold is_section in Hs.
  split; intros Hc.
  - assert (Hd : data st = []) by (apply record_needs_context, Hc).
    assert (Hl : parse_line st line = st).
    { unfold parse_line. rewrite Ho, Hm, Hs.
      unfold context_active in Hc.
      destruct (current_date st) as [d |]; [| reflexivity].
      destruct (current_period st) as [p |]; [| reflexivity].
      cbn [is_some] in Hc. rewrite andb_true_r in Hc. rewrite Hc. reflexivity. }
    split; [assumption |]. split; [assumption |].
    rewrite Hl. apply parse_lines_no_section_empty; assumption.
  - unfold context_active in Hc. apply andb_true_iff in Hc. destruct Hc as [Hc1 Hc2].
    destruct (current_date st) as [d |] eqn:Ed; [| discriminate].
    destruct (current_period st) as [p |] eqn:Ep; [| discriminate].
    assert (Hl : data (parse_line st line) =
                 (data st ++ [mk_entry (value_of interface_marker (Str.strip line)) d p
                                       None None None None])%list).
    { unfold parse_line. rewrite Ho, Hm, Hs, Ed, Ep, Hc1. reflexivity. }
    destruct (parse_lines_no_section_last rest _ _ _ Hr Hl) as [e [H1 H2]].
    exists e. split; assumption.
Qed.

Lemma section_line_then_values_witness :
  (context_active (parse_lines initial ["Relatorio"]) = false /\
   data (parse_lines (parse_line (parse_lines initial ["Relatorio"]) "--- Interface WAN")
           ["Entrada: 1KiB"]) = []) /\
  (context_active (parse_lines initial ["- Ontem (2024-03-15)"]) = true /\
   exists e,
     data (parse_lines (parse_line (parse_lines initial ["- Ontem (2024-03-15)"])
                          "--- Interface WAN") ["Entrada: 1KiB"]) =
       (data (parse_lines initial ["- Ontem (2024-03-15)"]) ++ [e])%list /\
     interface e = value_of interface_marker (Str.strip "--- Interface WAN")).
Proof.
  split.
  - split; [reflexivity |].
    apply (section_line_then_values ["Relatorio"] "--- Interface WAN" ["Entrada: 1KiB"]
             eq_refl eq_refl).
    reflexivity.
  - split; [reflexivity |].
    apply (section_line_then_values ["- Ontem (2024-03-15)"] "--- Interface WAN"
             ["Entrada: 1KiB"] eq_refl eq_refl).
    reflexivity.
Defined.

(** ** Binary64 arithmetic *)

Module FloatFacts.

Import Float.

Lemma fexp_eq x : fexp prec emax x = fexp64 x.
Proof. reflexivity. Qed.

(** *** Number of binary digits *)

Lemma digits2_pos_bounds p :
  2 ^ (Zpos (digits2_pos p) - 1) <= Zpos p < 2 ^ Zpos (digits2_pos p).
Proof.
  induction p as [p IH | p IH |]; cbn [digits2_pos].
  - rewrite Pos2Z.inj_succ.
    replace (Z.succ (Zpos (digits2_pos p)) - 1) with (Z.succ (Zpos (digits2_pos p) - 1)) by lia.
    rewrite !Z.pow_succ_r by lia. lia.
  - rewrite Pos2Z.inj_succ.
    replace (Z.succ (Zpos (digits2_pos p)) - 1) with (Z.succ (Zpos (digits2_pos p) - 1)) by lia.
    rewrite !Z.pow_succ_r by lia. lia.
  - cbn. lia.
Qed.

Lemma Zdigits2_nonneg m : 0 <= Zdigits2 m.
Proof. destruct m; cbn; lia. Qed.

Lemma Zdigits2_pos m : 0 < m -> 1 <= Zdigits2 m.
Proof. destruct m; cbn; lia. Qed.

Lemma Zdigits2_bounds m :
  0 < m -> 2 ^ (Zdigits2 m - 1) <= m < 2 ^ Zdigits2 m.
Proof.
  destruct m as [| p | p]; try lia. intros _. apply digits2_pos_bounds.
Qed.

Lemma Zdigits2_le m k : 0 <= m < 2 ^ k -> 0 <= k -> Zdigits2 m <= k.
Proof.
  intros [H0 H1] Hk.
  destruct (Z.eq_dec m 0) as [-> | Hm]; [cbn; lia |].
  pose proof (Zdigits2_bounds m ltac:(lia)) as [Hl _].
  destruct (Z.le_gt_cases (Zdigits2 m) k) as [| Hgt]; [assumption | exfalso].
  assert (2 ^ k <= 2 ^ (Zdigits2 m - 1)) by (apply Z.pow_le_mono_r; lia).
  lia.
Qed.

Lemma Zdigits2_ge m k : 2 ^ (k - 1) <= m -> 1 <= k -> k <= Zdigits2 m.
Proof.
  intros H Hk.
  assert (0 < 2 ^ (k - 1)) by (apply Z.pow_pos_nonneg; lia).
  pose proof (Zdigits2_bounds m ltac:(lia)) as [_ Hu].
  destruct (Z.le_gt_cases k (Zdigits2 m)) as [| Hgt]; [assumption | exfalso].
  assert (2 ^ Zdigits2 m <= 2 ^ (k - 1)) by (apply Z.pow_le_mono_r; lia).
  lia.
Qed.

Lemma Zdigits2_eq m k : 2 ^ (k - 1) <= m < 2 ^ k -> 1 <= k -> Zdigits2 m = k.
Proof.
  intros [Hl Hu] Hk.
  assert (0 < 2 ^ (k - 1)) by (apply Z.pow_pos_nonneg; lia).
  pose proof (Zdigits2_le m k ltac:(lia) ltac:(lia)).
  pose proof (Zdigits2_ge m k Hl Hk). lia.
Qed.

Lemma Zdigits2_mono a b : 0 <= a <= b -> Zdigits2 a <= Zdigits2 b.
Proof.
  intros [Ha Hab].
  destruct (Z.eq_dec b 0) as [-> | Hb]; [replace a with 0 by lia; lia |].
  pose proof (Zdigits2_bounds b ltac:(lia)) as [_ Hu].
  apply Zdigits2_le; [lia | apply Zdigits2_nonneg].
Qed.

Lemma Zdigits2_mul_le a b :
  0 < a -> 0 < b -> Zdigits2 (a * b) <= Zdigits2 a + Zdigits2 b.
Proof.
  intros Ha Hb.
  pose proof (Zdigits2_bounds a Ha) as [_ Hua].
  pose proof (Zdigits2_bounds b Hb) as [_ Hub].
  pose proof (Zdigits2_nonneg a). pose proof (Zdigits2_nonneg b).
  apply Zdigits2_le; [| lia].
  rewrite Z.pow_add_r by lia. nia.
Qed.

Lemma Zdigits2_mul_ge a b :
  0 < a -> 0 < b -> Zdigits2 a + Zdigits2 b - 1 <= Zdigits2 (a * b).
Proof.
  intros Ha Hb.
  pose proof (Zdigits2_bounds a Ha) as [Hla _].
  pose proof (Zdigits2_bounds b Hb) as [Hlb _].
  pose proof (Zdigits2_pos a Ha). pose proof (Zdigits2_pos b Hb).
  apply Zdigits2_ge; [| lia].
  replace (Zdigits2 a + Zdigits2 b - 1 - 1) with ((Zdigits2 a - 1) + (Zdigits2 b - 1)) by lia.
  rewrite Z.pow_add_r by lia.
  assert (0 < 2 ^ (Zdigits2 a - 1)) by (apply Z.pow_pos_nonneg; lia).
  assert (0 < 2 ^ (Zdigits2 b - 1)) by (apply Z.pow_pos_nonneg; lia).
  nia.
Qed.

(** digits of a quotient by a power of two *)
Lemma Zdigits2_div_pow2 m n :
  0 <= m -> 0 <= n -> n < Zdigits2 m -> Zdigits2 (m / 2 ^ n) = Zdigits2 m - n.
Proof.
  intros Hm Hn Hd.
  assert (0 < m) by (destruct m; cbn in Hd; lia).
  pose proof (Zdigits2_bounds m ltac:(lia)) as [Hl Hu].
  assert (Hp : 0 < 2 ^ n) by (apply Z.pow_pos_nonneg; lia).
  apply Zdigits2_eq; [| lia]. split.
  - apply Z.div_le_lower_bound; [assumption |].
    rewrite <- Z.pow_add_r by lia.
    replace (n + (Zdigits2 m - n - 1)) with (Zdigits2 m - 1) by lia. assumption.
  - apply Z.div_lt_upper_bound; [assumption |].
    rewrite <- Z.pow_add_r by lia.
    replace (n + (Zdigits2 m - n)) with (Zdigits2 m) by lia. assumption.
Qed.

Lemma div_pow2_small m n :
  0 <= m -> 0 <= n -> Zdigits2 m <= n -> m / 2 ^ n = 0.
Proof.
  intros Hm Hn Hd.
  destruct (Z.eq_dec m 0) as [-> | Hm0]; [apply Z.div_0_l; apply Z.pow_nonzero; lia |].
  pose proof (Zdigits2_bounds m ltac:(lia)) as [_ Hu].
  apply Z.div_small. split; [assumption |].
  assert (2 ^ Zdigits2 m <= 2 ^ n) by (apply Z.pow_le_mono_r; lia).
  lia.
Qed.

(** *** Right shifts with round and sticky bits *)

Lemma shr_1_m mrs : 0 <= shr_m mrs -> shr_m (shr_1 mrs) = shr_m mrs / 2.
Proof.
  destruct mrs as [m r s]. cbn [shr_m]. intros H. rewrite <- Z.div2_div.
  destruct m as [| [p | p |] |]; try reflexivity. lia.
Qed.

Lemma pow2_xO p : 2 ^ Zpos p~0 = 2 ^ Zpos p * 2 ^ Zpos p.
Proof.
  replace (Zpos p~0) with (Zpos p + Zpos p) by lia.
  apply Z.pow_add_r; lia.
Qed.

Lemma pow2_xI p : 2 ^ Zpos p~1 = 2 * (2 ^ Zpos p * 2 ^ Zpos p).
Proof.
  replace (Zpos p~1) with (1 + (Zpos p + Zpos p)) by lia.
  rewrite !Z.pow_add_r by lia. reflexivity.
Qed.

Lemma pow2_Zpos k : 0 < 2 ^ Zpos k.
Proof. apply Z.pow_pos_nonneg; lia. Qed.

Lemma iter_shr_m p : forall mrs,
  0 <= shr_m mrs -> shr_m (iter_pos shr_1 p mrs) = shr_m mrs / 2 ^ Zpos p.
Proof.
  induction p as [p IH | p IH |]; intros mrs H; cbn [iter_pos].
  - assert (H1 : 0 <= shr_m (shr_1 mrs)) by (rewrite shr_1_m by assumption; apply Z.div_pos; lia).
    assert (H2 : 0 <= shr_m (iter_pos shr_1 p (shr_1 mrs))).
    { rewrite IH by assumption. apply Z.div_pos; [assumption | apply pow2_Zpos]. }
    rewrite IH, IH, shr_1_m by assumption.
    pose proof (pow2_Zpos p).
    rewrite !Z.div_div by lia. rewrite pow2_xI. reflexivity.
  - assert (H2 : 0 <= shr_m (iter_pos shr_1 p mrs)).
    { rewrite IH by assumption. apply Z.div_pos; [assumption | apply pow2_Zpos]. }
    rewrite IH, IH by assumption.
    pose proof (pow2_Zpos p).
    rewrite !Z.div_div by lia. rewrite pow2_xO. reflexivity.
  - rewrite shr_1_m by assumption. reflexivity.
Qed.

Lemma shr_1_exact m :
  0 <= m -> shr_1 (Build_shr_record (2 * m) false false) = Build_shr_record m false false.
Proof. destruct m as [| p | p]; [reflexivity | reflexivity | lia]. Qed.

Lemma iter_shr_exact p : forall m,
  0 <= m ->
  iter_pos shr_1 p (Build_shr_record (m * 2 ^ Zpos p) false false)
  = Build_shr_record m false false.
Proof.
  induction p as [p IH | p IH |]; intros m H; cbn [iter_pos].
  - pose proof (pow2_Zpos p).
    replace (m * 2 ^ Zpos p~1) with (2 * ((m * 2 ^ Zpos p) * 2 ^ Zpos p))
      by (rewrite pow2_xI; ring).
    rewrite shr_1_exact by nia. rewrite IH by nia. apply IH, H.
  - pose proof (pow2_Zpos p).
    replace (m * 2 ^ Zpos p~0) with ((m * 2 ^ Zpos p) * 2 ^ Zpos p)
      by (rewrite pow2_xO; ring).
    rewrite IH by nia. apply IH, H.
  - change (2 ^ 1) with 2. rewrite Z.mul_comm. apply shr_1_exact, H.
Qed.

Lemma shr_record_of_loc_m m l : shr_m (shr_record_of_loc m l) = m.
Proof. destruct l as [| []]; reflexivity. Qed.

Lemma round_nearest_even_bounds m l :
  m <= round_nearest_even m l <= m + 1.
Proof.
  destruct l as [| []]; cbn [round_nearest_even]; try lia.
  destruct (Z.even m); lia.
Qed.

(** the exponent and the mantissa after the shift to the exponent of the
    format *)
Lemma shr_fexp_spec m e l :
  0 <= m ->
  snd (shr_fexp prec emax m e l) = e + Z.max (fexp64 (Zdigits2 m + e) - e) 0 /\
  shr_m (fst (shr_fexp prec emax m e l))
  = m / 2 ^ Z.max (fexp64 (Zdigits2 m + e) - e) 0.
Proof.
  intros H. unfold shr_fexp, shr. rewrite fexp_eq.
  destruct (fexp64 (Zdigits2 m + e) - e) as [| p | p] eqn:E; cbn [fst snd].
  - rewrite shr_record_of_loc_m. cbn [Z.max Z.compare]. rewrite Z.div_1_r. lia.
  - rewrite iter_shr_m by (rewrite shr_record_of_loc_m; assumption).
    rewrite shr_record_of_loc_m. replace (Z.max (Zpos p) 0) with (Zpos p) by lia.
    split; reflexivity.
  - rewrite shr_record_of_loc_m. replace (Z.max (Zneg p) 0) with 0 by lia.
    rewrite Z.div_1_r. lia.
Qed.

(** *** Rounding gives a float of the format *)

(** the mantissa after the first shift has at most 53 digits, and exactly
    53 above the subnormal range *)
Lemma first_shift_digits m e :
  0 <= m ->
  e <= fexp64 (Zdigits2 m + e) ->
  let n := fexp64 (Zdigits2 m + e) - e in
  0 <= m / 2 ^ n < 2 ^ 53 /\
  (- 1074 < fexp64 (Zdigits2 m + e) -> 2 ^ 52 <= m / 2 ^ n).
Proof.
  intros Hm He n. unfold fexp64 in *.
  assert (Hn : 0 <= n) by (unfold n, fexp64; lia).
  assert (Hp : 0 < 2 ^ n) by (apply Z.pow_pos_nonneg; lia).
  pose proof (Zdigits2_nonneg m) as Hd.
  destruct (Z.le_gt_cases (Zdigits2 m) n) as [Hs | Hl].
  - rewrite div_pow2_small by assumption. split; [split; [lia | reflexivity] |].
    intros Hx. exfalso. unfold n in Hs. lia.
  - pose proof (Zdigits2_div_pow2 m n Hm Hn Hl) as Hq.
    assert (Hq0 : 0 < m / 2 ^ n).
    { destruct (Z.eq_dec (m / 2 ^ n) 0) as [E | E].
      - rewrite E in Hq. cbn in Hq. lia.
      - pose proof (Z.div_pos m (2 ^ n) Hm Hp). lia. }
    pose proof (Zdigits2_bounds _ Hq0) as [Hlo Hhi]. rewrite Hq in Hlo, Hhi.
    split.
    + split; [lia |].
      assert (2 ^ (Zdigits2 m - n) <= 2 ^ 53) by (apply Z.pow_le_mono_r; unfold n; lia).
      lia.
    + intros Hx. replace (Zdigits2 m - n - 1) with 52 in Hlo by (unfold n; lia).
      assumption.
Qed.

Lemma binary_round_aux_valid s m e l :
  0 <= m ->
  e <= fexp64 (Zdigits2 m + e) ->
  Zdigits2 m + e <= 1023 ->
  binary_round_aux prec emax s m e l = S754_zero s \/
  exists m' e',
    binary_round_aux prec emax s m e l = S754_finite s m' e' /\
    bounded prec emax m' e' = true /\
    Zpos (digits2_pos m') + e' <= Z.max (Zdigits2 m + e) (- 1021) + 1.
Proof.
  intros Hm He Hb.
  pose proof (first_shift_digits m e Hm He) as [[Hq0 Hq1] Hq2].
  pose proof (shr_fexp_spec m e l Hm) as [Hs1 Hm1].
  unfold binary_round_aux.
  destruct (shr_fexp prec emax m e l) as [r1 e1]. cbn [fst snd] in Hs1, Hm1.
  replace (Z.max (fexp64 (Zdigits2 m + e) - e) 0)
    with (fexp64 (Zdigits2 m + e) - e) in Hs1, Hm1 by lia.
  set (E := fexp64 (Zdigits2 m + e)) in *.
  replace (e + (E - e)) with E in Hs1 by lia. subst e1.
  pose proof (round_nearest_even_bounds (shr_m r1) (loc_of_shr_record r1)) as Hr.
  set (m1 := round_nearest_even (shr_m r1) (loc_of_shr_record r1)) in *.
  rewrite Hm1 in Hr.
  assert (HE : - 1074 <= E <= 970) by (unfold E, fexp64; lia).
  assert (Hm1' : 0 <= m1) by lia.
  pose proof (shr_fexp_spec m1 E loc_Exact Hm1') as [Hs2 Hm2].
  destruct (shr_fexp prec emax m1 E loc_Exact) as [r2 e2]. cbn [fst snd] in Hs2, Hm2.
  destruct (Z.eq_dec m1 (2 ^ 53)) as [Hc | Hc].
  - (* the rounding carries into a 54th digit *)
    rewrite Hc in Hs2, Hm2.
    change (Zdigits2 (2 ^ 53)) with 54 in Hs2, Hm2.
    replace (Z.max (fexp64 (54 + E) - E) 0) with 1 in Hs2, Hm2 by (unfold fexp64; lia).
    change (2 ^ 53 / 2 ^ 1) with (Zpos (2 ^ 52)) in Hm2.
    rewrite Hm2. subst e2. right.
    exists (2 ^ 52)%positive, (E + 1).
    replace (E + 1 <=? emax - prec) with true by (symmetry; apply Z.leb_le; unfold emax, prec; lia).
    split; [reflexivity |]. split.
    + unfold bounded, canonical_mantissa. rewrite fexp_eq.
      change (Zpos (digits2_pos (2 ^ 52))) with 53.
      apply andb_true_iff. split; [apply Z.eqb_eq; unfold fexp64; lia |].
      apply Z.leb_le. unfold emax, prec. lia.
    + change (Zpos (digits2_pos (2 ^ 52))) with 53. unfold E, fexp64. lia.
  - (* no carry *)
    assert (Hlt : m1 < 2 ^ 53) by lia.
    assert (Hd1 : Zdigits2 m1 <= 53) by (apply Zdigits2_le; lia).
    pose proof (Zdigits2_nonneg m1) as Hd0.
    replace (Z.max (fexp64 (Zdigits2 m1 + E) - E) 0) with 0 in Hs2, Hm2 by (unfold fexp64; lia).
    rewrite Z.div_1_r in Hm2. rewrite Z.add_0_r in Hs2. rewrite Hm2. subst e2.
    destruct m1 as [| p | p] eqn:Ep; [left; reflexivity | right | lia].
    exists p, E.
    replace (E <=? emax - prec) with true by (symmetry; apply Z.leb_le; unfold emax, prec; lia).
    split; [reflexivity |]. split.
    + unfold bounded, canonical_mantissa. rewrite fexp_eq.
      change (Zpos (digits2_pos p)) with (Zdigits2 (Zpos p)).
      apply andb_true_iff. split; [| apply Z.leb_le; unfold emax, prec; lia].
      apply Z.eqb_eq.
      destruct (Z.eq_dec E (- 1074)) as [E0 | E0]; [unfold fexp64; lia |].
      assert (Zdigits2 (Zpos p) = 53); [| unfold fexp64; lia].
      apply Zdigits2_eq; [| lia]. specialize (Hq2 ltac:(lia)). change (53 - 1) with 52. lia.
    + change (Zpos (digits2_pos p)) with (Zdigits2 (Zpos p)). unfold E, fexp64 in *. lia.
Qed.

Lemma binary_round_aux_finite s m e l :
  0 <= m ->
  e <= fexp64 (Zdigits2 m + e) ->
  Zdigits2 m + e <= 1023 ->
  finite_below (Z.max (Zdigits2 m + e) (- 1021) + 1) (binary_round_aux prec emax s m e l) /\
  sign_of (binary_round_aux prec emax s m e l) = s.
Proof.
  intros Hm He Hb.
  destruct (binary_round_aux_valid s m e l Hm He Hb) as [-> | [m' [e' [-> [H1 H2]]]]];
    cbn [finite_below sign_of]; auto.
Qed.

Lemma finite_below_le b b' x : b <= b' -> finite_below b x -> finite_below b' x.
Proof. destruct x; cbn [finite_below]; intros; try tauto. split; [tauto | lia]. Qed.

Lemma iter_xO m d : Zpos (Pos.iter xO m d) = Zpos m * 2 ^ Zpos d.
Proof.
  induction d as [| d IH] using Pos.peano_ind.
  - cbn [Pos.iter]. change (2 ^ 1) with 2. lia.
  - rewrite Pos.iter_succ, Pos2Z.inj_succ, Z.pow_succ_r by lia.
    rewrite Pos2Z.inj_xO, IH. ring.
Qed.

Lemma Zdigits2_mul_pow2 m d :
  0 < m -> 0 <= d -> Zdigits2 (m * 2 ^ d) = Zdigits2 m + d.
Proof.
  intros Hm Hd.
  pose proof (Zdigits2_bounds m Hm) as [Hl Hu].
  pose proof (Zdigits2_pos m Hm).
  assert (0 < 2 ^ d) by (apply Z.pow_pos_nonneg; lia).
  apply Zdigits2_eq; [| lia]. split.
  - replace (Zdigits2 m + d - 1) with ((Zdigits2 m - 1) + d) by lia.
    rewrite Z.pow_add_r by lia. nia.
  - rewrite Z.pow_add_r by lia. nia.
Qed.

(** [binary_round]: the nearest float to [m * 2 ^ e] *)
Lemma binary_round_finite s m e :
  Zdigits2 (Zpos m) + e <= 1023 ->
  finite_below (Z.max (Zdigits2 (Zpos m) + e) (- 1021) + 1) (binary_round prec emax s m e) /\
  sign_of (binary_round prec emax s m e) = s.
Proof.
  intros Hb. unfold binary_round, shl_align. rewrite fexp_eq.
  change (Zpos (digits2_pos m)) with (Zdigits2 (Zpos m)).
  destruct (fexp64 (Zdigits2 (Zpos m) + e) - e) as [| d | d] eqn:E.
  - apply binary_round_aux_finite; lia.
  - apply binary_round_aux_finite; lia.
  - assert (G : Zdigits2 (Zpos (Pos.iter xO m d)) + fexp64 (Zdigits2 (Zpos m) + e)
                = Zdigits2 (Zpos m) + e).
    { rewrite iter_xO, Zdigits2_mul_pow2 by lia. lia. }
    pose proof (binary_round_aux_finite s (Zpos (Pos.iter xO m d))
                  (fexp64 (Zdigits2 (Zpos m) + e)) loc_Exact) as H.
    rewrite G in H. apply H; lia.
Qed.

(** the quotient of the division of two positive integers, shifted to
    the exponent of the format *)
Lemma div_core_finite s m1 m2 l :
  0 < m1 -> 0 < m2 ->
  Zdigits2 m1 <= 1023 ->
  let '(q, e, _) := SFdiv_core_binary prec emax m1 0 m2 0 in
  finite_below (Z.max (Zdigits2 m1) (- 1021) + 1) (binary_round_aux prec emax s q e l) /\
  sign_of (binary_round_aux prec emax s q e l) = s.
Proof.
  intros H1 H2 Hb. unfold SFdiv_core_binary. rewrite fexp_eq, !Z.add_0_r.
  set (d1 := Zdigits2 m1). set (d2 := Zdigits2 m2).
  set (e := Z.min (fexp64 (d1 - d2)) (0 - 0)).
  set (sh := 0 - 0 - e).
  set (m' := match sh with Zpos _ => Z.shiftl m1 sh | Z0 => m1 | Zneg _ => 0 end).
  assert (Hsh : 0 <= sh) by (unfold sh, e; lia).
  assert (Hm' : m' = m1 * 2 ^ sh).
  { unfold m'. destruct sh as [| p | p] eqn:Es; [rewrite Z.mul_1_r; reflexivity | | lia].
    apply Z.shiftl_mul_pow2. lia. }
  clearbody m'. subst m'.
  pose proof (Zdigits2_pos m1 H1) as Hd1. pose proof (Zdigits2_pos m2 H2) as Hd2.
  fold d1 in Hd1, Hb. fold d2 in Hd2.
  pose proof (Zdigits2_bounds m1 H1) as [Hl1 Hu1]. fold d1 in Hl1, Hu1.
  pose proof (Zdigits2_bounds m2 H2) as [Hl2 Hu2]. fold d2 in Hl2, Hu2.
  assert (Hp : 0 < 2 ^ sh) by (apply Z.pow_pos_nonneg; lia).
  pose proof (Z.div_eucl_eq (m1 * 2 ^ sh) m2 ltac:(lia)) as Hq.
  pose proof (Z.mod_pos_bound (m1 * 2 ^ sh) m2 H2) as Hr.
  unfold Z.modulo in Hr.
  destruct (Z.div_eucl (m1 * 2 ^ sh) m2) as [q r].
  assert (Hq0 : 0 <= q) by nia.
  (* the quotient has at most [d1 + sh] digits *)
  assert (Hup : Zdigits2 q <= d1 + sh).
  { apply Zdigits2_le; [| lia]. split; [assumption |].
    rewrite Z.pow_add_r by lia. nia. }
  (* and at least [d1 + sh - d2] *)
  assert (Hlo : 0 < d1 + sh - d2 -> d1 + sh - d2 <= Zdigits2 q).
  { intros Hpos. apply Zdigits2_ge; [| lia].
    assert (Hx : m2 * 2 ^ (d1 + sh - d2 - 1) < m1 * 2 ^ sh).
    { assert (0 < 2 ^ (d1 + sh - d2 - 1)) by (apply Z.pow_pos_nonneg; lia).
      assert (m2 * 2 ^ (d1 + sh - d2 - 1) < 2 ^ d2 * 2 ^ (d1 + sh - d2 - 1)) by nia.
      rewrite <- Z.pow_add_r in H0 by lia.
      replace (d2 + (d1 + sh - d2 - 1)) with ((d1 - 1) + sh) in H0 by lia.
      rewrite Z.pow_add_r in H0 by lia. nia. }
    nia. }
  pose proof (Zdigits2_nonneg q) as Hdq.
  assert (He : e <= fexp64 (Zdigits2 q + e)).
  { unfold fexp64. destruct (Z.le_gt_cases e (- 1074)) as [| Hgt]; [lia |].
    assert (e <= d1 - d2 - 53) by (unfold e, fexp64 in *; lia).
    specialize (Hlo ltac:(unfold sh; lia)). unfold sh in Hlo. lia. }
  assert (Hmag : Zdigits2 q + e <= d1) by (unfold sh in Hup; lia).
  pose proof (binary_round_aux_finite s q e l Hq0 He ltac:(lia)) as [Hf Hs].
  split; [| assumption].
  eapply finite_below_le; [| exact Hf]. lia.
Qed.

(** *** The operations of the converters *)

Lemma of_decimal_finite neg d n :
  0 <= d -> n <= 0 -> Zdigits2 d <= 1023 ->
  finite_below (Z.max (Zdigits2 d) (- 1021) + 1) (of_decimal neg d n) /\
  sign_of (of_decimal neg d n) = neg.
Proof.
  intros Hd Hn Hb. unfold of_decimal.
  destruct (Z.eqb_spec d 0) as [-> | Hd0]; [split; [exact I | reflexivity] |].
  destruct (Z.leb_spec 0 n) as [Hn0 | Hn0].
  - replace n with 0 by lia. rewrite Z.mul_1_r.
    destruct d as [| m | m]; [lia | | lia].
    pose proof (binary_round_finite neg m 0) as H. rewrite Z.add_0_r in H.
    apply H, Hb.
  - assert (H2 : 0 < 10 ^ (- n)) by (apply Z.pow_pos_nonneg; lia).
    pose proof (fun l => div_core_finite neg d (10 ^ (- n)) l ltac:(lia) H2 Hb) as H.
    destruct (SFdiv_core_binary prec emax d 0 (10 ^ (- n)) 0) as [[q e] l].
    apply H.
Qed.

Lemma mul_finite b x sy my ey :
  finite_below b x ->
  bounded prec emax my ey = true ->
  Zpos (digits2_pos my) = 53 ->
  b + 53 + ey <= 1023 ->
  finite_below (Z.max (b + 53 + ey) (- 1021) + 1) (mul x (S754_finite sy my ey)) /\
  sign_of (mul x (S754_finite sy my ey)) = xorb (sign_of x) sy.
Proof.
  intros Hx Hy Hdy Hb. unfold mul.
  destruct x as [sx | sx | | sx mx ex]; cbn [finite_below] in Hx;
    [| destruct Hx | destruct Hx |].
  - cbn [SFmul sign_of]. split; [exact I | reflexivity].
  - destruct Hx as [Hbx Hmx]. cbn [SFmul sign_of].
    change (Zpos (digits2_pos mx)) with (Zdigits2 (Zpos mx)) in Hmx.
    change (Zpos (digits2_pos my)) with (Zdigits2 (Zpos my)) in Hdy.
    pose proof (Zdigits2_mul_le (Zpos mx) (Zpos my) ltac:(lia) ltac:(lia)) as Hle.
    pose proof (Zdigits2_mul_ge (Zpos mx) (Zpos my) ltac:(lia) ltac:(lia)) as Hge.
    pose proof (Zdigits2_pos (Zpos mx) ltac:(lia)) as H1.
    rewrite Pos2Z.inj_mul.
    pose proof (binary_round_aux_finite (xorb sx sy) (Zpos mx * Zpos my) (ex + ey) loc_Exact
                  ltac:(lia) ltac:(unfold fexp64; lia) ltac:(lia)) as [Hf Hs].
    split; [| assumption].
    eapply finite_below_le; [| exact Hf]. lia.
Qed.

Lemma to_int_finite b x :
  finite_below b x -> exists z, to_int x = Ok z.
Proof.
  destruct x; cbn [finite_below to_int]; intros H;
    [| destruct H | destruct H |]; eexists; reflexivity.
Qed.

(** an integer obtained from a float that bears no minus sign is not
    negative *)
Lemma to_int_nonneg x z : sign_of x = false -> to_int x = Ok z -> 0 <= z.
Proof.
  destruct x as [s | s | | s m e]; cbn [sign_of to_int]; intros Hs H; try discriminate.
  - injection H as <-. lia.
  - subst s. injection H as <-. apply Z.shiftl_nonneg. lia.
Qed.

(** [x * 1.0] is [x] *)
Lemma mul_one x :
  finite_below 1024 x -> mul x (of_Z 1) = x.
Proof.
  change (of_Z 1) with (S754_finite false (2 ^ 52) (- 52)). unfold mul.
  destruct x as [sx | sx | | sx mx ex]; cbn [finite_below]; intros H;
    [| destruct H | destruct H |].
  - cbn [SFmul]. rewrite xorb_false_r. reflexivity.
  - destruct H as [Hb _]. cbn [SFmul]. rewrite xorb_false_r.
    unfold bounded, canonical_mantissa in Hb. rewrite fexp_eq in Hb.
    apply andb_true_iff in Hb. destruct Hb as [Hc He].
    apply Z.eqb_eq in Hc.
    change (Zpos (digits2_pos mx)) with (Zdigits2 (Zpos mx)) in Hc.
    unfold binary_round_aux, shr_fexp. rewrite !fexp_eq.
    rewrite Pos2Z.inj_mul. change (Zpos (2 ^ 52)) with (2 ^ 52).
    rewrite Zdigits2_mul_pow2 by lia.
    replace (Zdigits2 (Zpos mx) + 52 + (ex + - 52)) with (Zdigits2 (Zpos mx) + ex) by lia.
    rewrite Hc. replace (ex - (ex + - 52)) with 52 by lia.
    unfold shr at 1. cbn [shr_record_of_loc].
    change (2 ^ 52) with (2 ^ Zpos 52).
    rewrite iter_shr_exact by lia.
    cbn [shr_m loc_of_shr_record round_nearest_even].
    replace (ex + - 52 + 52) with ex by lia.
    rewrite fexp_eq, Hc, Z.sub_diag. cbn [shr shr_record_of_loc shr_m].
    rewrite He. reflexivity.
Qed.

End FloatFacts.

(** ** Decimal numbers *)

Lemma isdigit_code c : Str.isdigit c = true -> 48 <= Str.code c <= 57.
Proof. unfold Str.isdigit, Str.between. intros H. bool_cases. Qed.

Lemma isnum_code c : Str.isnum c = true -> 46 <= Str.code c <= 57.
Proof. unfold Str.isnum, Str.isdigit, Str.between. intros H. bool_cases. Qed.

Lemma isdigit_isnum c : Str.isdigit c = true -> Str.isnum c = true.
Proof. unfold Str.isnum. intros ->. reflexivity. Qed.

Lemma code_eqb c d : Str.code c <> Str.code d -> Ascii.eqb c d = false.
Proof. intros H. apply Ascii.eqb_neq. congruence. Qed.

Lemma span_all p s : forall a b, Str.span p s = (a, b) -> Str.all p a = true.
Proof.
  induction s as [| c s IH]; intros a b; cbn [Str.span].
  - intros [= <- <-]. reflexivity.
  - destruct (p c) eqn:E.
    + destruct (Str.span p s) as [a' b']. intros [= <- <-].
      cbn [Str.all]. rewrite E. apply (IH a' b'). reflexivity.
    + intros [= <- <-]. reflexivity.
Qed.

Lemma span_app p s : forall a b, Str.span p s = (a, b) -> s = a ++ b.
Proof.
  induction s as [| c s IH]; intros a b; cbn [Str.span].
  - intros [= <- <-]. reflexivity.
  - destruct (p c).
    + destruct (Str.span p s) as [a' b']. intros [= <- <-].
      cbn [append]. f_equal. apply IH. reflexivity.
    + intros [= <- <-]. reflexivity.
Qed.

Lemma span_whole p s : Str.all p s = true -> Str.span p s = (s, EmptyString).
Proof.
  induction s as [| c s IH]; cbn [Str.all Str.span]; [reflexivity |].
  intros H. apply andb_true_iff in H. destruct H as [-> H].
  rewrite (IH H). reflexivity.
Qed.

Lemma all_app p a b : Str.all p (a ++ b) = Str.all p a && Str.all p b.
Proof.
  induction a as [| c a IH]; cbn [append Str.all]; [reflexivity |].
  rewrite IH. apply andb_assoc.
Qed.

Lemma all_impl (p q : ascii -> bool) s :
  (forall c, p c = true -> q c = true) -> Str.all p s = true -> Str.all q s = true.
Proof.
  intros H. induction s as [| c s IH]; cbn [Str.all]; [reflexivity |].
  intros G. apply andb_true_iff in G. destruct G as [G1 G2].
  rewrite (H c G1), (IH G2). reflexivity.
Qed.

Lemma length_app a b : String.length (a ++ b) = (String.length a + String.length b)%nat.
Proof. induction a as [| c a IH]; cbn [append String.length]; [reflexivity | rewrite IH; reflexivity]. Qed.

(** what [float()] does before it reads the literal leaves a text of
    digits and points as it is *)
Lemma float_lstrip_num s : Str.all Str.isnum s = true -> Float.lstrip s = s.
Proof.
  destruct s as [| c s]; cbn [Str.all Float.lstrip]; [reflexivity |].
  intros H. apply andb_true_iff in H. destruct H as [H _].
  apply isnum_code in H. unfold Float.isspace, Str.between. bool_cases.
Qed.

Lemma float_rstrip_num s : Str.all Str.isnum s = true -> Float.rstrip s = s.
Proof.
  induction s as [| c s IH]; cbn [Str.all Float.rstrip]; [reflexivity |].
  intros H. apply andb_true_iff in H. destruct H as [H1 H2].
  rewrite (IH H2). destruct s; [| reflexivity].
  apply isnum_code in H1. unfold Float.isspace, Str.between. bool_cases.
Qed.

Lemma underscores_num s : forall prev,
  match prev with Some p => Str.code p =? 95 | None => false end = false ->
  Str.all Str.isnum s = true -> Float.underscores prev s = Some s.
Proof.
  induction s as [| c s IH]; intros prev Hp; cbn [Str.all Float.underscores].
  - rewrite Hp. reflexivity.
  - intros H. apply andb_true_iff in H. destruct H as [H1 H2].
    apply isnum_code in H1. rewrite Hp.
    destruct (Z.eqb_spec (Str.code c) 95) as [E | E]; [lia |].
    cbn [andb]. rewrite IH; [reflexivity | | assumption].
    apply Z.eqb_neq, E.
Qed.

Lemma magnitude_decimal neg number ip fp :
  decimal_parts number = Some (ip, fp) ->
  Float.magnitude neg number
  = Some (Float.of_decimal neg (Float.digits_val 0 (ip ++ fp)) (- Z.of_nat (String.length fp))).
Proof.
  unfold decimal_parts, Float.magnitude.
  destruct (Str.span Str.isdigit number) as [ip' r1].
  destruct (match r1 with
            | String c r' => if Str.code c =? 46 then Str.span Str.isdigit r' else (EmptyString, r1)
            | EmptyString => (EmptyString, r1)
            end) as [fp' r2].
  destruct (Str.is_empty ip' && Str.is_empty fp'); [discriminate |].
  destruct r2; [| discriminate]. cbn [orb negb Str.is_empty].
  intros [= <- <-]. reflexivity.
Qed.

Lemma literal_decimal number ip fp :
  Str.all Str.isnum number = true ->
  decimal_parts number = Some (ip, fp) ->
  Float.literal number
  = Some (Float.of_decimal false (Float.digits_val 0 (ip ++ fp)) (- Z.of_nat (String.length fp))).
Proof.
  intros Ha Hd. destruct number as [| c s]; [discriminate |].
  cbn [Str.all] in Ha. apply andb_true_iff in Ha. destruct Ha as [Hc _].
  apply isnum_code in Hc.
  unfold Float.literal, Float.sign.
  destruct (Z.eqb_spec (Str.code c) 45) as [E | _]; [lia |].
  destruct (Z.eqb_spec (Str.code c) 43) as [E | _]; [lia |].
  cbn [Float.lower].
  assert (L : Float.lower_ascii c = c).
  { unfold Float.lower_ascii, Str.between. bool_cases. }
  rewrite L.
  assert (N : forall d t, Str.code c <> Str.code d ->
                          String.eqb (String c (Float.lower s)) (String d t) = false).
  { intros d t H. cbn [String.eqb]. rewrite (code_eqb c d H). reflexivity. }
  rewrite !(N "i"%char) by (change (Str.code "i") with 105; lia).
  rewrite (N "n"%char) by (change (Str.code "n") with 110; lia). cbn [orb].
  apply magnitude_decimal, Hd.
Qed.

(** [float(number)] for a decimal number *)
Lemma of_string_decimal number ip fp :
  Str.all Str.isnum number = true ->
  decimal_parts number = Some (ip, fp) ->
  Float.of_string number
  = Ok (Float.of_decimal false (Float.digits_val 0 (ip ++ fp)) (- Z.of_nat (String.length fp))).
Proof.
  intros Ha Hd. unfold Float.of_string.
  rewrite (float_lstrip_num _ Ha), (float_rstrip_num _ Ha).
  rewrite (underscores_num _ None eq_refl Ha).
  rewrite (literal_decimal _ _ _ Ha Hd). reflexivity.
Qed.

Lemma digits_val_bounds s : forall acc,
  Str.all Str.isdigit s = true -> 0 <= acc ->
  0 <= Float.digits_val acc s < (acc + 1) * 10 ^ Z.of_nat (String.length s).
Proof.
  induction s as [| c s IH]; intros acc Ha Hacc; cbn [Float.digits_val String.length].
  - cbn. lia.
  - cbn [Str.all] in Ha. apply andb_true_iff in Ha. destruct Ha as [Hc Hs].
    apply isdigit_code in Hc.
    specialize (IH (10 * acc + (Str.code c - 48)) Hs ltac:(lia)).
    rewrite Nat2Z.inj_succ, Z.pow_succ_r by lia.
    assert (0 < 10 ^ Z.of_nat (String.length s)) by (apply Z.pow_pos_nonneg; lia).
    nia.
Qed.

Lemma decimal_parts_digits number ip fp :
  decimal_parts number = Some (ip, fp) -> Str.all Str.isdigit (ip ++ fp) = true.
Proof.
  unfold decimal_parts.
  destruct (Str.span Str.isdigit number) as [ip' r1] eqn:E1.
  assert (H1 := span_all _ _ _ _ E1).
  destruct r1 as [| c r'].
  - destruct (Str.is_empty ip' && Str.is_empty "" || negb (Str.is_empty "")); [discriminate |].
    intros [= <- <-]. rewrite all_app, H1. reflexivity.
  - destruct (Str.code c =? 46).
    + destruct (Str.span Str.isdigit r') as [fp' r2] eqn:E2.
      assert (H2 := span_all _ _ _ _ E2).
      destruct (_ || _); [discriminate |].
      intros [= <- <-]. rewrite all_app, H1, H2. reflexivity.
    + destruct (_ || _); [discriminate |].
      intros [= <- <-]. rewrite all_app, H1. reflexivity.
Qed.

(** ** The converters on numeric text *)

Import FloatFacts.

Lemma pow10_290 : 10 ^ 290 < 2 ^ 964.
Proof. apply Z.ltb_lt. vm_compute. reflexivity. Qed.

(** [float(number)] for a decimal number of at most 290 digits is finite
    and bears no minus sign *)
Lemma decimal_float number :
  Str.all Str.isnum number = true ->
  decimal number = true ->
  exists x, Float.of_string number = Ok x /\ finite_below 965 x /\ sign_of x = false.
Proof.
  intros Ha Hd. unfold decimal in Hd.
  destruct (decimal_parts number) as [[ip fp] |] eqn:E; [| discriminate].
  apply Nat.leb_le in Hd.
  rewrite (of_string_decimal _ _ _ Ha E). eexists. split; [reflexivity |].
  pose proof (digits_val_bounds (ip ++ fp) 0 (decimal_parts_digits _ _ _ E) ltac:(lia)) as Hb.
  rewrite Z.add_0_l, Z.mul_1_l, length_app in Hb.
  set (d := Float.digits_val 0 (ip ++ fp)) in *.
  assert (Hp : 10 ^ Z.of_nat (String.length ip + String.length fp) <= 10 ^ 290)
    by (apply Z.pow_le_mono_r; lia).
  pose proof pow10_290.
  assert (Hd2 : Zdigits2 d <= 964) by (apply Zdigits2_le; lia).
  pose proof (Zdigits2_nonneg d).
  destruct (of_decimal_finite false d (- Z.of_nat (String.length fp))
              ltac:(lia) ltac:(lia) ltac:(lia)) as [Hf Hs].
  split; [| assumption].
  eapply finite_below_le; [| exact Hf]. lia.
Qed.

Lemma size_unit_float unit : unit_float (Float.of_Z (dict_get size_units unit 1)).
Proof.
  unfold dict_get, size_units.
  repeat match goal with
    | |- context [String.eqb ?k unit] => destruct (String.eqb k unit)
    end;
    (eexists; eexists; split; [vm_compute; reflexivity |]; vm_compute; intuition discriminate).
Qed.

Lemma speed_unit_float unit : unit_float (Float.of_Z (dict_get speed_units unit 1)).
Proof.
  unfold dict_get, speed_units.
  repeat match goal with
    | |- context [String.eqb ?k unit] => destruct (String.eqb k unit)
    end;
    (eexists; eexists; split; [vm_compute; reflexivity |]; vm_compute; intuition discriminate).
Qed.

(** the product of a decimal number of at most 290 digits and a unit is
    converted to an integer, which is not negative *)
Lemma decimal_times_unit number y :
  Str.all Str.isnum number = true ->
  decimal number = true ->
  unit_float y ->
  exists z, (x <- Float.of_string number ;; Float.to_int (Float.mul x y)) = Ok z /\ 0 <= z.
Proof.
  intros Ha Hd [my [ey [-> [Hb [Hdy Hey]]]]].
  destruct (decimal_float number Ha Hd) as [x [-> [Hf Hs]]]. cbn [bind].
  destruct (mul_finite 965 x false my ey Hf Hb Hdy ltac:(lia)) as [Hm Hsm].
  destruct (to_int_finite _ _ Hm) as [z Hz].
  exists z. split; [assumption |].
  apply (to_int_nonneg _ _ (eq_trans Hsm (f_equal (fun b => xorb b false) Hs)) Hz).
Qed.

Lemma decimal_bare number :
  Str.all Str.isnum number = true ->
  decimal number = true ->
  exists z, (x <- Float.of_string number ;; Float.to_int x) = Ok z /\ 0 <= z.
Proof.
  intros Ha Hd.
  destruct (decimal_float number Ha Hd) as [x [-> [Hf Hs]]]. cbn [bind].
  destruct (to_int_finite _ _ Hf) as [z Hz].
  exists z. split; [assumption | apply (to_int_nonneg _ _ Hs Hz)].
Qed.

Lemma decimal_nonempty number : decimal number = true -> Str.is_empty number = false.
Proof. destruct number; [discriminate | reflexivity]. Qed.

Lemma span_letter c r :
  Str.isaz c = true -> Str.is_empty (fst (Str.span Str.isaz (String c r))) = false.
Proof.
  intros H. cbn [Str.span]. rewrite H. destruct (Str.span Str.isaz r). reflexivity.
Qed.

Lemma convert_to_bytes_text v :
  size_text v = true -> exists z, convert_to_bytes (Some v) = Ok z /\ 0 <= z.
Proof.
  unfold size_text, convert_to_bytes.
  destruct (no_value (Some v)); [intros _; exists 0; split; [reflexivity | lia] |].
  unfold match_size.
  destruct (Str.span Str.isnum (normalise v)) as [number r] eqn:E.
  intros H. apply andb_true_iff in H. destruct H as [Hd Hr].
  pose proof (span_all _ _ _ _ E) as Ha.
  rewrite (decimal_nonempty _ Hd).
  destruct r as [| c r'].
  - cbn [Str.span Str.is_empty orb].
    apply span_app in E. rewrite E.
    replace (number ++ "") with number by (clear; induction number; cbn; congruence).
    apply decimal_bare; assumption.
  - pose proof (span_letter c r' Hr) as Hl.
    destruct (Str.span Str.isaz (String c r')) as [unit r2]. cbn [fst] in Hl.
    rewrite Hl. cbn [orb].
    apply decimal_times_unit; [assumption | assumption | apply size_unit_float].
Qed.

Lemma convert_speed_to_bps_text v :
  speed_text v = true -> exists z, convert_speed_to_bps (Some v) = Ok z /\ 0 <= z.
Proof.
  unfold speed_text, convert_speed_to_bps.
  destruct (no_value (Some v)); [intros _; exists 0; split; [reflexivity | lia] |].
  unfold match_speed.
  destruct (Str.span Str.isnum (normalise v)) as [number r] eqn:E.
  intros H. apply andb_true_iff in H. destruct H as [Hd Hr].
  pose proof (span_all _ _ _ _ E) as Ha.
  rewrite (decimal_nonempty _ Hd).
  destruct r as [| c r'].
  - cbn [Str.span Str.is_empty orb Str.startswith negb].
    apply span_app in E. rewrite E.
    replace (number ++ "") with number by (clear; induction number; cbn; congruence).
    apply decimal_bare; assumption.
  - apply andb_true_iff in Hr. destruct Hr as [Hc Hs].
    pose proof (span_letter c r' Hc) as Hl.
    destruct (Str.span Str.isaz (String c r')) as [letters r2]. cbn [fst snd] in Hl, Hs.
    rewrite Hl, Hs. cbn [orb negb].
    apply decimal_times_unit; [assumption | assumption | apply speed_unit_float].
Qed.

(** C2 fails on the code: [float()] raises [ValueError] on a text that
    is no number, and nothing in the converters catches it. *)
Lemma converters_not_total : ~ converters_total.
Proof.
  intros H. destruct (H (Some "abc")) as [[z Hz] _].
  vm_compute in Hz. discriminate.
Qed.

(** C2, amended: the converters return an integer for an absent or empty
    value, for the text [None], and for a text that, in lower case and
    without spaces, is a decimal number of at most 290 digits followed by
    nothing or by a unit of letters (for a rate: letters and [/s]). When a
    converter raises for an entry, the upload stores nothing and answers
    with the message of the exception. *)
Theorem converters_return_on_numeric_text : forall value,
  (size_accepted value = true -> exists z, convert_to_bytes value = Ok z) /\
  (speed_accepted value = true -> exists z, convert_speed_to_bps value = Ok z) /\
  (forall db text x,
      accepted_records (interfaces db) (parse_bandwidth_data text) = Raise x ->
      upload_data db text = (failure ("Erro: " ++ str_exn x), db)).
Proof.
  intros value. split; [| split].
  - unfold size_accepted. intros H.
    destruct value as [v |]; [| exists 0; reflexivity].
    destruct (no_value (Some v)) eqn:E.
    + exists 0. unfold convert_to_bytes. rewrite E. reflexivity.
    + cbn [orb] in H. destruct (convert_to_bytes_text v H) as [z [Hz _]]. exists z. exact Hz.
  - unfold speed_accepted. intros H.
    destruct value as [v |]; [| exists 0; reflexivity].
    destruct (no_value (Some v)) eqn:E.
    + exists 0. unfold convert_speed_to_bps. rewrite E. reflexivity.
    + cbn [orb] in H. destruct (convert_speed_to_bps_text v H) as [z [Hz _]]. exists z. exact Hz.
  - intros db text x H. rewrite upload_data_accepted.
    destruct text as [| c t]; [vm_compute in H; discriminate |].
    cbn [Str.is_empty].
    destruct (parse_bandwidth_data (String c t)); [discriminate |].
    cbn [nonempty negb]. rewrite H. reflexivity.
Qed.

Lemma converters_return_on_numeric_text_witness :
  (size_accepted (Some "877.23 GiB") = true /\
   exists z, convert_to_bytes (Some "877.23 GiB") = Ok z) /\
  (speed_accepted (Some "349.48 Mbit/s") = true /\
   exists z, convert_speed_to_bps (Some "349.48 Mbit/s") = Ok z) /\
  (accepted_records (interfaces (init_db empty_db))
     (parse_bandwidth_data (one_section "WAN" "abc"))
   = Raise (ValueError ("could not convert string to float: " ++ Str.repr "abc")) /\
   upload_data (init_db empty_db) (one_section "WAN" "abc")
   = (failure ("Erro: " ++ str_exn (ValueError ("could not convert string to float: "
                                                ++ Str.repr "abc"))),
      init_db empty_db)).
Proof.
  pose proof (converters_return_on_numeric_text (Some "877.23 GiB")) as [H1 _].
  pose proof (converters_return_on_numeric_text (Some "349.48 Mbit/s")) as [_ [H2 H3]].
  split; [| split].
  - split; [vm_compute; reflexivity | apply H1; vm_compute; reflexivity].
  - split; [vm_compute; reflexivity | apply H2; vm_compute; reflexivity].
  - split; [vm_compute; reflexivity | apply H3; vm_compute; reflexivity].
Defined.

(** ** Signs *)

Lemma binary_round_aux_sign m e l :
  sign_of (binary_round_aux Float.prec Float.emax false m e l) = false.
Proof.
  unfold binary_round_aux.
  destruct (shr_fexp Float.prec Float.emax m e l) as [r1 e1].
  destruct (shr_fexp Float.prec Float.emax _ e1 loc_Exact) as [r2 e2].
  destruct (shr_m r2); [reflexivity | | reflexivity].
  destruct (e2 <=? Float.emax - Float.prec); reflexivity.
Qed.

Lemma of_decimal_sign d n : sign_of (Float.of_decimal false d n) = false.
Proof.
  unfold Float.of_decimal.
  destruct (d =? 0); [reflexivity |].
  destruct (0 <=? n).
  - destruct (d * 10 ^ n); try reflexivity.
    unfold binary_round. destruct (shl_align _ _ _). apply binary_round_aux_sign.
  - destruct (SFdiv_core_binary _ _ _ _ _ _) as [[q e] l]. apply binary_round_aux_sign.
Qed.

Lemma mul_sign x y :
  sign_of x = false -> sign_of y = false -> sign_of (Float.mul x y) = false.
Proof.
  unfold Float.mul.
  destruct x as [sx | sx | | sx mx ex], y as [sy | sy | | sy my ey];
    cbn [sign_of SFmul]; intros Hx Hy; subst; try reflexivity.
  apply binary_round_aux_sign.
Qed.

Lemma unit_float_sign y : unit_float y -> sign_of y = false.
Proof. intros [my [ey [-> _]]]. reflexivity. Qed.

Lemma magnitude_sign s x : Float.magnitude false s = Some x -> sign_of x = false.
Proof.
  unfold Float.magnitude.
  destruct (Str.span Str.isdigit s) as [ip r1].
  destruct (match r1 with
            | String c r' => if Str.code c =? 46 then Str.span Str.isdigit r' else (EmptyString, r1)
            | EmptyString => (EmptyString, r1)
            end) as [fp r2].
  destruct (Str.is_empty ip && Str.is_empty fp); [discriminate |].
  destruct r2 as [| c r3].
  - intros [= <-]. apply of_decimal_sign.
  - destruct (Str.code (Float.lower_ascii c) =? 101); [| discriminate].
    destruct (Float.sign r3) as [eneg r4].
    destruct (Str.span Str.isdigit r4) as [ed r5].
    destruct (Str.is_empty ed || negb (Str.is_empty r5)); [discriminate |].
    intros [= <-]. apply of_decimal_sign.
Qed.

Lemma code_inj c d : Str.code c = Str.code d -> c = d.
Proof.
  unfold Str.code. intros H. apply N2Z.inj in H.
  rewrite <- (ascii_N_embedding c), <- (ascii_N_embedding d), H. reflexivity.
Qed.

Lemma literal_sign t x :
  Str.mem "-" t = false -> Float.literal t = Some x -> sign_of x = false.
Proof.
  unfold Float.literal, Float.sign. intros Hm.
  assert (G : forall r, (if String.eqb (Float.lower r) "inf" || String.eqb (Float.lower r) "infinity"
                         then Some (S754_infinity false)
                         else if String.eqb (Float.lower r) "nan" then Some S754_nan
                              else Float.magnitude false r) = Some x -> sign_of x = false).
  { intros r. destruct (_ || _); [intros [= <-]; reflexivity |].
    destruct (String.eqb _ "nan"); [intros [= <-]; reflexivity |].
    apply magnitude_sign. }
  destruct t as [| c t']; [apply G |].
  destruct (Z.eqb_spec (Str.code c) 45) as [E | _].
  - change 45 with (Str.code "-") in E. apply code_inj in E. subst c.
    cbn in Hm. discriminate.
  - destruct (Str.code c =? 43); apply G.
Qed.

Lemma mem_float_lstrip c s : Str.mem c s = false -> Str.mem c (Float.lstrip s) = false.
Proof.
  induction s as [| d s IH]; cbn [Float.lstrip Str.mem]; [reflexivity |].
  intros H. apply orb_false_iff in H. destruct H as [H1 H2].
  destruct (Float.isspace d); [apply IH, H2 |].
  cbn [Str.mem]. rewrite H1, H2. reflexivity.
Qed.

Lemma mem_float_rstrip c s : Str.mem c s = false -> Str.mem c (Float.rstrip s) = false.
Proof.
  induction s as [| d s IH]; cbn [Float.rstrip Str.mem]; [reflexivity |].
  intros H. apply orb_false_iff in H. destruct H as [H1 H2].
  specialize (IH H2).
  destruct (Float.rstrip s) as [| d' r].
  - destruct (Float.isspace d); cbn [Str.mem]; [reflexivity | rewrite H1; reflexivity].
  - cbn [Str.mem] in *. rewrite H1, IH. reflexivity.
Qed.

Lemma mem_underscores c s : forall prev t,
  Str.mem c s = false -> Float.underscores prev s = Some t -> Str.mem c t = false.
Proof.
  induction s as [| d s IH]; intros prev t; cbn [Float.underscores Str.mem].
  - intros _. destruct (match prev with Some p => Str.code p =? 95 | None => false end);
      [discriminate | intros [= <-]; reflexivity].
  - intros H. apply orb_false_iff in H. destruct H as [H1 H2].
    destruct (Str.code d =? 95).
    + destruct (match prev with Some p => Str.isdigit p | None => false end); [| discriminate].
      apply IH, H2.
    + destruct (_ && _); [discriminate |].
      destruct (Float.underscores (Some d) s) as [t' |] eqn:E; [| discriminate].
      intros [= <-]. cbn [Str.mem]. rewrite H1. apply (IH _ _ H2 E).
Qed.

(** [float(s)] bears no minus sign when [s] holds none *)
Lemma of_string_sign s x :
  Str.mem "-" s = false -> Float.of_string s = Ok x -> sign_of x = false.
Proof.
  intros Hm. unfold Float.of_string.
  destruct (Float.underscores None (Float.rstrip (Float.lstrip s))) as [t |] eqn:E; [| discriminate].
  destruct (Float.literal t) as [y |] eqn:L; [| discriminate].
  intros [= <-]. apply (literal_sign t); [| assumption].
  apply (mem_underscores _ _ _ _ (mem_float_rstrip _ _ (mem_float_lstrip _ _ Hm)) E).
Qed.

Lemma code_chr n : 0 <= n < 256 -> Str.code (Str.chr n) = n.
Proof.
  intros H. unfold Str.code, Str.chr. rewrite N_ascii_embedding; lia.
Qed.

Lemma code_bound c : 0 <= Str.code c < 256.
Proof.
  unfold Str.code. pose proof (N_ascii_bounded c). lia.
Qed.

Lemma mem_lower s : Str.mem "-" s = false -> Str.mem "-" (Str.lower s) = false.
Proof.
  induction s as [| d s IH]; cbn [Str.lower Str.mem]; [reflexivity |].
  intros H. apply orb_false_iff in H. destruct H as [H1 H2].
  rewrite (IH H2), orb_false_r.
  unfold Str.lower_char.
  destruct (Str.between 65 90 d || Str.between 192 222 d && negb (Str.code d =? 215)) eqn:E;
    [| assumption].
  apply code_eqb. change (Str.code "-") with 45.
  pose proof (code_bound d).
  assert (65 <= Str.code d <= 222) by (unfold Str.between in E; bool_cases).
  rewrite code_chr; lia.
Qed.

Lemma mem_remove_from c old s : forall k,
  Str.mem c s = false -> Str.mem c (Str.remove_from old k s) = false.
Proof.
  induction s as [| d s IH]; intros k; cbn [Str.remove_from Str.mem]; [reflexivity |].
  intros H. apply orb_false_iff in H. destruct H as [H1 H2].
  destruct k; [| apply IH, H2].
  destruct (Str.startswith (String d s) old); [apply IH, H2 |].
  cbn [Str.mem]. rewrite H1. apply IH, H2.
Qed.

Lemma mem_normalise v : Str.mem "-" v = false -> Str.mem "-" (normalise v) = false.
Proof.
  intros H. unfold normalise, Str.remove. apply mem_remove_from, mem_lower, H.
Qed.

(** the integer a converter returns for a text without a minus sign is
    not negative *)
Lemma convert_to_bytes_nonneg v z :
  Str.mem "-" v = false -> convert_to_bytes (Some v) = Ok z -> 0 <= z.
Proof.
  intros Hm. unfold convert_to_bytes.
  destruct (no_value (Some v)); [intros [= <-]; lia |].
  destruct (match_size (normalise v)) as [[number unit] |] eqn:E.
  - unfold match_size in E.
    destruct (Str.span Str.isnum (normalise v)) as [number' r] eqn:Es.
    destruct (Str.span Str.isaz r) as [unit' r2].
    destruct (_ || _); [discriminate |]. injection E as <- <-.
    destruct (Float.of_string number') as [x |] eqn:Ex; [| discriminate]. cbn [bind].
    apply to_int_nonneg, mul_sign; [| apply unit_float_sign, size_unit_float].
    apply (of_string_sign number'); [| assumption].
    pose proof (span_app _ _ _ _ Es) as Ha.
    pose proof (mem_normalise v Hm) as Hn. rewrite Ha in Hn.
    clear - Hn. induction number' as [| c s IH]; [reflexivity |].
    cbn [append Str.mem] in *. apply orb_false_iff in Hn. destruct Hn as [-> Hn].
    apply IH, Hn.
  - destruct (Float.of_string (normalise v)) as [x |] eqn:Ex; [| discriminate]. cbn [bind].
    apply to_int_nonneg. apply (of_string_sign (normalise v)); [| assumption].
    apply mem_normalise, Hm.
Qed.

Lemma convert_speed_to_bps_nonneg v z :
  Str.mem "-" v = false -> convert_speed_to_bps (Some v) = Ok z -> 0 <= z.
Proof.
  intros Hm. unfold convert_speed_to_bps.
  destruct (no_value (Some v)); [intros [= <-]; lia |].
  destruct (match_speed (normalise v)) as [[number unit] |] eqn:E.
  - unfold match_speed in E.
    destruct (Str.span Str.isnum (normalise v)) as [number' r] eqn:Es.
    destruct (Str.span Str.isaz r) as [letters r2].
    destruct (_ || _); [discriminate |]. injection E as <- <-.
    destruct (Float.of_string number') as [x |] eqn:Ex; [| discriminate]. cbn [bind].
    apply to_int_nonneg, mul_sign; [| apply unit_float_sign, speed_unit_float].
    apply (of_string_sign number'); [| assumption].
    pose proof (span_app _ _ _ _ Es) as Ha.
    pose proof (mem_normalise v Hm) as Hn. rewrite Ha in Hn.
    clear - Hn. induction number' as [| c s IH]; [reflexivity |].
    cbn [append Str.mem] in *. apply orb_false_iff in Hn. destruct Hn as [-> Hn].
    apply IH, Hn.
  - destruct (Float.of_string (normalise v)) as [x |] eqn:Ex; [| discriminate]. cbn [bind].
    apply to_int_nonneg. apply (of_string_sign (normalise v)); [| assumption].
    apply mem_normalise, Hm.
Qed.

(** ** Sign of the stored numbers *)

(** C3 fails on the code: a bare number with a minus sign goes through
    [float()] and [int()] with its sign. *)
Lemma negative_number_converted : ~ numbers_never_negative.
Proof.
  intros H.
  destruct (H negative_entry (- 5) 0 0 0 ltac:(vm_compute; reflexivity)) as [H1 _].
  lia.
Qed.

(** the line [Entrada: -5] of a report reaches the table as [-5] *)
Example negative_number_stored :
  stored (snd (upload_data (init_db empty_db) (one_section "WAN" "-5")))
  = [((1, "2024-03-15", diario), (- 5, 0, 0, 0))].
Proof. vm_compute. reflexivity. Qed.

(** C3, amended: when the four values of an entry are converted, each
    number is an integer, 0 for a value that is absent, empty or the text
    [None], and not negative for a value that holds no minus sign. *)
Theorem numbers_nonnegative_without_minus : forall e a b c d,
  convert_values e = Ok (a, b, c, d) ->
  ((no_value (entrada e) = true -> a = 0) /\
   (no_value (saida e) = true -> b = 0) /\
   (no_value (total e) = true -> c = 0) /\
   (no_value (taxa_media e) = true -> d = 0)) /\
  ((no_minus (entrada e) = true -> 0 <= a) /\
   (no_minus (saida e) = true -> 0 <= b) /\
   (no_minus (total e) = true -> 0 <= c) /\
   (no_minus (taxa_media e) = true -> 0 <= d)).
Proof.
  intros e a b c d. unfold convert_values.
  destruct (convert_to_bytes (entrada e)) as [a' |] eqn:Ea; [| discriminate].
  destruct (convert_to_bytes (saida e)) as [b' |] eqn:Eb; [| discriminate].
  destruct (convert_to_bytes (total e)) as [c' |] eqn:Ec; [| discriminate].
  destruct (convert_speed_to_bps (taxa_media e)) as [d' |] eqn:Ed; [| discriminate].
  cbn [bind]. intros [= <- <- <- <-].
  assert (A : forall value z, convert_to_bytes value = Ok z -> no_value value = true -> z = 0).
  { intros value z Hz Hn. destruct value as [v |]; [| cbn in Hz; congruence].
    unfold convert_to_bytes in Hz. rewrite Hn in Hz. congruence. }
  assert (B : forall value z, convert_speed_to_bps value = Ok z -> no_value value = true -> z = 0).
  { intros value z Hz Hn. destruct value as [v |]; [| cbn in Hz; congruence].
    unfold convert_speed_to_bps in Hz. rewrite Hn in Hz. congruence. }
  assert (P : forall value z, convert_to_bytes value = Ok z -> no_minus value = true -> 0 <= z).
  { intros value z Hz Hn. destruct value as [v |]; [| cbn in Hz; injection Hz as <-; lia].
    apply (convert_to_bytes_nonneg v z); [| assumption].
    cbn [no_minus] in Hn. apply negb_true_iff, Hn. }
  assert (Q : forall value z, convert_speed_to_bps value = Ok z -> no_minus value = true -> 0 <= z).
  { intros value z Hz Hn. destruct value as [v |]; [| cbn in Hz; injection Hz as <-; lia].
    apply (convert_speed_to_bps_nonneg v z); [| assumption].
    cbn [no_minus] in Hn. apply negb_true_iff, Hn. }
  split; repeat split; eauto.
Qed.

Lemma numbers_nonnegative_without_minus_witness :
  convert_values (mk_entry "WAN" "2024-03-15" diario (Some "1.5 GiB") None (Some "") (Some "2 Mbit/s"))
  = Ok (1610612736, 0, 0, 2000000) /\
  (0 = 0 /\ 0 = 0) /\
  (0 <= 1610612736 /\ 0 <= 0 /\ 0 <= 0 /\ 0 <= 2000000).
Proof.
  pose proof (numbers_nonnegative_without_minus
    (mk_entry "WAN" "2024-03-15" diario (Some "1.5 GiB") None (Some "") (Some "2 Mbit/s"))
    1610612736 0 0 2000000 ltac:(vm_compute; reflexivity)) as [[_ [H2 [H3 _]]] [H5 [H6 [H7 H8]]]].
  split; [vm_compute; reflexivity |]. split.
  - split; [apply H2 | apply H3]; reflexivity.
  - repeat split; [apply H5 | apply H6 | apply H7 | apply H8]; reflexivity.
Defined.

(** ** Unrecognised units of a rate *)

Lemma dict_get_unknown units unit default :
  unknown_unit units unit = true -> dict_get units unit default = default.
Proof.
  induction units as [| [k m] units IH]; cbn [unknown_unit forallb dict_get fst]; [reflexivity |].
  intros H. apply andb_true_iff in H. destruct H as [H1 H2].
  apply negb_true_iff in H1. rewrite H1. apply IH, H2.
Qed.

Lemma span_app_stop p a b :
  Str.all p a = true ->
  match b with String c _ => p c = false | EmptyString => True end ->
  Str.span p (a ++ b) = (a, b).
Proof.
  intros Ha Hb. induction a as [| c a IH]; cbn [append].
  - destruct b as [| c b']; [reflexivity |]. cbn [Str.span]. rewrite Hb. reflexivity.
  - cbn [Str.all] in Ha. apply andb_true_iff in Ha. destruct Ha as [Hc Ha].
    cbn [Str.span]. rewrite Hc, (IH Ha). reflexivity.
Qed.

Lemma isaz_not_isnum c : Str.isaz c = true -> Str.isnum c = false.
Proof.
  unfold Str.isaz, Str.isnum, Str.isdigit, Str.between. intros H. bool_cases.
Qed.

(** *** The two patterns

    [match_size] and [match_speed] give the match of the regular
    expression: what they return is a match, and a text that can be split
    as the expression asks is matched with these groups, the run of
    letters as long as it can be. *)

Lemma span_app_all p a b :
  Str.all p a = true ->
  Str.span p (a ++ b) = (a ++ fst (Str.span p b), snd (Str.span p b)).
Proof.
  intros Ha. induction a as [| c a IH]; cbn [append].
  - destruct (Str.span p b). reflexivity.
  - cbn [Str.all] in Ha. apply andb_true_iff in Ha. destruct Ha as [Hc Ha].
    cbn [Str.span]. rewrite Hc, (IH Ha). reflexivity.
Qed.

Lemma match_size_matches s number unit :
  match_size s = Some (number, unit) ->
  exists rest,
    s = number ++ unit ++ rest /\
    Str.is_empty number = false /\ Str.all Str.isnum number = true /\
    Str.is_empty unit = false /\ Str.all Str.isaz unit = true.
Proof.
  unfold match_size.
  destruct (Str.span Str.isnum s) as [n r] eqn:E1.
  destruct (Str.span Str.isaz r) as [u r'] eqn:E2.
  destruct (Str.is_empty n) eqn:En; [discriminate |].
  destruct (Str.is_empty u) eqn:Eu; [discriminate |].
  intros [= <- <-]. exists r'.
  rewrite <- (span_app _ _ _ _ E2), <- (span_app _ _ _ _ E1).
  rewrite (span_all _ _ _ _ E1), (span_all _ _ _ _ E2). auto.
Qed.

Lemma match_size_longest number unit rest :
  Str.is_empty number = false -> Str.all Str.isnum number = true ->
  Str.is_empty unit = false -> Str.all Str.isaz unit = true ->
  match_size (number ++ unit ++ rest)
  = Some (number, unit ++ fst (Str.span Str.isaz rest)).
Proof.
  intros Hn Ha Hu Hz. unfold match_size.
  destruct unit as [| l unit']; [discriminate |].
  rewrite (span_app_stop Str.isnum number _ Ha)
    by (cbn [append]; apply isaz_not_isnum;
        cbn [Str.all] in Hz; apply andb_true_iff in Hz; tauto).
  rewrite (span_app_all Str.isaz _ rest Hz). rewrite Hn. reflexivity.
Qed.

Lemma match_speed_matches s number unit :
  match_speed s = Some (number, unit) ->
  exists letters rest,
    unit = letters ++ "/s" /\ s = number ++ letters ++ "/s" ++ rest /\
    Str.is_empty number = false /\ Str.all Str.isnum number = true /\
    Str.is_empty letters = false /\ Str.all Str.isaz letters = true.
Proof.
  unfold match_speed.
  destruct (Str.span Str.isnum s) as [n r] eqn:E1.
  destruct (Str.span Str.isaz r) as [u r'] eqn:E2.
  destruct (Str.is_empty n) eqn:En; [discriminate |].
  destruct (Str.is_empty u) eqn:Eu; [discriminate |].
  destruct (Str.startswith r' "/s") eqn:Es; [| discriminate].
  intros [= <- <-].
  destruct r' as [| c1 [| c2 rest]]; cbn [Str.startswith] in Es;
    [discriminate | rewrite andb_false_r in Es; discriminate |].
  apply andb_true_iff in Es. destruct Es as [H1 H2].
  apply andb_true_iff in H2. destruct H2 as [H2 _].
  apply Ascii.eqb_eq in H1, H2. subst c1 c2.
  exists u, rest. split; [reflexivity |].
  change ("/s" ++ rest) with (String "/" (String "s" rest)).
  rewrite <- (span_app _ _ _ _ E2), <- (span_app _ _ _ _ E1).
  rewrite (span_all _ _ _ _ E1), (span_all _ _ _ _ E2). auto.
Qed.

Lemma match_speed_unique number letters rest :
  Str.is_empty number = false -> Str.all Str.isnum number = true ->
  Str.is_empty letters = false -> Str.all Str.isaz letters = true ->
  match_speed (number ++ letters ++ "/s" ++ rest) = Some (number, letters ++ "/s").
Proof.
  intros Hn Ha Hl Hz. unfold match_speed.
  destruct letters as [| l letters']; [discriminate |].
  rewrite (span_app_stop Str.isnum number _ Ha)
    by (cbn [append]; apply isaz_not_isnum;
        cbn [Str.all] in Hz; apply andb_true_iff in Hz; tauto).
  rewrite (span_app_stop Str.isaz (String l letters') _ Hz) by reflexivity.
  rewrite Hn. cbn [Str.is_empty orb append Str.startswith].
  rewrite !Ascii.eqb_refl. cbn [andb].
  replace (Str.startswith rest "") with true by (destruct rest; reflexivity).
  reflexivity.
Qed.

(** C6 fails on the code: the pattern of a rate asks for [/s] after the
    letters, so [5mbps] matches nothing and [float('5mbps')] raises. *)
Lemma rate_suffix_needs_per_second : ~ rate_suffix_is_multiplier_one.
Proof.
  intros H.
  specialize (H "5" "mbps" eq_refl eq_refl eq_refl eq_refl eq_refl).
  vm_compute in H. discriminate.
Qed.

(** C6, amended: for a text that, in lower case and without spaces,
    is a decimal number of at most 290 digits, one or more letters and
    [/s], where the letters with [/s] are no recognised unit, the rate
    converter takes the multiplier 1 and returns the integer part of the
    number read as a float, which is not negative, and raises nothing. *)
Theorem unknown_rate_unit_is_multiplier_one : forall v number letters rest,
  normalise v = number ++ letters ++ "/s" ++ rest ->
  Str.all Str.isnum number = true -> decimal number = true ->
  Str.is_empty letters = false -> Str.all Str.isaz letters = true ->
  unknown_unit speed_units (letters ++ "/s") = true ->
  convert_speed_to_bps (Some v) = (x <- Float.of_string number ;; Float.to_int x) /\
  exists z, convert_speed_to_bps (Some v) = Ok z /\ 0 <= z.
Proof.
  intros v number letters rest Hv Ha Hd Hl Hz Hu.
  assert (E : convert_speed_to_bps (Some v) = (x <- Float.of_string number ;; Float.to_int x)).
  { unfold convert_speed_to_bps.
    assert (Hn : no_value (Some v) = false).
    { destruct number as [| c number']; [discriminate |].
      cbn [Str.all] in Ha. apply andb_true_iff in Ha. destruct Ha as [Hc _].
      apply isnum_code in Hc.
      unfold no_value. destruct v as [| c' v']; [discriminate |]. cbn [Str.is_empty orb].
      destruct (String.eqb_spec (String c' v') "None") as [E | E]; [| reflexivity].
      rewrite E in Hv. vm_compute in Hv. injection Hv as Hv _. subst c.
      change (Str.code "n") with 110 in Hc. lia. }
    rewrite Hn, Hv.
    rewrite (match_speed_unique number letters rest (decimal_nonempty _ Hd) Ha Hl Hz).
    rewrite (dict_get_unknown _ _ _ Hu).
    destruct (decimal_float number Ha Hd) as [x [-> [Hf _]]]. cbn [bind].
    rewrite mul_one; [reflexivity |].
    eapply finite_below_le; [| exact Hf]. lia. }
  split; [exact E |]. rewrite E. apply decimal_bare; assumption.
Qed.

Lemma unknown_rate_unit_is_multiplier_one_witness :
  convert_speed_to_bps (Some "12.7 Xbit/s") = (x <- Float.of_string "12.7" ;; Float.to_int x) /\
  exists z, convert_speed_to_bps (Some "12.7 Xbit/s") = Ok z /\ 0 <= z.
Proof.
  apply (unknown_rate_unit_is_multiplier_one "12.7 Xbit/s" "12.7" "xbit" "");
    vm_compute; reflexivity.
Defined.

(** ** Truncation *)

(** [int(x)] is the quotient rounded toward zero *)
Lemma to_int_truncates x z :
  Float.to_int x = Ok z -> z = Z.quot (float_num x) (float_den x).
Proof.
  destruct x as [s | s | | s m e]; cbn [Float.to_int float_num float_den]; try discriminate.
  - intros [= <-]. reflexivity.
  - intros [= <-].
    destruct (Z.leb_spec 0 e) as [He | He].
    + rewrite Z.shiftl_mul_pow2 by assumption.
      destruct s; rewrite Z.quot_1_r; reflexivity.
    + rewrite Z.shiftl_div_pow2 by lia.
      assert (0 < 2 ^ (- e)) by (apply Z.pow_pos_nonneg; lia).
      destruct s.
      * rewrite Z.quot_opp_l by lia. rewrite Z.quot_div_nonneg by lia. reflexivity.
      * rewrite Z.quot_div_nonneg by lia. reflexivity.
Qed.

(** C7: [convert_to_bytes] gives 2.58 * 1024^4 rounded toward zero for
    [2.58TiB], 0 for the empty text and 500 for [500]; in general the
    integer it returns is the float product of the number and the multiplier
    of the unit, rounded toward zero: 1.9 gives 1 and 0.9999 kB gives
    999, where rounding to nearest would give 2 and 1000. *)
Theorem size_is_truncated_float_product :
  convert_to_bytes (Some "2.58TiB") = Ok (Z.quot (258 * 1024 ^ 4) 100) /\
  convert_to_bytes (Some "") = Ok 0 /\
  convert_to_bytes (Some "500") = Ok 500 /\
  (forall v z,
      no_value (Some v) = false ->
      convert_to_bytes (Some v) = Ok z ->
      exists x, size_float v = Ok x /\ z = Z.quot (float_num x) (float_den x)) /\
  convert_to_bytes (Some "1.9") = Ok 1 /\
  convert_to_bytes (Some "0.9999kb") = Ok 999.
Proof.
  split; [vm_compute; reflexivity |].
  split; [vm_compute; reflexivity |].
  split; [vm_compute; reflexivity |].
  split; [| split; vm_compute; reflexivity].
  intros v z Hn. unfold convert_to_bytes, size_float. rewrite Hn.
  destruct (match_size (normalise v)) as [[number unit] |].
  - destruct (Float.of_string number) as [x |]; [| discriminate]. cbn [bind].
    intros H. eexists. split; [reflexivity |]. apply to_int_truncates, H.
  - destruct (Float.of_string (normalise v)) as [x |]; [| discriminate]. cbn [bind].
    intros H. eexists. split; [reflexivity |]. apply to_int_truncates, H.
Qed.

Lemma size_is_truncated_float_product_witness :
  exists x, size_float "877.23 GiB" = Ok x /\
            941918540267 = Z.quot (float_num x) (float_den x).
Proof.
  destruct size_is_truncated_float_product as [_ [_ [_ [H _]]]].
  apply (H "877.23 GiB" 941918540267); vm_compute; reflexivity.
Defined.

(** ** End to end *)

Lemma split_app a : forall b,
  Str.mem Str.newline a = false ->
  Str.split Str.newline (a ++ String Str.newline b) = a :: Str.split Str.newline b.
Proof.
  induction a as [| c a IH]; intros b; cbn [append Str.mem Str.split].
  - intros _. rewrite Ascii.eqb_refl. reflexivity.
  - intros H. apply orb_false_iff in H. destruct H as [H1 H2].
    rewrite Ascii.eqb_sym, H1, (IH b H2). reflexivity.
Qed.

Lemma split_one a :
  Str.mem Str.newline a = false -> Str.split Str.newline a = [a].
Proof.
  induction a as [| c a IH]; cbn [Str.mem Str.split]; [reflexivity |].
  intros H. apply orb_false_iff in H. destruct H as [H1 H2].
  rewrite Ascii.eqb_sym, H1, (IH H2). reflexivity.
Qed.

(** the lines of a report given by its lines *)
Lemma split_lines_text l ls :
  forallb (fun x => negb (Str.mem Str.newline x)) (l :: ls) = true ->
  Str.split Str.newline (lines_text (l :: ls)) = l :: ls.
Proof.
  unfold lines_text. revert l.
  induction ls as [| l' ls IH]; intros l H; cbn [forallb] in H;
    apply andb_true_iff in H; destruct H as [H1 H2]; apply negb_true_iff in H1.
  - apply split_one, H1.
  - cbn [concat]. cbn [append]. rewrite (split_app l _ H1). f_equal. apply IH, H2.
Qed.

Lemma mem_app c a b : Str.mem c (a ++ b) = Str.mem c a || Str.mem c b.
Proof.
  induction a as [| d a IH]; cbn [append Str.mem]; [reflexivity |].
  rewrite IH. apply orb_assoc.
Qed.

Lemma all_not_mem p c s : p c = false -> Str.all p s = true -> Str.mem c s = false.
Proof.
  intros Hc. induction s as [| d s IH]; cbn [Str.all Str.mem]; [reflexivity |].
  intros H. apply andb_true_iff in H. destruct H as [H1 H2].
  rewrite (IH H2), orb_false_r. apply Ascii.eqb_neq. intros ->. congruence.
Qed.

Lemma name_char_code c :
  name_char c = true -> 48 <= Str.code c <= 122.
Proof. unfold name_char, Str.between. intros H. bool_cases. Qed.

Lemma name_char_isspace c : name_char c = true -> Str.isspace c = false.
Proof.
  intros H. apply name_char_code in H. unfold Str.isspace, Str.between. bool_cases.
Qed.

Lemma rstrip_plain name : Str.all name_char name = true -> Str.rstrip name = name.
Proof.
  induction name as [| c s IH]; cbn [Str.all Str.rstrip]; [reflexivity |].
  intros H. apply andb_true_iff in H. destruct H as [H1 H2].
  rewrite (IH H2), (name_char_isspace c H1). destruct s; reflexivity.
Qed.

Lemma lstrip_plain name : Str.all name_char name = true -> Str.lstrip name = name.
Proof.
  destruct name as [| c s]; cbn [Str.all Str.lstrip]; [reflexivity |].
  intros H. apply andb_true_iff in H. destruct H as [H1 _].
  rewrite (name_char_isspace c H1). reflexivity.
Qed.

Lemma rstrip_app a name :
  Str.is_empty name = false -> Str.rstrip name = name -> Str.rstrip (a ++ name) = a ++ name.
Proof.
  intros Hn Hr. induction a as [| c a IH]; cbn [append]; [assumption |].
  cbn [Str.rstrip]. rewrite IH.
  destruct (a ++ name) eqn:E; [| reflexivity].
  destruct a; cbn [append] in E; [subst name |]; discriminate.
Qed.

Lemma startswith_app a s : Str.startswith (a ++ s) a = true.
Proof.
  induction a as [| c a IH]; cbn [append Str.startswith]; [destruct s; reflexivity |].
  rewrite Ascii.eqb_refl, IH. reflexivity.
Qed.

Lemma remove_skip old a s :
  Str.remove_from old (String.length a) (a ++ s) = Str.remove_from old 0 s.
Proof.
  induction a as [| c a IH]; cbn [append String.length Str.remove_from]; [reflexivity |].
  exact IH.
Qed.

(** an occurrence at the start is removed *)
Lemma remove_prefix old s :
  Str.is_empty old = false ->
  Str.remove_from old 0 (old ++ s) = Str.remove_from old 0 s.
Proof.
  destruct old as [| c old']; [discriminate |]. intros _.
  change (String c old' ++ s) with (String c (old' ++ s)).
  cbn [Str.remove_from].
  change (String c (old' ++ s)) with (String c old' ++ s).
  rewrite startswith_app. cbn [String.length Nat.pred]. apply remove_skip.
Qed.

(** a plain name holds no occurrence of the marker of a section *)
Lemma remove_marker_plain name :
  Str.all name_char name = true -> Str.remove_from interface_marker 0 name = name.
Proof.
  induction name as [| c s IH]; cbn [Str.all Str.remove_from]; [reflexivity |].
  intros H. apply andb_true_iff in H. destruct H as [H1 H2].
  apply name_char_code in H1.
  unfold interface_marker at 1. cbn [Str.startswith].
  rewrite (code_eqb "-" c) by (change (Str.code "-") with 45; lia).
  cbn [andb]. rewrite (IH H2). reflexivity.
Qed.

(** the line of a section of a plain name under an active context *)
Lemma parse_section_line name st d p :
  plain_name name = true ->
  current_date st = Some d -> Str.is_empty d = false -> current_period st = Some p ->
  parse_line st (interface_marker ++ name)
  = mk_parser (data st ++ [mk_entry name d p None None None None]) (Some d) (Some p).
Proof.
  intros Hn Hd Hd' Hp. unfold plain_name in Hn.
  apply andb_true_iff in Hn. destruct Hn as [Hn1 Hn2]. apply negb_true_iff in Hn1.
  assert (Hs : Str.strip (interface_marker ++ name) = interface_marker ++ name).
  { unfold Str.strip.
    replace (Str.lstrip (interface_marker ++ name)) with (interface_marker ++ name)
      by reflexivity.
    apply rstrip_app; [assumption | apply rstrip_plain, Hn2]. }
  assert (Hv : value_of interface_marker (interface_marker ++ name) = name).
  { unfold value_of, Str.remove.
    replace (Str.remove_from interface_marker 0 (interface_marker ++ name))
      with (Str.remove_from interface_marker 0 name).
    - rewrite (remove_marker_plain name Hn2). unfold Str.strip.
      rewrite (lstrip_plain name Hn2). apply rstrip_plain, Hn2.
    - symmetry. apply remove_prefix. reflexivity. }
  unfold parse_line. rewrite Hs, Hv.
  replace (Str.startswith (interface_marker ++ name) ontem_marker) with false by reflexivity.
  replace (Str.startswith (interface_marker ++ name) mes_marker) with false by reflexivity.
  rewrite startswith_app, Hd, Hp. cbn [truthy]. rewrite Hd'. reflexivity.
Qed.

Lemma scenario_parsed name :
  plain_name name = true ->
  Str.is_empty (scenario name) = false /\
  parse_bandwidth_data (scenario name) = [scenario_entry name].
Proof.
  intros Hn. split; [reflexivity |].
  unfold parse_bandwidth_data, scenario.
  rewrite split_lines_text.
  - unfold parse_lines. cbn [fold_left].
    replace (parse_line (mk_parser [] None None) "- Ontem (2024-03-15)")
      with (mk_parser [] (Some "2024-03-15") (Some diario)) by reflexivity.
    rewrite (parse_section_line name (mk_parser [] (Some "2024-03-15") (Some diario))
               "2024-03-15" diario Hn eq_refl eq_refl eq_refl).
    vm_compute. reflexivity.
  - cbn [forallb]. rewrite mem_app.
    unfold plain_name in Hn. apply andb_true_iff in Hn. destruct Hn as [_ Hn].
    rewrite (all_not_mem name_char Str.newline name eq_refl Hn).
    reflexivity.
Qed.

Lemma scenario_values name :
  convert_values (scenario_entry name) = Ok (1073741824, 524288000, 1610612736, 10000000).
Proof. vm_compute. reflexivity. Qed.

(** * Further properties *)

(** ** Uploads and the table [consumo_banda] *)

Lemma accepted_records_length ifs es : forall rs,
  accepted_records ifs es = Ok rs ->
  List.length rs = List.length (filter (known ifs) es).
Proof.
  induction es as [| e es IH]; intros rs; cbn [accepted_records filter].
  - intros [= <-]. reflexivity.
  - unfold known at 1. unfold accepted_record.
    destruct (select_interface_id ifs (interface e)) as [i |]; cbn [is_some].
    + destruct (convert_values e) as [[[[a b] c] d] | x]; cbn [bind]; [| discriminate].
      destruct (sqlite_integer a); cbn [bind]; [| discriminate].
      destruct (sqlite_integer b); cbn [bind]; [| discriminate].
      destruct (sqlite_integer c); cbn [bind]; [| discriminate].
      destruct (sqlite_integer d); cbn [bind]; [| discriminate].
      destruct (accepted_records ifs es) as [rs' |]; cbn [bind]; [| discriminate].
      intros [= <-]. cbn [List.length]. f_equal. apply IH. reflexivity.
    + cbn [bind]. destruct (accepted_records ifs es) as [rs' |]; cbn [bind]; [| discriminate].
      intros [= <-]. apply IH. reflexivity.
Qed.

Lemma accepted_records_In ifs es : forall rs r,
  accepted_records ifs es = Ok rs -> In r rs ->
  exists e, In e es /\ accepted_record ifs e = Ok (Some r).
Proof.
  induction es as [| e es IH]; intros rs r; cbn [accepted_records].
  - intros [= <-] [].
  - destruct (accepted_record ifs e) as [o |] eqn:E; cbn [bind]; [| discriminate].
    destruct (accepted_records ifs es) as [rs' |]; cbn [bind]; [| discriminate].
    intros [= <-] Hin.
    destruct o as [r' |].
    + destruct Hin as [<- | Hin].
      * exists e. split; [left; reflexivity | assumption].
      * destruct (IH rs' r eq_refl Hin) as [e' [H1 H2]]. exists e'. split; [right |]; assumption.
    + destruct (IH rs' r eq_refl Hin) as [e' [H1 H2]]. exists e'. split; [right |]; assumption.
Qed.

(** the parts of an accepted record *)
Lemma accepted_record_parts ifs e r :
  accepted_record ifs e = Ok (Some r) ->
  exists i a b c d,
    select_interface_id ifs (interface e) = Some i /\
    convert_values e = Ok (a, b, c, d) /\
    r = ((i, data_referencia e, periodo e), (a, b, c, d)) /\
    numbers_int64 r = true.
Proof.
  unfold accepted_record.
  destruct (select_interface_id ifs (interface e)) as [i |]; [| discriminate].
  destruct (convert_values e) as [[[[a b] c] d] | x]; cbn [bind]; [| discriminate].
  unfold sqlite_integer.
  destruct (_ && _) eqn:Ea; cbn [bind]; [| discriminate].
  destruct (_ && _) eqn:Eb in |- *; cbn [bind]; [| discriminate].
  destruct (_ && _) eqn:Ec in |- *; cbn [bind]; [| discriminate].
  destruct (_ && _) eqn:Ed in |- *; cbn [bind]; [| discriminate].
  intros [= <-]. exists i, a, b, c, d.
  repeat split; try reflexivity.
  unfold numbers_int64, int64. rewrite Ea, Eb, Ec, Ed. reflexivity.
Qed.

(** X1: an upload never changes the table [interfaces], and an upload
    that is answered with a failure (no data, no valid data, or an
    exception for any entry) leaves the whole database as it was: no row of
    the entries before the failing one is kept. *)
Theorem upload_all_or_nothing : forall db text,
  interfaces (snd (upload_data db text)) = interfaces db /\
  interfaces_seq (snd (upload_data db text)) = interfaces_seq db /\
  (succeeded (fst (upload_data db text)) = false -> snd (upload_data db text) = db).
Proof.
  intros db text. rewrite upload_data_accepted.
  destruct (Str.is_empty text); [repeat split |].
  destruct (negb (nonempty (parse_bandwidth_data text))); [repeat split |].
  destruct (accepted_records (interfaces db) (parse_bandwidth_data text)) as [rs | x];
    [| repeat split].
  cbn [fst snd]. split; [apply fold_put_interfaces |]. split; [| discriminate].
  clear. revert db. induction rs as [| r rs IH]; intros db; cbn [fold_left]; [reflexivity |].
  rewrite IH. destruct r as [[[i d] p] [[[a b] c] t]]. reflexivity.
Qed.

Lemma upload_all_or_nothing_witness :
  succeeded (fst (upload_data (init_db empty_db)
                    (lines_text ["- Ontem (2024-03-15)";
                                 "--- Interface WAN"; "Entrada: 1KiB";
                                 "--- Interface DI"; "Entrada: abc"]))) = false /\
  snd (upload_data (init_db empty_db)
         (lines_text ["- Ontem (2024-03-15)";
                      "--- Interface WAN"; "Entrada: 1KiB";
                      "--- Interface DI"; "Entrada: abc"])) = init_db empty_db.
Proof.
  split; [vm_compute; reflexivity |].
  apply (upload_all_or_nothing (init_db empty_db)). vm_compute. reflexivity.
Defined.

(** X2: the count [records] of a successful upload is the number of
    parsed entries whose interface is registered, whatever their values
    and however many of them share a key. *)
Theorem records_counts_known_entries : forall db text,
  succeeded (fst (upload_data db text)) = true ->
  fst (upload_data db text)
  = success_response
      (Z.of_nat (List.length (filter (known (interfaces db)) (parse_bandwidth_data text)))).
Proof.
  intros db text. rewrite upload_data_accepted.
  destruct (Str.is_empty text); [discriminate |].
  destruct (negb (nonempty (parse_bandwidth_data text))); [discriminate |].
  destruct (accepted_records (interfaces db) (parse_bandwidth_data text)) as [rs | x] eqn:E;
    [| discriminate].
  intros _. cbn [fst]. rewrite (accepted_records_length _ _ _ E). reflexivity.
Qed.

Lemma records_counts_known_entries_witness :
  fst (upload_data (init_db empty_db) two_sections)
  = success_response
      (Z.of_nat (List.length (filter (known (interfaces (init_db empty_db)))
                                     (parse_bandwidth_data two_sections)))).
Proof.
  apply (records_counts_known_entries (init_db empty_db) two_sections).
  vm_compute. reflexivity.
Defined.

Lemma row_key_same_key i d p r :
  same_key i d p r = key_eqb (i, d, p) (row_key r).
Proof. apply same_key_content. Qed.

(** the rows after one [INSERT OR REPLACE] *)
Lemma put_rows db k v :
  consumo_banda (put db (k, v)) =
  (filter (fun r => negb (key_eqb k (row_key r))) (consumo_banda db)
   ++ [match k, v with
       | (i, d, p), (a, b, c, t) =>
           mk_consumo_row (next_id (consumo_banda_seq db) (map cb_id (consumo_banda db)))
                          i d p a b c t
       end])%list.
Proof.
  destruct k as [[i d] p], v as [[[a b] c] t]. unfold put. cbn [consumo_banda].
  f_equal. apply filter_ext. intros r. rewrite row_key_same_key. reflexivity.
Qed.

Lemma put_new_row_key db k v r :
  In r (consumo_banda (put db (k, v))) ->
  In r (consumo_banda db) /\ key_eqb k (row_key r) = false \/
  row_key r = k /\ content r = (k, v) /\
  cb_id r = next_id (consumo_banda_seq db) (map cb_id (consumo_banda db)).
Proof.
  rewrite put_rows. intros H. apply in_app_or in H. destruct H as [H | H].
  - apply filter_In in H. destruct H as [H1 H2]. left. split; [assumption |].
    apply negb_true_iff, H2.
  - destruct H as [<- | []]. right.
    destruct k as [[i d] p], v as [[[a b] c] t]. repeat split.
Qed.

Lemma key_eqb_false k k' : key_eqb k k' = false <-> k <> k'.
Proof.
  split.
  - intros H E. subst. rewrite key_eqb_refl in H. discriminate.
  - intros H. destruct (key_eqb k k') eqn:E; [| reflexivity].
    apply key_eqb_eq in E. contradiction.
Qed.

Lemma put_unique_keys db r : unique_keys db -> unique_keys (put db r).
Proof.
  unfold unique_keys. destruct r as [k v]. rewrite put_rows, map_app.
  intros H. cbn [map].
  assert (Hk : row_key (match k, v with
                        | (i, d, p), (a, b, c, t) =>
                            mk_consumo_row (next_id (consumo_banda_seq db)
                                              (map cb_id (consumo_banda db))) i d p a b c t
                        end) = k)
    by (destruct k as [[i d] p], v as [[[a b] c] t]; reflexivity).
  rewrite Hk. clear Hk.
  induction (consumo_banda db) as [| x l IH]; cbn [filter map app].
  - constructor; [intros [] | constructor].
  - inversion H as [| ? ? Hx Hl]; subst.
    destruct (key_eqb k (row_key x)) eqn:E; cbn [negb]; [apply IH, Hl |].
    cbn [map app]. constructor; [| apply IH, Hl].
    intros Hin. apply in_app_or in Hin. destruct Hin as [Hin | [Hin | []]].
    + apply Hx. apply in_map_iff in Hin. destruct Hin as [y [Hy Hin]].
      apply filter_In in Hin. rewrite <- Hy. apply in_map. tauto.
    + apply key_eqb_false in E. congruence.
Qed.

Lemma fold_put_unique_keys rs : forall db,
  unique_keys db -> unique_keys (fold_left put rs db).
Proof.
  induction rs as [| r rs IH]; intros db H; cbn [fold_left]; [assumption |].
  apply IH, put_unique_keys, H.
Qed.

(** what an upload leaves in the database *)
Lemma upload_data_db db text :
  snd (upload_data db text) = fold_left put (accepted db text) db \/
  snd (upload_data db text) = db.
Proof.
  rewrite upload_data_accepted. unfold accepted.
  destruct (Str.is_empty text); [right; reflexivity |].
  destruct (negb (nonempty (parse_bandwidth_data text))); [right; reflexivity |].
  destruct (accepted_records (interfaces db) (parse_bandwidth_data text));
    [left | right]; reflexivity.
Qed.

(** X3: an upload keeps the constraint [UNIQUE(interface_id,
    data_referencia, periodo)]: when no two rows of the table share a key
    before it, none do after it, also when the text holds several sections
    of one key. *)
Theorem upload_keeps_unique_keys : forall db text,
  unique_keys db -> unique_keys (snd (upload_data db text)).
Proof.
  intros db text H. destruct (upload_data_db db text) as [-> | ->]; [| assumption].
  apply fold_put_unique_keys, H.
Qed.

Lemma upload_keeps_unique_keys_witness :
  unique_keys (snd (upload_data (init_db empty_db) two_sections)).
Proof.
  apply (upload_keeps_unique_keys (init_db empty_db) two_sections).
  unfold unique_keys. cbn. constructor.
Defined.

(** *** Row ids *)

Lemma fold_max_ge ids : forall seq,
  seq <= fold_left Z.max ids seq /\ Forall (fun i => i <= fold_left Z.max ids seq) ids.
Proof.
  induction ids as [| i ids IH]; intros seq; cbn [fold_left]; [split; [lia | constructor] |].
  destruct (IH (Z.max seq i)) as [H1 H2]. split; [lia |].
  constructor; [lia | assumption].
Qed.

Lemma next_id_above seq ids :
  seq < next_id seq ids /\ Forall (fun i => i < next_id seq ids) ids.
Proof.
  unfold next_id. destruct (fold_max_ge ids seq) as [H1 H2]. split; [lia |].
  eapply Forall_impl; [| exact H2]. cbv beta. intros. lia.
Qed.

Lemma sorted_filter_ids (f : consumo_row -> bool) l :
  StronglySorted Z.lt (map cb_id l) -> StronglySorted Z.lt (map cb_id (filter f l)).
Proof.
  induction l as [| x l IH]; cbn [map filter]; intros H; [constructor |].
  inversion H as [| ? ? Hs Hf]; subst.
  destruct (f x); [| apply IH, Hs].
  cbn [map]. constructor; [apply IH, Hs |].
  rewrite Forall_forall in *. intros i Hi. apply Hf.
  apply in_map_iff in Hi. destruct Hi as [y [<- Hy]]. apply filter_In in Hy.
  apply in_map. tauto.
Qed.

Lemma sorted_snoc l n :
  StronglySorted Z.lt l -> Forall (fun i => i < n) l -> StronglySorted Z.lt (l ++ [n]).
Proof.
  induction l as [| x l IH]; cbn [app]; intros Hs Hf.
  - constructor; constructor.
  - inversion Hs as [| ? ? Hs' Hx]; subst. inversion Hf as [| ? ? Hxn Hf']; subst.
    constructor; [apply IH; assumption |].
    apply Forall_app. split; [assumption | constructor; [assumption | constructor]].
Qed.

Lemma put_ids db r :
  ids_increasing db ->
  ids_increasing (put db r) /\
  consumo_banda_seq db < consumo_banda_seq (put db r) /\
  forall x, In x (consumo_banda (put db r)) ->
            In x (consumo_banda db) \/ consumo_banda_seq db < cb_id x.
Proof.
  intros [Hs Hb]. destruct r as [k v].
  destruct (next_id_above (consumo_banda_seq db) (map cb_id (consumo_banda db))) as [H1 H2].
  set (n := next_id (consumo_banda_seq db) (map cb_id (consumo_banda db))) in *.
  assert (Hseq : consumo_banda_seq (put db (k, v)) = n)
    by (destruct k as [[i d] p], v as [[[a b] c] t]; reflexivity).
  assert (Hf : forall f, Forall (fun i => i < n) (map cb_id (filter f (consumo_banda db)))).
  { intros f. rewrite Forall_forall in *. intros i Hi. apply H2.
    apply in_map_iff in Hi. destruct Hi as [y [<- Hy]]. apply filter_In in Hy.
    apply in_map. tauto. }
  split; [| split].
  - unfold ids_increasing. rewrite Hseq, put_rows, map_app. cbn [map].
    replace (cb_id _) with n by (destruct k as [[i d] p], v as [[[a b] c] t]; reflexivity).
    split.
    + apply sorted_snoc; [apply sorted_filter_ids, Hs | apply Hf].
    + apply Forall_app. split.
      * eapply Forall_impl; [| apply Hf]. cbv beta. intros. lia.
      * constructor; [lia | constructor].
  - rewrite Hseq. exact H1.
  - intros x Hx. apply put_new_row_key in Hx. destruct Hx as [[Hx _] | [_ [_ Hx]]].
    + left. assumption.
    + right. rewrite Hx. exact H1.
Qed.

Lemma fold_put_ids rs : forall db,
  ids_increasing db ->
  ids_increasing (fold_left put rs db) /\
  consumo_banda_seq db <= consumo_banda_seq (fold_left put rs db) /\
  forall x, In x (consumo_banda (fold_left put rs db)) ->
            In x (consumo_banda db) \/ consumo_banda_seq db < cb_id x.
Proof.
  induction rs as [| r rs IH]; intros db H; cbn [fold_left].
  - split; [assumption |]. split; [lia | auto].
  - destruct (put_ids db r H) as [H1 [H2 H3]].
    destruct (IH (put db r) H1) as [G1 [G2 G3]].
    split; [assumption |]. split; [lia |].
    intros x Hx. destruct (G3 x Hx) as [Hx' | Hx'].
    + apply H3, Hx'.
    + right. lia.
Qed.

(** X4: row ids are never reused. When the ids grow along the table and
    none is above the counter of [AUTOINCREMENT], the same holds after
    an upload, the counter has not gone down, and every row that was not in
    the table before has an id above the old counter, a replaced row too. *)
Theorem upload_gives_fresh_ids : forall db text,
  ids_increasing db ->
  ids_increasing (snd (upload_data db text)) /\
  consumo_banda_seq db <= consumo_banda_seq (snd (upload_data db text)) /\
  forall r, In r (consumo_banda (snd (upload_data db text))) ->
            In r (consumo_banda db) \/ consumo_banda_seq db < cb_id r.
Proof.
  intros db text H. destruct (upload_data_db db text) as [-> | ->].
  - apply fold_put_ids, H.
  - split; [assumption |]. split; [lia | auto].
Qed.

Lemma upload_gives_fresh_ids_witness :
  ids_increasing (snd (upload_data (snd (upload_data (init_db empty_db) two_sections))
                         two_sections)) /\
  consumo_banda_seq (snd (upload_data (init_db empty_db) two_sections))
  <= consumo_banda_seq (snd (upload_data (snd (upload_data (init_db empty_db) two_sections))
                               two_sections)) /\
  forall r, In r (consumo_banda (snd (upload_data (snd (upload_data (init_db empty_db)
                                                           two_sections)) two_sections))) ->
            In r (consumo_banda (snd (upload_data (init_db empty_db) two_sections))) \/
            consumo_banda_seq (snd (upload_data (init_db empty_db) two_sections)) < cb_id r.
Proof.
  apply (upload_gives_fresh_ids (snd (upload_data (init_db empty_db) two_sections))
           two_sections).
  unfold ids_increasing. vm_compute.
  split; repeat constructor; discriminate.
Defined.

(** *** Which rows an upload touches *)

Lemma put_other_rows db r (K : list key) :
  key_in (fst r) K = true ->
  filter (fun x => negb (key_in (row_key x) K)) (consumo_banda (put db r))
  = filter (fun x => negb (key_in (row_key x) K)) (consumo_banda db).
Proof.
  destruct r as [k v]. cbn [fst]. intros Hk. rewrite put_rows, filter_app.
  cbn [filter].
  replace (row_key _) with k by (destruct k as [[i d] p], v as [[[a b] c] t]; reflexivity).
  rewrite Hk. cbn [negb]. rewrite app_nil_r, filter_filter.
  apply filter_ext_in. intros x _.
  destruct (key_eqb k (row_key x)) eqn:E; [| reflexivity].
  apply key_eqb_eq in E. rewrite <- E, Hk. reflexivity.
Qed.

Lemma fold_put_other_rows (K : list key) rs : forall db,
  forallb (fun r => key_in (fst r) K) rs = true ->
  filter (fun x => negb (key_in (row_key x) K)) (consumo_banda (fold_left put rs db))
  = filter (fun x => negb (key_in (row_key x) K)) (consumo_banda db).
Proof.
  induction rs as [| r rs IH]; intros db H; cbn [fold_left]; [reflexivity |].
  cbn [forallb] in H. apply andb_true_iff in H. destruct H as [H1 H2].
  rewrite (IH _ H2). apply put_other_rows, H1.
Qed.

Lemma keys_of_all_in rs : forallb (fun r : record => key_in (fst r) (keys_of rs)) rs = true.
Proof.
  apply forallb_forall. intros r Hr. apply key_in_In. unfold keys_of. apply in_map, Hr.
Qed.

(** X5: an upload touches only the rows of the keys it accepts: the rows
    of every other key are the same rows after it, with their ids and in
    their order. *)
Theorem upload_keeps_other_rows : forall db text,
  filter (fun r => negb (key_in (row_key r) (keys_of (accepted db text))))
         (consumo_banda (snd (upload_data db text)))
  = filter (fun r => negb (key_in (row_key r) (keys_of (accepted db text))))
           (consumo_banda db).
Proof.
  intros db text. destruct (upload_data_db db text) as [-> | ->]; [| reflexivity].
  apply fold_put_other_rows, keys_of_all_in.
Qed.

Lemma last_with_key_snoc k rs r :
  last_with_key k (rs ++ [r])
  = if key_eqb k (fst r) then Some (snd r) else last_with_key k rs.
Proof.
  unfold last_with_key. rewrite rev_app_distr. cbn [rev app find].
  destruct (key_eqb k (fst r)); reflexivity.
Qed.

Lemma key_in_snoc k ks k' :
  key_in k (ks ++ [k']) = key_in k ks || key_eqb k k'.
Proof.
  unfold key_in. rewrite existsb_app. cbn [existsb]. rewrite orb_false_r. reflexivity.
Qed.

(** the records left by a run of upserts: for a key of the run, the last
    record of that key; for another key, what was there *)
Lemma fold_upsert_In rs : forall l k v,
  In (k, v) (fold_left upsert rs l) <->
  last_with_key k rs = Some v \/ (key_in k (keys_of rs) = false /\ In (k, v) l).
Proof.
  induction rs as [| r rs IH] using rev_ind; intros l k v.
  - cbn. split; [intros H; right; auto | intros [H | [_ H]]; [discriminate | assumption]].
  - rewrite fold_left_app. cbn [fold_left]. unfold upsert at 1.
    rewrite in_app_iff, filter_In, IH, last_with_key_snoc.
    unfold keys_of. rewrite map_app. cbn [map]. rewrite key_in_snoc. fold (keys_of rs).
    cbn [fst In].
    destruct (key_eqb k (fst r)) eqn:E.
    + apply key_eqb_eq in E. subst k. rewrite key_eqb_refl. cbn [negb].
      rewrite orb_true_r. split.
      * intros [[_ H] | [H | []]]; [discriminate |]. left. rewrite H. reflexivity.
      * intros [H | [H _]]; [| discriminate]. right. left.
        destruct r as [k' v']. cbn in *. congruence.
    + assert (E' : key_eqb (fst r) k = false).
      { apply key_eqb_false. apply key_eqb_false in E. congruence. }
      rewrite E'. cbn [negb]. rewrite orb_false_r. split.
      * intros [[H _] | [H | []]]; [exact H |].
        subst r. cbn in E. rewrite key_eqb_refl in E. discriminate.
      * intros H. left. split; [exact H | reflexivity].
Qed.

(** the stored records after an upload *)
Lemma upload_stored db text :
  stored (snd (upload_data db text)) = fold_left upsert (accepted db text) (stored db).
Proof.
  unfold accepted. rewrite upload_data_accepted.
  destruct text as [| c t]; [reflexivity |]. cbn [Str.is_empty].
  destruct (parse_bandwidth_data (String c t)) as [| e es]; [reflexivity |].
  cbn [nonempty negb].
  destruct (accepted_records (interfaces db) (e :: es)) as [rs | x]; [| reflexivity].
  apply stored_fold_put.
Qed.

(** X6: after an upload the table holds, for every key it accepted,
    the numbers of the last section of that key in the text, and for every
    other key what it held before: a later section of the same interface,
    date and period replaces an earlier one of the same text. *)
Theorem upload_last_section_wins : forall db text k v,
  In (k, v) (stored (snd (upload_data db text))) <->
  last_with_key k (accepted db text) = Some v \/
  (key_in k (keys_of (accepted db text)) = false /\ In (k, v) (stored db)).
Proof.
  intros db text k v. rewrite upload_stored. apply fold_upsert_In.
Qed.

(** *** What the stored rows hold *)

Lemma fold_put_forall (P : record -> Prop) rs : forall db,
  Forall (fun r => P (content r)) (consumo_banda db) ->
  Forall P rs ->
  Forall (fun r => P (content r)) (consumo_banda (fold_left put rs db)).
Proof.
  induction rs as [| r rs IH]; intros db Hdb Hrs; cbn [fold_left]; [assumption |].
  inversion Hrs as [| ? ? Hr Hrs']; subst.
  apply IH; [| assumption].
  rewrite Forall_forall in *. intros x Hx. destruct r as [k v].
  apply put_new_row_key in Hx. destruct Hx as [[Hx _] | [_ [Hx _]]].
  - apply Hdb, Hx.
  - rewrite Hx. exact Hr.
Qed.

Lemma accepted_forall (P : record -> Prop) db text :
  (forall e r, In e (parse_bandwidth_data text) ->
               accepted_record (interfaces db) e = Ok (Some r) -> P r) ->
  Forall P (accepted db text).
Proof.
  intros H. unfold accepted.
  destruct (accepted_records (interfaces db) (parse_bandwidth_data text)) as [rs |] eqn:E;
    [| constructor].
  apply Forall_forall. intros r Hr.
  destruct (accepted_records_In _ _ _ _ E Hr) as [e [H1 H2]]. apply (H e r H1 H2).
Qed.

Lemma upload_forall (P : record -> Prop) db text :
  (forall e r, In e (parse_bandwidth_data text) ->
               accepted_record (interfaces db) e = Ok (Some r) -> P r) ->
  Forall (fun r => P (content r)) (consumo_banda db) ->
  Forall (fun r => P (content r)) (consumo_banda (snd (upload_data db text))).
Proof.
  intros H Hdb. destruct (upload_data_db db text) as [-> | ->]; [| assumption].
  apply fold_put_forall; [assumption | apply accepted_forall, H].
Qed.

(** X7: the four numbers of every row an upload stores are 64-bit signed
    integers: a table that holds only such numbers holds only such numbers
    after the upload (a number out of the range makes the upload fail). *)
Theorem upload_stores_int64 : forall db text,
  Forall (fun r => numbers_int64 (content r) = true) (consumo_banda db) ->
  Forall (fun r => numbers_int64 (content r) = true) (consumo_banda (snd (upload_data db text))).
Proof.
  intros db text. apply (upload_forall (fun r => numbers_int64 r = true)).
  intros e r _ H. apply accepted_record_parts in H.
  destruct H as [i [a [b [c [d [_ [_ [_ H]]]]]]]]. exact H.
Qed.

Lemma upload_stores_int64_witness :
  Forall (fun r => numbers_int64 (content r) = true)
         (consumo_banda (snd (upload_data (init_db empty_db) two_sections))).
Proof.
  apply (upload_stores_int64 (init_db empty_db) two_sections). constructor.
Defined.

Lemma select_interface_id_In ifs name i :
  select_interface_id ifs name = Some i -> In i (map if_id ifs).
Proof.
  induction ifs as [| r ifs IH]; cbn [select_interface_id map]; [discriminate |].
  destruct (String.eqb (nome r) name).
  - intros [= <-]. left. reflexivity.
  - intros H. right. apply IH, H.
Qed.

(** X8: an upload keeps the reference of [consumo_banda.interface_id] to
    [interfaces.id]: when every row refers to a registered interface before
    it, every row does after it. *)
Theorem upload_keeps_references : forall db text,
  Forall (fun r => references (interfaces db) (content r)) (consumo_banda db) ->
  Forall (fun r => references (interfaces (snd (upload_data db text))) (content r))
         (consumo_banda (snd (upload_data db text))).
Proof.
  intros db text H.
  replace (interfaces (snd (upload_data db text))) with (interfaces db).
  - apply (upload_forall (references (interfaces db))); [| assumption].
    intros e r _ Hr. apply accepted_record_parts in Hr.
    destruct Hr as [i [a [b [c [d [Hi [_ [-> _]]]]]]]].
    cbn [references]. apply (select_interface_id_In _ _ _ Hi).
  - symmetry. destruct (upload_data_db db text) as [-> | ->]; [| reflexivity].
    apply fold_put_interfaces.
Qed.

Lemma upload_keeps_references_witness :
  Forall (fun r => references (interfaces (snd (upload_data (init_db empty_db) two_sections)))
                              (content r))
         (consumo_banda (snd (upload_data (init_db empty_db) two_sections))).
Proof.
  apply (upload_keeps_references (init_db empty_db) two_sections). constructor.
Defined.

(** ** The records of a report *)

Lemma no_context_no_change raw :
  context_active (parse_line initial raw) = false -> parse_line initial raw = initial.
Proof.
  unfold parse_line, initial. cbn [data current_date current_period nonempty].
  rewrite !andb_false_r.
  destruct (Str.startswith (Str.strip raw) ontem_marker).
  { destruct (search day_here (Str.strip raw)) as [d |] eqn:E; [| reflexivity].
    unfold context_active. cbn [current_date current_period truthy is_some].
    rewrite (search_day_nonempty _ _ E). discriminate. }
  destruct (Str.startswith (Str.strip raw) mes_marker).
  { destruct (search month_here (Str.strip raw)) as [m |]; [| reflexivity].
    unfold context_active. cbn [current_date current_period truthy is_some].
    rewrite is_empty_app_cons. discriminate. }
  destruct (Str.startswith (Str.strip raw) interface_marker); reflexivity.
Qed.

Lemma context_active_kept st raw :
  context_active st = true -> context_active (parse_line st raw) = true.
Proof.
  intros H. unfold parse_line.
  destruct (Str.startswith (Str.strip raw) ontem_marker).
  { destruct (search day_here (Str.strip raw)) as [d |] eqn:E; [| assumption].
    unfold context_active. cbn [current_date current_period truthy is_some].
    rewrite (search_day_nonempty _ _ E). reflexivity. }
  destruct (Str.startswith (Str.strip raw) mes_marker).
  { destruct (search month_here (Str.strip raw)) as [m |]; [| assumption].
    unfold context_active. cbn [current_date current_period truthy is_some].
    rewrite is_empty_app_cons. reflexivity. }
  destruct (Str.startswith (Str.strip raw) interface_marker).
  { destruct (current_date st) as [d |] eqn:Ed; [| assumption].
    destruct (current_period st) as [p |] eqn:Ep; [| assumption].
    destruct (truthy (Some d)) eqn:Et; [| assumption].
    unfold context_active. cbn [current_date current_period]. rewrite Et. reflexivity. }
  destruct (_ && _); [exact H |].
  destruct (_ && _); [exact H |].
  destruct (_ && _); [exact H |].
  destruct (_ && _); exact H.
Qed.

Lemma parse_section_active st raw :
  context_active st = true -> is_section raw = true ->
  map interface (data (parse_line st raw))
  = (map interface (data st) ++ [section_name raw])%list.
Proof.
  intros Hc Hs. destruct (section_not_marker raw Hs) as [Ho Hm].
  unfold is_section in Hs. unfold parse_line. rewrite Ho, Hm, Hs.
  unfold context_active in Hc. apply andb_true_iff in Hc. destruct Hc as [Hc1 Hc2].
  destruct (current_date st) as [d |] eqn:Ed; [| discriminate].
  destruct (current_period st) as [p |] eqn:Ep; [| discriminate].
  rewrite Hc1. cbn [data]. rewrite map_app. reflexivity.
Qed.

Lemma parse_no_section_names st raw :
  is_section raw = false ->
  map interface (data (parse_line st raw)) = map interface (data st).
Proof.
  intros Hs.
  destruct (data st) as [| x l] eqn:E.
  - rewrite (parse_line_no_section_empty st raw Hs E). reflexivity.
  - destruct (exists_last (l := x :: l) ltac:(discriminate)) as [d [e He]].
    rewrite He in E.
    destruct (parse_line_no_section_last st raw d e Hs E) as [e' [H1 H2]].
    rewrite H1, He, !map_app. cbn [map]. rewrite H2. reflexivity.
Qed.

Lemma parse_lines_names lines : forall st,
  context_active st = true ->
  map interface (data (parse_lines st lines))
  = (map interface (data st) ++ map section_name (filter is_section lines))%list.
Proof.
  unfold parse_lines.
  induction lines as [| l lines IH]; intros st Hc; cbn [fold_left filter].
  - rewrite app_nil_r. reflexivity.
  - rewrite (IH _ (context_active_kept st l Hc)).
    destruct (is_section l) eqn:Hs.
    + rewrite (parse_section_active st l Hc Hs). cbn [map]. rewrite <- app_assoc. reflexivity.
    + rewrite (parse_no_section_names st l Hs). reflexivity.
Qed.

Lemma parse_lines_from_initial lines :
  map interface (data (parse_lines initial lines))
  = map section_name (filter is_section (after_first_context lines)).
Proof.
  unfold parse_lines.
  induction lines as [| l lines IH]; cbn [fold_left after_first_context]; [reflexivity |].
  destruct (context_active (parse_line initial l)) eqn:E.
  - pose proof (parse_lines_names lines (parse_line initial l) E) as H.
    unfold parse_lines in H. rewrite H.
    replace (data (parse_line initial l)) with (@nil entry); [reflexivity |].
    symmetry. apply parse_line_no_section_empty; [| reflexivity].
    destruct (is_section l) eqn:Hs; [| reflexivity].
    exfalso. destruct (section_not_marker l Hs) as [Ho Hm]. unfold is_section in Hs.
    unfold parse_line in E. rewrite Ho, Hm, Hs in E. discriminate.
  - rewrite (no_context_no_change l E). exact IH.
Qed.

(** X9: the parser gives one record for each interface section line that
    comes after the first line that sets a date, in the order of the lines
    and with the names of the lines; the section lines before that line
    give none. *)
Theorem records_follow_section_lines : forall text,
  map interface (parse_bandwidth_data text)
  = map section_name
        (filter is_section (after_first_context (Str.split Str.newline text))).
Proof.
  intros text. unfold parse_bandwidth_data. apply parse_lines_from_initial.
Qed.

Lemma labelled_false raw st : labelled raw = false -> parse_line st raw = st.
Proof.
  unfold labelled, is_marker, is_section. intros H.
  repeat (apply orb_false_iff in H; destruct H as [H ?]).
  unfold parse_line.
  repeat match goal with
    | E : Str.startswith _ _ = false |- _ => rewrite E; clear E
    end.
  reflexivity.
Qed.

(** X10: lines that start with none of the seven texts the parser looks
    for (blank lines, headings, any other text) can stand anywhere in a
    report: the parser gives the same records with and without them. *)
Theorem unlabelled_lines_ignored : forall st lines,
  parse_lines st lines = parse_lines st (filter labelled lines).
Proof.
  intros st lines. unfold parse_lines. revert st.
  induction lines as [| l lines IH]; intros st; cbn [fold_left filter]; [reflexivity |].
  destruct (labelled l) eqn:E.
  - cbn [fold_left]. apply IH.
  - rewrite (labelled_false l st E). apply IH.
Qed.

Lemma not_marker_no_change raw :
  is_marker raw = false -> parse_line initial raw = initial.
Proof.
  unfold is_marker. intros H. apply orb_false_iff in H. destruct H as [H1 H2].
  unfold parse_line, initial. rewrite H1, H2.
  cbn [data current_date current_period nonempty]. rewrite !andb_false_r.
  destruct (Str.startswith (Str.strip raw) interface_marker); reflexivity.
Qed.

(** X11: a report none of whose lines starts with a date marker gives no
    record, and its upload is answered with a failure and stores nothing. *)
Theorem report_without_marker_rejected : forall db text,
  forallb (fun l => negb (is_marker l)) (Str.split Str.newline text) = true ->
  parse_bandwidth_data text = [] /\
  succeeded (fst (upload_data db text)) = false /\
  snd (upload_data db text) = db.
Proof.
  intros db text H.
  assert (P : parse_bandwidth_data text = []).
  { unfold parse_bandwidth_data, parse_lines. fold initial.
    replace (fold_left parse_line (Str.split Str.newline text) initial) with initial;
      [reflexivity |].
    induction (Str.split Str.newline text) as [| l ls IH]; [reflexivity |].
    cbn [forallb] in H. apply andb_true_iff in H. destruct H as [H1 H2].
    apply negb_true_iff in H1. cbn [fold_left].
    rewrite (not_marker_no_change l H1). apply IH, H2. }
  split; [exact P |].
  unfold upload_data. rewrite P. cbn [nonempty negb].
  destruct (Str.is_empty text); split; reflexivity.
Qed.

Lemma report_without_marker_rejected_witness :
  parse_bandwidth_data (lines_text ["--- Interface WAN"; "Entrada: 1KiB"]) = [] /\
  succeeded (fst (upload_data (init_db empty_db)
                    (lines_text ["--- Interface WAN"; "Entrada: 1KiB"]))) = false /\
  snd (upload_data (init_db empty_db) (lines_text ["--- Interface WAN"; "Entrada: 1KiB"]))
  = init_db empty_db.
Proof.
  apply (report_without_marker_rejected (init_db empty_db)
           (lines_text ["--- Interface WAN"; "Entrada: 1KiB"])).
  vm_compute. reflexivity.
Defined.

(** ** Dates and values of the records *)

Lemma append_assoc3 (a b c : string) : ((a ++ b) ++ c = a ++ (b ++ c))%string.
Proof. induction a as [| x a IH]; cbn [append]; [reflexivity | rewrite IH; reflexivity]. Qed.

Lemma take_digits_app n : forall s d r rest,
  take_digits n s = Some (d, r) -> take_digits n (d ++ rest) = Some (d, rest).
Proof.
  induction n as [| n IH]; intros s d r rest H; cbn [take_digits] in *.
  - injection H as <- _. reflexivity.
  - destruct s as [| c s]; [discriminate |].
    destruct (Str.isdigit c) eqn:Ec; [| discriminate].
    destruct (take_digits n s) as [[d' r'] |] eqn:E; [| discriminate].
    injection H as <- _. cbn [append]. rewrite Ec, (IH _ _ _ rest E). reflexivity.
Qed.

Lemma take_digits_self n : forall s d r,
  take_digits n s = Some (d, r) -> take_digits n d = Some (d, EmptyString).
Proof.
  induction n as [| n IH]; intros s d r H; cbn [take_digits] in *.
  - injection H as <- _. reflexivity.
  - destruct s as [| c s]; [discriminate |].
    destruct (Str.isdigit c) eqn:Ec; [| discriminate].
    destruct (take_digits n s) as [[d' r'] |] eqn:E; [| discriminate].
    injection H as <- _. rewrite Ec, (IH _ _ _ E). reflexivity.
Qed.

Lemma date_parts_build y m d s1 s2 s3 s4 s5 s6 :
  take_digits 4 s1 = Some (y, s2) ->
  take_digits 2 s3 = Some (m, s4) ->
  take_digits 2 s5 = Some (d, s6) ->
  date_parts (y ++ "-" ++ m ++ "-" ++ d) = Some (y, m, d).
Proof.
  intros Hy Hm Hd. unfold date_parts.
  rewrite (take_digits_app _ _ _ _ ("-" ++ m ++ "-" ++ d) Hy).
  cbn [opt_bind append take_char]. rewrite Ascii.eqb_refl. cbn [opt_bind].
  rewrite (take_digits_app _ _ _ _ (String "-" d) Hm).
  cbn [opt_bind take_char]. rewrite Ascii.eqb_refl. cbn [opt_bind].
  rewrite (take_digits_self _ _ _ _ Hd). reflexivity.
Qed.

Lemma day_here_shape s g : day_here s = Some g -> date_shape g diario = true.
Proof.
  unfold day_here. intros H.
  destruct (take_char "(" s) as [s1 |]; [| discriminate]. cbn [opt_bind] in H.
  destruct (take_digits 4 s1) as [[y s2] |] eqn:Hy; [| discriminate]. cbn [opt_bind] in H.
  destruct (take_char "-" s2) as [s3 |]; [| discriminate]. cbn [opt_bind] in H.
  destruct (take_digits 2 s3) as [[m s4] |] eqn:Hm; [| discriminate]. cbn [opt_bind] in H.
  destruct (take_char "-" s4) as [s5 |]; [| discriminate]. cbn [opt_bind] in H.
  destruct (take_digits 2 s5) as [[d s6] |] eqn:Hd; [| discriminate]. cbn [opt_bind] in H.
  destruct (take_char ")" s6) as [s7 |]; [| discriminate]. cbn [opt_bind] in H.
  injection H as <-.
  change (date_shape (y ++ "-" ++ m ++ "-" ++ d) diario = true). unfold date_shape.
  rewrite (date_parts_build _ _ _ _ _ _ _ _ _ Hy Hm Hd). reflexivity.
Qed.

Lemma month_here_shape s g :
  month_here s = Some g -> date_shape (g ++ "-01") mensal = true.
Proof.
  unfold month_here. intros H.
  destruct (take_char "(" s) as [s1 |]; [| discriminate]. cbn [opt_bind] in H.
  destruct (take_digits 4 s1) as [[y s2] |] eqn:Hy; [| discriminate]. cbn [opt_bind] in H.
  destruct (take_char "-" s2) as [s3 |]; [| discriminate]. cbn [opt_bind] in H.
  destruct (take_digits 2 s3) as [[m s4] |] eqn:Hm; [| discriminate]. cbn [opt_bind] in H.
  destruct (take_char ")" s4) as [s5 |]; [| discriminate]. cbn [opt_bind] in H.
  injection H as <-.
  rewrite append_assoc3.
  change (date_shape (y ++ "-" ++ m ++ "-" ++ "01") mensal = true).
  unfold date_shape.
  assert (Hd : take_digits 2 "01" = Some ("01"%string, EmptyString)) by reflexivity.
  rewrite (date_parts_build _ _ _ _ _ _ _ _ _ Hy Hm Hd). reflexivity.
Qed.

Lemma date_shape_diario d p : date_shape d p = true -> date_shape d diario = true.
Proof.
  unfold date_shape. destruct (date_parts d) as [[[y m] day] |]; [| discriminate].
  reflexivity.
Qed.

Lemma search_found (here : string -> option string) s : forall g,
  search here s = Some g -> exists s', here s' = Some g.
Proof.
  induction s as [| c s IH]; intros g H; cbn [search] in H.
  - destruct (here EmptyString) eqn:E; [| discriminate]. injection H as <-. eauto.
  - destruct (here (String c s)) eqn:E.
    + injection H as <-. eauto.
    + apply IH, H.
Qed.

Lemma Forall_update_last (P : entry -> Prop) f l :
  (forall e, P e -> P (f e)) -> Forall P l -> Forall P (update_last f l).
Proof.
  intros Hf H. induction H as [| e l He Hl IH]; [constructor |].
  cbn [update_last]. destruct l as [| x l'].
  - constructor; [apply Hf, He | constructor].
  - constructor; [exact He | exact IH].
Qed.

(** An invariant of the loop for a property [P] of the entries that the
    four assignments of values keep, and a property [Q] of the date and
    the period that makes the new entries satisfy [P]. *)
Lemma parse_line_keeps (P : entry -> Prop) (Q : string -> period -> Prop) st raw :
  (forall v e, P e -> P (set_entrada (Str.strip v) e)) ->
  (forall v e, P e -> P (set_saida (Str.strip v) e)) ->
  (forall v e, P e -> P (set_total (Str.strip v) e)) ->
  (forall v e, P e -> P (set_taxa_media (Str.strip v) e)) ->
  (forall v d p, Q d p -> P (mk_entry (Str.strip v) d p None None None None)) ->
  (forall s g, day_here s = Some g -> Q g diario) ->
  (forall s g, month_here s = Some g -> Q (g ++ "-01") mensal) ->
  Forall P (data st) ->
  (forall d p, current_date st = Some d -> current_period st = Some p -> Q d p) ->
  Forall P (data (parse_line st raw)) /\
  (forall d p, current_date (parse_line st raw) = Some d ->
               current_period (parse_line st raw) = Some p -> Q d p).
Proof.
  intros H1 H2 H3 H4 Hn Hd Hm HP HQ. unfold parse_line, value_of.
  destruct (Str.startswith (Str.strip raw) ontem_marker).
  { destruct (search day_here (Str.strip raw)) as [g |] eqn:E; [| split; assumption].
    split; [exact HP |]. cbn [current_date current_period]. intros d p Ed Ep.
    injection Ed as <-. injection Ep as <-.
    destruct (search_found _ _ _ E) as [s' Hs']. exact (Hd _ _ Hs'). }
  destruct (Str.startswith (Str.strip raw) mes_marker).
  { destruct (search month_here (Str.strip raw)) as [g |] eqn:E; [| split; assumption].
    split; [exact HP |]. cbn [current_date current_period]. intros d p Ed Ep.
    injection Ed as <-. injection Ep as <-.
    destruct (search_found _ _ _ E) as [s' Hs']. exact (Hm _ _ Hs'). }
  destruct (Str.startswith (Str.strip raw) interface_marker).
  { destruct (current_date st) as [d |] eqn:Ed;
      [| split; [exact HP | rewrite Ed; exact HQ]].
    destruct (current_period st) as [p |] eqn:Ep;
      [| split; [exact HP | rewrite Ed, Ep; exact HQ]].
    destruct (truthy (Some d)); [| split; [exact HP | rewrite Ed, Ep; exact HQ]].
    cbn [data current_date current_period]. split; [| exact HQ].
    apply Forall_app. split; [exact HP |].
    constructor; [| constructor]. apply Hn, HQ; reflexivity. }
  destruct (_ && _).
  { cbn [data current_date current_period]. split; [| exact HQ].
    apply Forall_update_last; [apply H1 | exact HP]. }
  destruct (_ && _).
  { cbn [data current_date current_period]. split; [| exact HQ].
    apply Forall_update_last; [apply H2 | exact HP]. }
  destruct (_ && _).
  { cbn [data current_date current_period]. split; [| exact HQ].
    apply Forall_update_last; [apply H3 | exact HP]. }
  destruct (_ && _).
  { cbn [data current_date current_period]. split; [| exact HQ].
    apply Forall_update_last; [apply H4 | exact HP]. }
  split; assumption.
Qed.

Lemma parse_keeps (P : entry -> Prop) (Q : string -> period -> Prop) :
  (forall v e, P e -> P (set_entrada (Str.strip v) e)) ->
  (forall v e, P e -> P (set_saida (Str.strip v) e)) ->
  (forall v e, P e -> P (set_total (Str.strip v) e)) ->
  (forall v e, P e -> P (set_taxa_media (Str.strip v) e)) ->
  (forall v d p, Q d p -> P (mk_entry (Str.strip v) d p None None None None)) ->
  (forall s g, day_here s = Some g -> Q g diario) ->
  (forall s g, month_here s = Some g -> Q (g ++ "-01") mensal) ->
  forall text, Forall P (parse_bandwidth_data text).
Proof.
  intros H1 H2 H3 H4 Hn Hd Hm text. unfold parse_bandwidth_data, parse_lines.
  assert (G : forall lines st,
             Forall P (data st) ->
             (forall d p, current_date st = Some d -> current_period st = Some p -> Q d p) ->
             Forall P (data (fold_left parse_line lines st))).
  { induction lines as [| l lines IH]; intros st HP HQ; cbn [fold_left]; [exact HP |].
    destruct (parse_line_keeps P Q st l H1 H2 H3 H4 Hn Hd Hm HP HQ) as [HP' HQ'].
    apply IH; assumption. }
  apply G; [constructor |]. cbn [current_date]. discriminate.
Qed.

Lemma parsed_date_shape text :
  Forall (fun e => date_shape (data_referencia e) (periodo e) = true)
         (parse_bandwidth_data text).
Proof.
  apply (parse_keeps _ (fun d p => date_shape d p = true)); try (intros v e H; exact H).
  - intros v d p H. exact H.
  - apply day_here_shape.
  - apply month_here_shape.
Qed.

(** *** White space *)

Lemma lstrip_head s c t : Str.lstrip s = String c t -> Str.isspace c = false.
Proof.
  induction s as [| x s IH]; cbn [Str.lstrip]; [discriminate |].
  destruct (Str.isspace x) eqn:E; [exact IH |].
  intros H. injection H as <- _. exact E.
Qed.

Lemma rstrip_head c t : Str.isspace c = false -> Str.rstrip (String c t) = String c (Str.rstrip t).
Proof.
  intros H. cbn [Str.rstrip]. rewrite H. destruct (Str.rstrip t); reflexivity.
Qed.

Lemma rstrip_rstrip t : Str.rstrip (Str.rstrip t) = Str.rstrip t.
Proof.
  induction t as [| c t IH]; [reflexivity |].
  cbn [Str.rstrip]. destruct (Str.rstrip t) as [| x r] eqn:E.
  - destruct (Str.isspace c) eqn:Ec; [reflexivity |].
    cbn [Str.rstrip]. rewrite Ec. reflexivity.
  - change (Str.rstrip (String c (String x r))) with
      (match Str.rstrip (String x r) with
       | EmptyString => if Str.isspace c then EmptyString else String c EmptyString
       | String a b => String c (String a b)
       end).
    rewrite IH. reflexivity.
Qed.

Lemma strip_strip s : Str.strip (Str.strip s) = Str.strip s.
Proof.
  unfold Str.strip. destruct (Str.lstrip s) as [| c t] eqn:E; [reflexivity |].
  pose proof (lstrip_head _ _ _ E) as Hc.
  rewrite (rstrip_head _ _ Hc). cbn [Str.lstrip]. rewrite Hc.
  rewrite <- (rstrip_head _ _ Hc). apply rstrip_rstrip.
Qed.

Lemma parsed_stripped text : Forall stripped (parse_bandwidth_data text).
Proof.
  apply (parse_keeps stripped (fun _ _ => True)).
  - intros v e (H0 & H1 & H2 & H3 & H4). unfold stripped, set_entrada.
    cbn [interface entrada saida total taxa_media stripped_value].
    repeat split; try assumption. apply strip_strip.
  - intros v e (H0 & H1 & H2 & H3 & H4). unfold stripped, set_saida.
    cbn [interface entrada saida total taxa_media stripped_value].
    repeat split; try assumption. apply strip_strip.
  - intros v e (H0 & H1 & H2 & H3 & H4). unfold stripped, set_total.
    cbn [interface entrada saida total taxa_media stripped_value].
    repeat split; try assumption. apply strip_strip.
  - intros v e (H0 & H1 & H2 & H3 & H4). unfold stripped, set_taxa_media.
    cbn [interface entrada saida total taxa_media stripped_value].
    repeat split; try assumption. apply strip_strip.
  - intros v d p _. unfold stripped.
    cbn [interface entrada saida total taxa_media stripped_value].
    repeat split. apply strip_strip.
  - intros; exact I.
  - intros; exact I.
Qed.

(** X13: the interface name and the values of every record the parser
    gives bear no white space at their ends: stripping them again changes
    nothing. *)
Theorem parsed_fields_stripped : forall text e,
  In e (parse_bandwidth_data text) -> stripped e.
Proof.
  intros text e H. pose proof (parsed_stripped text) as F.
  rewrite Forall_forall in F. apply F, H.
Qed.

Lemma parsed_fields_stripped_witness :
  In (scenario_entry "WAN") (parse_bandwidth_data (scenario "WAN")) /\
  stripped (scenario_entry "WAN").
Proof.
  assert (H : In (scenario_entry "WAN") (parse_bandwidth_data (scenario "WAN"))).
  { vm_compute. left. reflexivity. }
  split; [exact H |].
  exact (parsed_fields_stripped (scenario "WAN") (scenario_entry "WAN") H).
Defined.

(** ** The table [interfaces] and [init_db] *)

Lemma select_interface_id_none ifs name :
  select_interface_id ifs name = None <-> ~ In name (map nome ifs).
Proof.
  induction ifs as [| r ifs IH]; cbn [select_interface_id map In].
  - split; [intros _ [] | reflexivity].
  - destruct (String.eqb (nome r) name) eqn:E.
    + apply String.eqb_eq in E. split; [discriminate | intros H; exfalso; apply H; left; exact E].
    + apply String.eqb_neq in E. rewrite IH. tauto.
Qed.

Lemma select_interface_id_app ifs name i l :
  select_interface_id ifs name = Some i ->
  select_interface_id (ifs ++ l) name = Some i.
Proof.
  induction ifs as [| r ifs IH]; cbn [select_interface_id app]; [discriminate |].
  destruct (String.eqb (nome r) name); [trivial | exact IH].
Qed.

Lemma select_interface_id_new ifs name i :
  select_interface_id ifs name = None ->
  select_interface_id (ifs ++ [mk_interface_row i name]) name = Some i.
Proof.
  induction ifs as [| r ifs IH]; cbn [select_interface_id app nome if_id].
  - rewrite String.eqb_refl. reflexivity.
  - destruct (String.eqb (nome r) name); [discriminate | exact IH].
Qed.

(** a new row of another name does not change what a name selects *)
Lemma select_interface_id_other ifs name i n :
  n <> name ->
  select_interface_id (ifs ++ [mk_interface_row i name]) n = select_interface_id ifs n.
Proof.
  intros Hn. induction ifs as [| r ifs IH]; cbn [select_interface_id app nome if_id].
  - destruct (String.eqb_spec name n) as [E | _]; [congruence | reflexivity].
  - destruct (String.eqb (nome r) n); [reflexivity | exact IH].
Qed.

Lemma insert_registers db name : registered (insert_or_ignore_interface db name) name = true.
Proof.
  unfold registered, insert_or_ignore_interface.
  destruct (select_interface_id (interfaces db) name) as [i |] eqn:E; cbn [interfaces].
  - rewrite E. reflexivity.
  - rewrite (select_interface_id_new _ _ _ E). reflexivity.
Qed.

Lemma insert_keeps_id db name n i :
  select_interface_id (interfaces db) n = Some i ->
  select_interface_id (interfaces (insert_or_ignore_interface db name)) n = Some i.
Proof.
  intros H. unfold insert_or_ignore_interface.
  destruct (select_interface_id (interfaces db) name); cbn [interfaces]; [exact H |].
  apply select_interface_id_app, H.
Qed.

Lemma fold_insert_keeps_id names : forall db n i,
  select_interface_id (interfaces db) n = Some i ->
  select_interface_id (interfaces (fold_left insert_or_ignore_interface names db)) n = Some i.
Proof.
  induction names as [| name names IH]; intros db n i H; cbn [fold_left]; [exact H |].
  apply IH, insert_keeps_id, H.
Qed.

Lemma fold_insert_registers names : forall db name,
  In name names ->
  registered (fold_left insert_or_ignore_interface names db) name = true.
Proof.
  induction names as [| x names IH]; intros db name H; [destruct H |].
  cbn [fold_left]. destruct H as [-> | H]; [| apply IH, H].
  pose proof (insert_registers db name) as R. unfold registered in *.
  destruct (select_interface_id (interfaces (insert_or_ignore_interface db name)) name)
    as [i |] eqn:E; [| discriminate].
  rewrite (fold_insert_keeps_id names _ _ _ E). reflexivity.
Qed.

(** X15: after [init_db], each of the five default interfaces is in the
    table [interfaces], whatever the database held before. *)
Theorem init_db_registers_defaults : forall db name,
  In name default_interfaces -> registered (init_db db) name = true.
Proof. intros db name H. apply fold_insert_registers, H. Qed.

Lemma init_db_registers_defaults_witness :
  In "DI"%string default_interfaces /\
  registered (init_db (mk_database [mk_interface_row 7 "LAB"] 9 [] 0)) "DI" = true.
Proof.
  assert (H : In "DI"%string default_interfaces) by (vm_compute; tauto).
  split; [exact H |].
  exact (init_db_registers_defaults (mk_database [mk_interface_row 7 "LAB"] 9 [] 0) "DI" H).
Defined.

(** *** The rows [init_db] adds *)

Lemma insert_tables db name :
  consumo_banda (insert_or_ignore_interface db name) = consumo_banda db /\
  consumo_banda_seq (insert_or_ignore_interface db name) = consumo_banda_seq db.
Proof.
  unfold insert_or_ignore_interface.
  destruct (select_interface_id (interfaces db) name); split; reflexivity.
Qed.

Lemma insert_counter db name :
  interfaces_seq (insert_or_ignore_interface db name)
  = next_id (interfaces_seq db) (map if_id (interfaces db)).
Proof.
  unfold insert_or_ignore_interface.
  destruct (select_interface_id (interfaces db) name); reflexivity.
Qed.

Lemma fresh_row_later db db' r :
  interfaces_seq db <= interfaces_seq db' ->
  (forall i, In i (map if_id (interfaces db)) -> In i (map if_id (interfaces db'))) ->
  fresh_row db' r -> fresh_row db r.
Proof.
  unfold fresh_row. intros Hs Hi [H1 H2]. split; [lia |].
  rewrite Forall_forall in *. intros i Hin. apply H2, Hi, Hin.
Qed.

Lemma fold_insert_new names : forall db,
  NoDup names ->
  exists new,
    interfaces (fold_left insert_or_ignore_interface names db) = (interfaces db ++ new)%list /\
    map nome new = filter (fun n => negb (registered db n)) names /\
    Forall (fresh_row db) new.
Proof.
  induction names as [| name names IH]; intros db Hnd; cbn [fold_left filter].
  - exists []. rewrite app_nil_r. repeat split. constructor.
  - inversion Hnd as [| ? ? Hname Hnames]; subst.
    destruct (IH (insert_or_ignore_interface db name) Hnames) as [new [H1 [H2 H3]]].
    pose proof (next_id_above (interfaces_seq db) (map if_id (interfaces db))) as [Ha Hb].
    pose proof (insert_counter db name) as Hc.
    unfold registered at 1.
    unfold insert_or_ignore_interface in H1, H2, H3 |- *.
    destruct (select_interface_id (interfaces db) name) as [j |] eqn:E; cbn [is_some negb].
    + cbn [interfaces] in H1. exists new. split; [exact H1 |]. split.
      * rewrite H2. reflexivity.
      * eapply Forall_impl; [| exact H3]. intros r. apply fresh_row_later.
        -- cbn [interfaces_seq]. lia.
        -- cbn [interfaces]. auto.
    + cbn [interfaces] in H1. rewrite <- app_assoc in H1. cbn [app] in H1.
      eexists. split; [exact H1 |]. cbn [map nome]. split.
      * f_equal. rewrite H2. apply filter_ext_in. intros n Hn.
        unfold registered. cbn [interfaces].
        rewrite select_interface_id_other; [reflexivity |]. intros ->. contradiction.
      * constructor.
        -- split; cbn [if_id]; assumption.
        -- eapply Forall_impl; [| exact H3]. intros r. apply fresh_row_later.
           ++ cbn [interfaces_seq]. lia.
           ++ cbn [interfaces]. intros i Hi. rewrite map_app. apply in_or_app. left. exact Hi.
Qed.

Lemma fold_insert_tables names : forall db,
  consumo_banda (fold_left insert_or_ignore_interface names db) = consumo_banda db /\
  consumo_banda_seq (fold_left insert_or_ignore_interface names db) = consumo_banda_seq db.
Proof.
  induction names as [| name names IH]; intros db; cbn [fold_left]; [split; reflexivity |].
  destruct (IH (insert_or_ignore_interface db name)) as [H1 H2].
  destruct (insert_tables db name) as [G1 G2]. rewrite H1, H2, G1, G2. split; reflexivity.
Qed.

Lemma default_interfaces_differ : NoDup default_interfaces.
Proof.
  unfold default_interfaces.
  repeat (constructor;
          [cbn [In]; intros H;
           repeat (destruct H as [H | H]; [discriminate H |]); exact H |]).
  constructor.
Qed.

(** X16: [init_db] on a database that holds data loses none of it: the
    table [consumo_banda] and its counter are as before; the rows of
    [interfaces] are as before, followed by one new row for each default
    name that was missing, in the order of the default names and with ids
    above the counter and above the ids of the table; and every name that
    was registered keeps its id. *)
Theorem init_db_keeps_data : forall db,
  consumo_banda (init_db db) = consumo_banda db /\
  consumo_banda_seq (init_db db) = consumo_banda_seq db /\
  (exists new,
     interfaces (init_db db) = (interfaces db ++ new)%list /\
     map nome new = missing_defaults db /\
     Forall (fresh_row db) new) /\
  (forall name i, select_interface_id (interfaces db) name = Some i ->
                  select_interface_id (interfaces (init_db db)) name = Some i).
Proof.
  intros db. unfold init_db, missing_defaults.
  destruct (fold_insert_tables default_interfaces db) as [H1 H2].
  split; [exact H1 |]. split; [exact H2 |]. split.
  - apply fold_insert_new, default_interfaces_differ.
  - intros name i. apply fold_insert_keeps_id.
Qed.

(** *** [init_db] again *)

Lemma fold_max_bounded ids : forall seq,
  Forall (fun i => i <= seq) ids -> fold_left Z.max ids seq = seq.
Proof.
  induction ids as [| i ids IH]; intros seq H; cbn [fold_left]; [reflexivity |].
  inversion H as [| ? ? Hi Hids]; subst.
  replace (Z.max seq i) with seq by lia. apply IH, Hids.
Qed.

(** after a statement the counter is not below any row id *)
Lemma insert_bounded db name :
  Forall (fun i => i <= interfaces_seq (insert_or_ignore_interface db name))
         (map if_id (interfaces (insert_or_ignore_interface db name))).
Proof.
  pose proof (next_id_above (interfaces_seq db) (map if_id (interfaces db))) as [Ha Hb].
  unfold insert_or_ignore_interface.
  destruct (select_interface_id (interfaces db) name); cbn [interfaces interfaces_seq].
  - eapply Forall_impl; [| exact Hb]. cbv beta. intros. lia.
  - rewrite map_app. apply Forall_app. split.
    + eapply Forall_impl; [| exact Hb]. cbv beta. intros. lia.
    + constructor; [cbn [if_id]; lia | constructor].
Qed.

Lemma insert_registered db name :
  registered db name = true ->
  Forall (fun i => i <= interfaces_seq db) (map if_id (interfaces db)) ->
  insert_or_ignore_interface db name
  = mk_database (interfaces db) (interfaces_seq db + 1)
                (consumo_banda db) (consumo_banda_seq db).
Proof.
  unfold registered, insert_or_ignore_interface, next_id. intros H Hb.
  destruct (select_interface_id (interfaces db) name); [| discriminate].
  rewrite (fold_max_bounded _ _ Hb). reflexivity.
Qed.

Lemma fold_insert_registered names : forall db,
  (forall name, In name names -> registered db name = true) ->
  Forall (fun i => i <= interfaces_seq db) (map if_id (interfaces db)) ->
  fold_left insert_or_ignore_interface names db
  = mk_database (interfaces db) (interfaces_seq db + Z.of_nat (List.length names))
                (consumo_banda db) (consumo_banda_seq db).
Proof.
  induction names as [| name names IH]; intros db H Hb; cbn [fold_left List.length].
  - rewrite Z.add_0_r. destruct db. reflexivity.
  - rewrite (insert_registered db name (H name (or_introl eq_refl)) Hb).
    rewrite IH; cbn [interfaces interfaces_seq consumo_banda consumo_banda_seq].
    + f_equal. lia.
    + intros n Hn. unfold registered. cbn [interfaces]. apply (H n). right. exact Hn.
    + eapply Forall_impl; [| exact Hb]. cbv beta. intros. lia.
Qed.

Lemma init_db_bounded db :
  Forall (fun i => i <= interfaces_seq (init_db db)) (map if_id (interfaces (init_db db))).
Proof.
  unfold init_db, default_interfaces. cbn [fold_left]. apply insert_bounded.
Qed.

(** X17: a second run of [init_db], as at every start of the program,
    adds and changes no row: the two tables are as the first run left
    them, and only the counter of [AUTOINCREMENT] of [interfaces] moves
    on, by one for each of the five inserts that are ignored. *)
Theorem init_db_again_keeps_rows : forall db,
  interfaces (init_db (init_db db)) = interfaces (init_db db) /\
  consumo_banda (init_db (init_db db)) = consumo_banda (init_db db) /\
  consumo_banda_seq (init_db (init_db db)) = consumo_banda_seq (init_db db) /\
  interfaces_seq (init_db (init_db db)) = interfaces_seq (init_db db) + 5.
Proof.
  intros db.
  assert (E : init_db (init_db db)
              = mk_database (interfaces (init_db db)) (interfaces_seq (init_db db) + 5)
                            (consumo_banda (init_db db)) (consumo_banda_seq (init_db db))).
  { unfold init_db at 1.
    apply (fold_insert_registered default_interfaces (init_db db)).
    - intros name H. apply fold_insert_registers, H.
    - apply init_db_bounded. }
  rewrite E. cbn [interfaces interfaces_seq consumo_banda consumo_banda_seq].
  split; [reflexivity | split; [reflexivity | split; reflexivity]].
Qed.

Lemma NoDup_snoc {A : Type} (l : list A) x : NoDup l -> ~ In x l -> NoDup (l ++ [x]).
Proof.
  induction l as [| y l IH]; cbn [app]; intros Hl Hx.
  - constructor; [intros [] | constructor].
  - inversion Hl as [| ? ? Hy Hl']; subst. constructor.
    + intros Hin. apply in_app_or in Hin. destruct Hin as [Hin | [Hin | []]].
      * apply Hy, Hin.
      * apply Hx. left. symmetry. exact Hin.
    + apply IH; [exact Hl' |]. intros Hin. apply Hx. right. exact Hin.
Qed.

Lemma insert_sound db name :
  interfaces_sound db -> interfaces_sound (insert_or_ignore_interface db name).
Proof.
  intros (Hn & Hs & Hb).
  pose proof (insert_bounded db name) as Hb'.
  pose proof (next_id_above (interfaces_seq db) (map if_id (interfaces db))) as [Ha Hc].
  unfold interfaces_sound. split; [| split; [| exact Hb']].
  - unfold insert_or_ignore_interface.
    destruct (select_interface_id (interfaces db) name) eqn:E; cbn [interfaces];
      [exact Hn |].
    rewrite map_app. cbn [map nome].
    apply NoDup_snoc; [exact Hn |]. apply select_interface_id_none, E.
  - unfold insert_or_ignore_interface.
    destruct (select_interface_id (interfaces db) name) eqn:E; cbn [interfaces];
      [exact Hs |].
    rewrite map_app. cbn [map if_id]. apply sorted_snoc; assumption.
Qed.

(** X18: [init_db] keeps the table [interfaces] sound: the names stay
    different from each other (the constraint [UNIQUE] of [nome]), and the
    row ids stay increasing along the table and at most the counter of
    [AUTOINCREMENT], which the ignored inserts move on as well. *)
Theorem init_db_keeps_interfaces_sound : forall db,
  interfaces_sound db -> interfaces_sound (init_db db).
Proof.
  intros db. unfold init_db. generalize default_interfaces. intros names. revert db.
  induction names as [| name names IH]; intros db H; cbn [fold_left]; [exact H |].
  apply IH, insert_sound, H.
Qed.

Lemma init_db_keeps_interfaces_sound_witness :
  interfaces_sound (init_db (mk_database [mk_interface_row 7 "DI"] 9 [] 0)).
Proof.
  apply (init_db_keeps_interfaces_sound (mk_database [mk_interface_row 7 "DI"] 9 [] 0)).
  unfold interfaces_sound. cbn [interfaces interfaces_seq map nome if_id].
  repeat split.
  - constructor; [intros [] | constructor].
  - constructor; [constructor | constructor].
  - constructor; [lia | constructor].
Defined.

(** ** Queries of the consumption of an interface *)

(** *** The order of texts *)

Lemma text_compare_refl s : text_compare s s = Eq.
Proof.
  induction s as [| c s IH]; cbn [text_compare]; [reflexivity |].
  rewrite Z.compare_refl. exact IH.
Qed.

Lemma text_compare_eq s : forall t, text_compare s t = Eq -> s = t.
Proof.
  induction s as [| c s IH]; intros [| d t]; cbn [text_compare]; try discriminate.
  - reflexivity.
  - destruct (Z.compare_spec (Str.code c) (Str.code d)) as [E | E | E]; try discriminate.
    intros H. rewrite (code_inj _ _ E), (IH _ H). reflexivity.
Qed.

Lemma text_compare_antisym s : forall t,
  text_compare t s = CompOpp (text_compare s t).
Proof.
  induction s as [| c s IH]; intros [| d t]; cbn [text_compare]; try reflexivity.
  rewrite (Z.compare_antisym (Str.code c) (Str.code d)).
  destruct (Str.code c ?= Str.code d); cbn [CompOpp]; [apply IH | reflexivity | reflexivity].
Qed.

Lemma text_compare_trans s : forall t u,
  text_compare s t = Gt -> text_compare t u = Gt -> text_compare s u = Gt.
Proof.
  induction s as [| c s IH]; intros [| d t] [| e u]; cbn [text_compare];
    try discriminate; try reflexivity.
  destruct (Z.compare_spec (Str.code c) (Str.code d)) as [E1 | E1 | E1]; try discriminate;
    destruct (Z.compare_spec (Str.code d) (Str.code e)) as [E2 | E2 | E2]; try discriminate;
    intros H1 H2.
  - rewrite E1, E2, Z.compare_refl. apply (IH _ _ H1 H2).
  - replace (Str.code c ?= Str.code e) with Gt by (symmetry; apply Z.compare_gt_iff; lia).
    reflexivity.
  - replace (Str.code c ?= Str.code e) with Gt by (symmetry; apply Z.compare_gt_iff; lia).
    reflexivity.
  - replace (Str.code c ?= Str.code e) with Gt by (symmetry; apply Z.compare_gt_iff; lia).
    reflexivity.
Qed.

Lemma newer_trans a b c : newer a b -> newer b c -> newer a c.
Proof. unfold newer. apply text_compare_trans. Qed.

(** *** [ORDER BY] and [LIMIT] *)

Lemma insert_In r l : forall x, In x (insert_by_date_desc r l) <-> x = r \/ In x l.
Proof.
  induction l as [| y l IH]; intros x; cbn [insert_by_date_desc In].
  - intuition congruence.
  - destruct (text_compare (cb_data_referencia r) (cb_data_referencia y));
      cbn [In]; rewrite ?IH; intuition congruence.
Qed.

Lemma order_In l : forall x, In x (order_by_date_desc l) <-> In x l.
Proof.
  unfold order_by_date_desc.
  induction l as [| r l IH]; intros x; cbn [fold_right In]; [tauto |].
  rewrite insert_In, IH. intuition congruence.
Qed.

Lemma insert_length r l :
  List.length (insert_by_date_desc r l) = S (List.length l).
Proof.
  induction l as [| y l IH]; cbn [insert_by_date_desc List.length]; [reflexivity |].
  destruct (text_compare (cb_data_referencia r) (cb_data_referencia y));
    cbn [List.length]; rewrite ?IH; reflexivity.
Qed.

Lemma order_length l : List.length (order_by_date_desc l) = List.length l.
Proof.
  unfold order_by_date_desc.
  induction l as [| r l IH]; cbn [fold_right List.length]; [reflexivity |].
  rewrite insert_length, IH. reflexivity.
Qed.

Lemma insert_sorted r l :
  StronglySorted newer l ->
  (forall x, In x l -> cb_data_referencia x <> cb_data_referencia r) ->
  StronglySorted newer (insert_by_date_desc r l).
Proof.
  induction l as [| y l IH]; intros Hs Hd; cbn [insert_by_date_desc].
  - constructor; constructor.
  - inversion Hs as [| ? ? Hs' Hy]; subst.
    destruct (text_compare (cb_data_referencia r) (cb_data_referencia y)) eqn:E.
    + exfalso. apply (Hd y (or_introl eq_refl)). symmetry. apply text_compare_eq, E.
    + constructor.
      * apply IH; [exact Hs' |]. intros x Hx. apply Hd. right. exact Hx.
      * apply Forall_forall. intros x Hx. apply insert_In in Hx. destruct Hx as [-> | Hx].
        -- unfold newer. rewrite text_compare_antisym, E. reflexivity.
        -- rewrite Forall_forall in Hy. apply Hy, Hx.
    + constructor; [exact Hs |]. apply Forall_forall. intros x [<- | Hx]; [exact E |].
      rewrite Forall_forall in Hy. apply (newer_trans r y x E (Hy x Hx)).
Qed.

Lemma order_sorted l :
  NoDup (map cb_data_referencia l) -> StronglySorted newer (order_by_date_desc l).
Proof.
  unfold order_by_date_desc.
  induction l as [| r l IH]; cbn [fold_right map]; intros H; [constructor |].
  inversion H as [| ? ? Hr Hl]; subst.
  apply insert_sorted; [apply IH, Hl |].
  intros x Hx E. apply Hr. rewrite <- E. apply in_map.
  apply (order_In l x), Hx.
Qed.

Lemma take_prefix {A : Type} (l : list A) : forall n,
  exists rest, l = (take n l ++ rest)%list.
Proof.
  induction l as [| x l IH]; intros n; cbn [take].
  - exists []. reflexivity.
  - destruct (n <=? 0).
    + exists (x :: l). reflexivity.
    + destruct (IH (n - 1)) as [rest H]. exists rest. cbn [app]. rewrite <- H. reflexivity.
Qed.

Lemma sql_limit_prefix {A : Type} n (l : list A) :
  exists rest, l = (sql_limit n l ++ rest)%list.
Proof.
  unfold sql_limit. destruct (n <? 0); [| apply take_prefix].
  exists []. rewrite app_nil_r. reflexivity.
Qed.

Lemma take_length {A : Type} (l : list A) : forall n,
  0 <= n -> Z.of_nat (List.length (take n l)) = Z.min n (Z.of_nat (List.length l)).
Proof.
  induction l as [| x l IH]; intros n Hn; cbn [take List.length].
  - lia.
  - destruct (Z.leb_spec n 0).
    + cbn [List.length]. lia.
    + cbn [List.length]. rewrite !Nat2Z.inj_succ, IH by lia. lia.
Qed.

Lemma sorted_app_inv {A : Type} (R : A -> A -> Prop) (l1 l2 : list A) :
  StronglySorted R (l1 ++ l2) ->
  StronglySorted R l1 /\ (forall x y, In x l1 -> In y l2 -> R x y).
Proof.
  induction l1 as [| a l1 IH]; cbn [app]; intros H.
  - split; [constructor | intros x y []].
  - inversion H as [| ? ? Hs Ha]; subst. destruct (IH Hs) as [H1 H2].
    rewrite Forall_forall in Ha. split.
    + constructor; [exact H1 |]. apply Forall_forall. intros x Hx.
      apply Ha, in_or_app. left. exact Hx.
    + intros x y [<- | Hx] Hy; [apply Ha, in_or_app; right; exact Hy | apply H2; assumption].
Qed.

(** *** The rows of one interface and period *)

Lemma period_str_inj p q : period_str p = period_str q -> p = q.
Proof. destruct p, q; cbn [period_str]; intros H; try reflexivity; discriminate. Qed.

Lemma selected_spec i periodo r :
  selected i periodo r = true <->
  interface_id r = i /\ period_str (cb_periodo r) = periodo.
Proof.
  unfold selected. rewrite andb_true_iff, Z.eqb_eq, String.eqb_eq. reflexivity.
Qed.

Lemma unique_keys_filter (keep : consumo_row -> bool) (rows : list consumo_row) :
  NoDup (map row_key rows) -> NoDup (map row_key (filter keep rows)).
Proof.
  set (f := row_key). set (p := keep).
  induction rows as [| x l IH]; cbn [map filter]; intros H; [constructor |].
  inversion H as [| ? ? Hx Hl]; subst.
  destruct (p x); [| apply IH, Hl]. cbn [map]. constructor; [| apply IH, Hl].
  intros Hin. apply Hx. apply in_map_iff in Hin. destruct Hin as [y [Hy Hin]].
  apply filter_In in Hin. rewrite <- Hy. apply in_map. tauto.
Qed.

Lemma NoDup_map_finer {A B C : Type} (f : A -> B) (g : A -> C) (l : list A) :
  (forall x y, In x l -> In y l -> g x = g y -> f x = f y) ->
  NoDup (map f l) -> NoDup (map g l).
Proof.
  induction l as [| x l IH]; cbn [map]; intros Hfg H; [constructor |].
  inversion H as [| ? ? Hx Hl]; subst. constructor.
  - intros Hin. apply Hx. apply in_map_iff in Hin. destruct Hin as [y [Hy Hin]].
    rewrite <- (Hfg y x (or_intror Hin) (or_introl eq_refl) Hy). apply in_map, Hin.
  - apply IH; [| exact Hl]. intros a b Ha Hb. apply Hfg; right; assumption.
Qed.

Lemma selected_dates_differ db i periodo :
  unique_keys db ->
  NoDup (map cb_data_referencia (filter (selected i periodo) (consumo_banda db))).
Proof.
  intros H. apply (NoDup_map_finer row_key).
  - intros x y Hx Hy E. apply filter_In in Hx, Hy.
    destruct Hx as [_ Hx], Hy as [_ Hy].
    apply selected_spec in Hx, Hy. destruct Hx as [X1 X2], Hy as [Y1 Y2].
    unfold row_key, content. cbn [fst].
    rewrite X1, Y1, E, (period_str_inj _ _ (eq_trans X2 (eq_sym Y2))). reflexivity.
  - apply unique_keys_filter, H.
Qed.

Lemma select_consumo_rows db i periodo limite rows :
  select_consumo db i periodo limite = Ok rows ->
  rows = sql_limit limite
           (order_by_date_desc (filter (selected i periodo) (consumo_banda db))).
Proof.
  unfold select_consumo, sqlite_integer.
  destruct (_ && _); cbn [bind]; [| discriminate].
  intros H. injection H as <-. reflexivity.
Qed.

(** X19: the rows a query of the consumption gives are rows of the table
    [consumo_banda], of the interface and of the period asked for; with a
    negative limit they are all of these rows. *)
Theorem consumo_rows_selected : forall db i periodo limite rows,
  select_consumo db i periodo limite = Ok rows ->
  (forall r, In r rows ->
     In r (consumo_banda db) /\ interface_id r = i /\
     period_str (cb_periodo r) = periodo) /\
  (limite < 0 ->
   forall r, In r (consumo_banda db) -> interface_id r = i ->
             period_str (cb_periodo r) = periodo -> In r rows).
Proof.
  intros db i periodo limite rows H. apply select_consumo_rows in H.
  set (l := order_by_date_desc (filter (selected i periodo) (consumo_banda db))) in H.
  assert (Hl : forall r, In r l <->
                 In r (consumo_banda db) /\ interface_id r = i /\
                 period_str (cb_periodo r) = periodo).
  { intros r. unfold l. rewrite order_In, filter_In, selected_spec. reflexivity. }
  split.
  - intros r Hr. apply Hl. destruct (sql_limit_prefix limite l) as [rest E].
    rewrite E, <- H. apply in_or_app. left. exact Hr.
  - intros Hneg r H1 H2 H3. rewrite H. unfold sql_limit.
    destruct (Z.ltb_spec limite 0); [| lia]. apply Hl. tauto.
Qed.

Lemma consumo_rows_selected_witness :
  let db := snd (upload_data (init_db empty_db) two_sections) in
  exists rows,
    select_consumo db 1 "diario" 30 = Ok rows /\
    (forall r, In r rows ->
       In r (consumo_banda db) /\ interface_id r = 1 /\
       period_str (cb_periodo r) = "diario"%string).
Proof.
  cbv zeta. eexists. split; [vm_compute; reflexivity |].
  apply (consumo_rows_selected (snd (upload_data (init_db empty_db) two_sections))
           1 "diario" 30).
  vm_compute. reflexivity.
Defined.

(** X20: under the constraint [UNIQUE] of the table, the rows of a query
    come with strictly decreasing dates (in the order of texts): the newest
    first and no date twice. *)
Theorem consumo_newest_first : forall db i periodo limite rows,
  unique_keys db ->
  select_consumo db i periodo limite = Ok rows ->
  StronglySorted newer rows.
Proof.
  intros db i periodo limite rows Hu H. apply select_consumo_rows in H.
  pose proof (order_sorted _ (selected_dates_differ db i periodo Hu)) as Hs.
  destruct (sql_limit_prefix limite
              (order_by_date_desc (filter (selected i periodo) (consumo_banda db))))
    as [rest E].
  rewrite E, <- H in Hs. apply sorted_app_inv in Hs. apply Hs.
Qed.

(** X21: the limit of a query cuts the oldest rows: under the constraint
    [UNIQUE] of the table, every row of the interface and period that the
    answer leaves out is older than every row of the answer. *)
Theorem consumo_limit_keeps_newest : forall db i periodo limite rows r x,
  unique_keys db ->
  select_consumo db i periodo limite = Ok rows ->
  In r (consumo_banda db) -> selected i periodo r = true -> ~ In r rows ->
  In x rows -> newer x r.
Proof.
  intros db i periodo limite rows r x Hu H Hr Hsel Hout Hx.
  apply select_consumo_rows in H.
  pose proof (order_sorted _ (selected_dates_differ db i periodo Hu)) as Hs.
  destruct (sql_limit_prefix limite
              (order_by_date_desc (filter (selected i periodo) (consumo_banda db))))
    as [rest E].
  assert (Hin : In r (order_by_date_desc (filter (selected i periodo) (consumo_banda db)))).
  { apply order_In, filter_In. split; assumption. }
  rewrite E, <- H in Hs, Hin. apply sorted_app_inv in Hs. destruct Hs as [_ Hs].
  apply in_app_or in Hin. destruct Hin as [Hin | Hin]; [contradiction |].
  apply Hs; assumption.
Qed.

(** X22: a query with a limit that is not negative gives as many rows as
    the limit, or all the rows of the interface and period when they are
    fewer. *)
Theorem consumo_limit_count : forall db i periodo limite rows,
  select_consumo db i periodo limite = Ok rows ->
  0 <= limite ->
  Z.of_nat (List.length rows)
  = Z.min limite (Z.of_nat (List.length (filter (selected i periodo) (consumo_banda db)))).
Proof.
  intros db i periodo limite rows H Hl. apply select_consumo_rows in H.
  rewrite H. unfold sql_limit. destruct (Z.ltb_spec limite 0); [lia |].
  rewrite take_length, order_length by lia. reflexivity.
Qed.

Lemma three_days_rows : consumo_banda three_days_db = [row_of_14; row_of_15; row_of_13].
Proof. vm_compute. reflexivity. Qed.

Lemma three_days_unique : unique_keys three_days_db.
Proof.
  unfold unique_keys. rewrite three_days_rows. cbn [map row_key content fst].
  repeat (constructor;
          [cbn [In]; intros H;
           repeat (destruct H as [H | H]; [discriminate H |]); exact H |]).
  constructor.
Qed.

Lemma three_days_newest : select_consumo three_days_db 1 "diario" 2 = Ok [row_of_15; row_of_14].
Proof. vm_compute. reflexivity. Qed.

Lemma consumo_newest_first_witness : StronglySorted newer [row_of_15; row_of_14].
Proof.
  exact (consumo_newest_first three_days_db 1 "diario" 2 [row_of_15; row_of_14]
           three_days_unique three_days_newest).
Defined.

Lemma consumo_limit_keeps_newest_witness : newer row_of_14 row_of_13.
Proof.
  apply (consumo_limit_keeps_newest three_days_db 1 "diario" 2 [row_of_15; row_of_14]
           row_of_13 row_of_14 three_days_unique three_days_newest).
  - rewrite three_days_rows. right. right. left. reflexivity.
  - reflexivity.
  - intros [H | [H | []]]; discriminate H.
  - right. left. reflexivity.
Defined.

Lemma consumo_limit_count_witness :
  Z.of_nat (List.length [row_of_15; row_of_14])
  = Z.min 2 (Z.of_nat (List.length (filter (selected 1 "diario") (consumo_banda three_days_db)))).
Proof.
  apply (consumo_limit_count three_days_db 1 "diario" 2 [row_of_15; row_of_14]
           three_days_newest).
  lia.
Defined.

(** *** Answers *)

Lemma int64_bounds n : int64 n = true -> - 2 ^ 63 <= n < 2 ^ 63.
Proof. unfold int64. rewrite andb_true_iff, Z.leb_le, Z.ltb_lt. tauto. Qed.

Lemma int_truediv_ok a b :
  0 < b -> int64 a = true -> exists x, int_truediv a b = Ok x.
Proof.
  intros Hb Ha. apply int64_bounds in Ha. unfold int_truediv.
  destruct (Z.eqb_spec a 0) as [| Hn]; [eexists; reflexivity |].
  assert (Hd : Zdigits2 (Z.abs a) <= 1023).
  { transitivity 64; [| lia]. apply Zdigits2_le; lia. }
  pose proof (div_core_finite (a <? 0) (Z.abs a) b) as H.
  destruct (SFdiv_core_binary Float.prec Float.emax (Z.abs a) 0 b 0) as [[q e] l].
  destruct (H l ltac:(lia) Hb Hd) as [Hf _].
  destruct (binary_round_aux Float.prec Float.emax (a <? 0) q e l);
    cbn [finite_below] in Hf; try (eexists; reflexivity); destruct Hf.
Qed.

Lemma consumo_item_ok row :
  numbers_int64 (content row) = true -> exists item, consumo_item row = Ok item.
Proof.
  unfold numbers_int64, content. rewrite !andb_true_iff. intros [[[H1 H2] H3] H4].
  unfold consumo_item.
  destruct (int_truediv_ok (entrada_bytes row) (1024 ^ 3) ltac:(lia) H1) as [g1 ->].
  destruct (int_truediv_ok (saida_bytes row) (1024 ^ 3) ltac:(lia) H2) as [g2 ->].
  destruct (int_truediv_ok (total_bytes row) (1024 ^ 3) ltac:(lia) H3) as [g3 ->].
  destruct (int_truediv_ok (taxa_media_bps row) (1000 ^ 2) ltac:(lia) H4) as [g4 ->].
  cbn [bind]. eexists. reflexivity.
Qed.

Lemma consumo_items_ok rows :
  Forall (fun r => numbers_int64 (content r) = true) rows ->
  exists items,
    consumo_items rows = Ok items /\
    forall r, In r rows -> exists item, consumo_item r = Ok item /\ In item items.
Proof.
  induction rows as [| r rows IH]; intros H.
  - exists []. split; [reflexivity | intros r []].
  - inversion H as [| ? ? Hr Hrows]; subst.
    destruct (consumo_item_ok r Hr) as [item Hi].
    destruct (IH Hrows) as [items [H1 H2]].
    exists (item :: items). cbn [consumo_items]. rewrite Hi, H1. cbn [bind].
    split; [reflexivity |].
    intros x [<- | Hx].
    + exists item. split; [exact Hi | left; reflexivity].
    + destruct (H2 x Hx) as [it [Ha Hb]]. exists it. split; [exact Ha | right; exact Hb].
Qed.

Lemma select_consumo_ok db i periodo limite :
  int64 limite = true ->
  select_consumo db i periodo limite
  = Ok (sql_limit limite
          (order_by_date_desc (filter (selected i periodo) (consumo_banda db)))).
Proof.
  intros H. unfold select_consumo, sqlite_integer. unfold int64 in H. rewrite H.
  reflexivity.
Qed.

Lemma sql_limit_In {A : Type} n (l : list A) x : In x (sql_limit n l) -> In x l.
Proof.
  intros H. destruct (sql_limit_prefix n l) as [rest E]. rewrite E.
  apply in_or_app. left. exact H.
Qed.

(** X23: on a table whose numbers are 64-bit integers, as every upload
    leaves it, a query of the consumption with a 64-bit limit raises no
    exception: it answers 404 when the interface is not registered, and
    200 when it is. *)
Theorem consumo_always_answered : forall db name periodo limite,
  int64 limite = true ->
  Forall (fun r => numbers_int64 (content r) = true) (consumo_banda db) ->
  exists j,
    get_consumo_interface db name periodo limite
    = Ok (j, if registered db name then 200 else 404).
Proof.
  intros db name periodo limite Hl Hdb. unfold get_consumo_interface, registered.
  destruct (select_interface_id (interfaces db) name) as [i |]; cbn [is_some];
    [| eexists; reflexivity].
  rewrite (select_consumo_ok db i periodo limite Hl). cbn [bind].
  destruct (consumo_items_ok
              (sql_limit limite
                 (order_by_date_desc (filter (selected i periodo) (consumo_banda db)))))
    as [items [-> _]].
  - rewrite Forall_forall in *. intros r Hr. apply Hdb.
    apply sql_limit_In, order_In, filter_In in Hr. tauto.
  - cbn [bind]. eexists. reflexivity.
Qed.

Lemma consumo_always_answered_witness :
  exists j,
    get_consumo_interface three_days_db "WAN" "diario" 30
    = Ok (j, if registered three_days_db "WAN" then 200 else 404).
Proof.
  apply (consumo_always_answered three_days_db "WAN" "diario" 30); [reflexivity |].
  rewrite three_days_rows. repeat constructor.
Defined.

(** *** From an upload to a query *)

Lemma upload_interfaces db text : interfaces (snd (upload_data db text)) = interfaces db.
Proof.
  destruct (upload_data_db db text) as [-> | ->]; [| reflexivity].
  apply fold_put_interfaces.
Qed.

(** X24: what an upload stores can be read back: when a report holds a
    record of a registered interface for a date and a period, its last
    such record is, after the upload, among the items that a query without
    limit gives for this interface and period, with the date and the four
    numbers of the record. *)
Theorem uploaded_record_is_served : forall db text name i d p a b c t limite,
  select_interface_id (interfaces db) name = Some i ->
  last_with_key (i, d, p) (accepted db text) = Some (a, b, c, t) ->
  Forall (fun r => numbers_int64 (content r) = true) (consumo_banda db) ->
  int64 limite = true -> limite < 0 ->
  exists id item items,
    get_consumo_interface (snd (upload_data db text)) name (period_str p) limite
    = Ok (consumo_response name (period_str p) items) /\
    consumo_item (mk_consumo_row id i d p a b c t) = Ok item /\
    In item items.
Proof.
  intros db text name i d p a b c t limite Hi Hlast Hdb Hl Hneg.
  set (db' := snd (upload_data db text)).
  assert (Hin : In ((i, d, p), (a, b, c, t)) (stored db')).
  { unfold db'. rewrite upload_stored. apply fold_upsert_In. left. exact Hlast. }
  unfold stored in Hin. apply in_map_iff in Hin. destruct Hin as [row [Hc Hrow]].
  destruct row as [id i0 d0 p0 a0 b0 c0 t0]. unfold content in Hc.
  cbn [interface_id cb_data_referencia cb_periodo entrada_bytes saida_bytes total_bytes
       taxa_media_bps] in Hc.
  injection Hc as E1 E2 E3 E4 E5 E6 E7. subst i0 d0 p0 a0 b0 c0 t0.
  assert (Hdb' : Forall (fun r => numbers_int64 (content r) = true) (consumo_banda db')).
  { unfold db'. apply (upload_forall (fun r => numbers_int64 r = true)); [| exact Hdb].
    intros e r _ H. apply accepted_record_parts in H.
    destruct H as [i0 [a0 [b0 [c0 [d0 [_ [_ [_ H]]]]]]]]. exact H. }
  unfold get_consumo_interface. fold db'.
  replace (interfaces db') with (interfaces db) by (symmetry; apply upload_interfaces).
  rewrite Hi, (select_consumo_ok db' i (period_str p) limite Hl). cbn [bind].
  unfold sql_limit. destruct (Z.ltb_spec limite 0); [| lia].
  destruct (consumo_items_ok
              (order_by_date_desc (filter (selected i (period_str p)) (consumo_banda db'))))
    as [items [Hitems Hserved]].
  { rewrite Forall_forall in *. intros r Hr. apply Hdb'.
    apply order_In, filter_In in Hr. tauto. }
  rewrite Hitems. cbn [bind].
  destruct (Hserved (mk_consumo_row id i d p a b c t)) as [item [H1 H2]].
  { apply order_In, filter_In. split; [exact Hrow |].
    apply selected_spec. split; reflexivity. }
  exists id, item, items. split; [reflexivity |]. split; [exact H1 | exact H2].
Qed.

Lemma uploaded_record_is_served_witness :
  exists id item items,
    get_consumo_interface (snd (upload_data (init_db empty_db) three_days)) "WAN"
      (period_str diario) (- 1)
    = Ok (consumo_response "WAN" (period_str diario) items) /\
    consumo_item (mk_consumo_row id 1 "2024-03-15" diario 0 0 (2 ^ 31) 0) = Ok item /\
    In item items.
Proof.
  apply (uploaded_record_is_served (init_db empty_db) three_days "WAN" 1 "2024-03-15"
           diario 0 0 (2 ^ 31) 0 (- 1)).
  - vm_compute. reflexivity.
  - vm_compute. reflexivity.
  - constructor.
  - reflexivity.
  - lia.
Defined.

(** *** The order of the dates *)

Lemma date_parts_chars s y m d :
  date_parts s = Some (y, m, d) ->
  exists c0 c1 c2 c3 c5 c6 c8 c9,
    s = String c0 (String c1 (String c2 (String c3 (String "-"
          (String c5 (String c6 (String "-" (String c8 (String c9 "")))))))))
    /\ y = String c0 (String c1 (String c2 (String c3 "")))
    /\ m = String c5 (String c6 "") /\ d = String c8 (String c9 "")
    /\ Forall (fun c => 48 <= Str.code c <= 57) [c0; c1; c2; c3; c5; c6; c8; c9].
Proof.
  unfold date_parts. intros H.
  destruct s as [| c0 s]; cbn [take_digits opt_bind] in H; [discriminate H |].
  destruct (Str.isdigit c0) eqn:D0; [| discriminate H].
  destruct s as [| c1 s]; cbn [take_digits opt_bind] in H; [discriminate H |].
  destruct (Str.isdigit c1) eqn:D1; [| discriminate H].
  destruct s as [| c2 s]; cbn [take_digits opt_bind] in H; [discriminate H |].
  destruct (Str.isdigit c2) eqn:D2; [| discriminate H].
  destruct s as [| c3 s]; cbn [take_digits opt_bind] in H; [discriminate H |].
  destruct (Str.isdigit c3) eqn:D3; [| discriminate H].
  destruct s as [| c4 s]; cbn [take_char opt_bind] in H; [discriminate H |].
  destruct (Ascii.eqb "-" c4) eqn:D4; cbn [opt_bind] in H; [| discriminate H].
  destruct s as [| c5 s]; cbn [take_digits opt_bind] in H; [discriminate H |].
  destruct (Str.isdigit c5) eqn:D5; [| discriminate H].
  destruct s as [| c6 s]; cbn [take_digits opt_bind] in H; [discriminate H |].
  destruct (Str.isdigit c6) eqn:D6; [| discriminate H].
  cbn [take_digits opt_bind] in H.
  destruct s as [| c7 s]; cbn [take_char opt_bind] in H; [discriminate H |].
  destruct (Ascii.eqb "-" c7) eqn:D7; cbn [opt_bind] in H; [| discriminate H].
  destruct s as [| c8 s]; cbn [take_digits opt_bind] in H; [discriminate H |].
  destruct (Str.isdigit c8) eqn:D8; [| discriminate H].
  destruct s as [| c9 s]; cbn [take_digits opt_bind] in H; [discriminate H |].
  destruct (Str.isdigit c9) eqn:D9; [| discriminate H].
  cbn [take_digits opt_bind] in H.
  destruct s as [| c s]; cbn [Str.is_empty] in H; [| discriminate H].
  injection H as <- <- <-.
  apply Ascii.eqb_eq in D4, D7. subst c4 c7.
  exists c0, c1, c2, c3, c5, c6, c8, c9.
  repeat split; repeat constructor; apply isdigit_code; assumption.
Qed.

(** on dates of the form YYYY-MM-DD in the digits 0 to 9 the order of
    texts is the order of the numbers YYYYMMDD they spell *)
Lemma date_order_calendar : forall a b x y,
  date_number a = Some x -> date_number b = Some y ->
  text_compare a b = (x ?= y).
Proof.
  intros a b x y. unfold date_number.
  destruct (date_parts a) as [[[ya ma] da] |] eqn:Ea; [| discriminate].
  destruct (date_parts b) as [[[yb mb] db] |] eqn:Eb; [| discriminate].
  intros Hx Hy. injection Hx as <-. injection Hy as <-.
  destruct (date_parts_chars _ _ _ _ Ea)
    as (a0 & a1 & a2 & a3 & a5 & a6 & a8 & a9 & -> & -> & -> & -> & Fa).
  destruct (date_parts_chars _ _ _ _ Eb)
    as (b0 & b1 & b2 & b3 & b5 & b6 & b8 & b9 & -> & -> & -> & -> & Fb).
  clear Ea Eb.
  repeat match goal with
    | H : Forall _ (_ :: _) |- _ =>
        let H1 := fresh "B" in let H2 := fresh "F" in
        inversion H as [| ? ? H1 H2]; subst; clear H
    | H : Forall _ [] |- _ => clear H
    end.
  cbn [text_compare Float.digits_val]. rewrite !Z.compare_refl.
  destruct (Z.compare_spec (Str.code a0) (Str.code b0)); cbv beta iota;
    [| symmetry; apply Z.compare_lt_iff; lia | symmetry; apply Z.compare_gt_iff; lia].
  destruct (Z.compare_spec (Str.code a1) (Str.code b1)); cbv beta iota;
    [| symmetry; apply Z.compare_lt_iff; lia | symmetry; apply Z.compare_gt_iff; lia].
  destruct (Z.compare_spec (Str.code a2) (Str.code b2)); cbv beta iota;
    [| symmetry; apply Z.compare_lt_iff; lia | symmetry; apply Z.compare_gt_iff; lia].
  destruct (Z.compare_spec (Str.code a3) (Str.code b3)); cbv beta iota;
    [| symmetry; apply Z.compare_lt_iff; lia | symmetry; apply Z.compare_gt_iff; lia].
  destruct (Z.compare_spec (Str.code a5) (Str.code b5)); cbv beta iota;
    [| symmetry; apply Z.compare_lt_iff; lia | symmetry; apply Z.compare_gt_iff; lia].
  destruct (Z.compare_spec (Str.code a6) (Str.code b6)); cbv beta iota;
    [| symmetry; apply Z.compare_lt_iff; lia | symmetry; apply Z.compare_gt_iff; lia].
  destruct (Z.compare_spec (Str.code a8) (Str.code b8)); cbv beta iota;
    [| symmetry; apply Z.compare_lt_iff; lia | symmetry; apply Z.compare_gt_iff; lia].
  destruct (Z.compare_spec (Str.code a9) (Str.code b9)); cbv beta iota;
    [| symmetry; apply Z.compare_lt_iff; lia | symmetry; apply Z.compare_gt_iff; lia].
  symmetry. apply Z.compare_eq_iff. lia.
Qed.


(** ** Whole numbers and their units *)

Lemma whole_digits p : 0 < p < 2 ^ 53 -> 1 <= Zdigits2 p <= 53.
Proof.
  intros H. split; [apply Zdigits2_pos; lia | apply Zdigits2_le; lia].
Qed.

(** rounding a whole number of at most 53 digits, given with [j] more
    digits than the format holds, gives the number itself *)
Lemma round_whole p j :
  0 < p < 2 ^ 53 -> 0 <= j ->
  binary_round_aux Float.prec Float.emax false
    (p * 2 ^ (53 - Zdigits2 p + j)) (Zdigits2 p - 53 - j) loc_Exact
  = whole_float p.
Proof.
  intros Hp Hj. pose proof (whole_digits p Hp) as Hd.
  set (d := Zdigits2 p) in *.
  set (q := p * 2 ^ (53 - d)).
  assert (Hq0 : 0 < 2 ^ (53 - d)) by (apply Z.pow_pos_nonneg; lia).
  assert (Hq : 0 < q) by (unfold q; nia).
  assert (Hdq : Zdigits2 q = 53).
  { unfold q. rewrite Zdigits2_mul_pow2 by lia. fold d. lia. }
  replace (p * 2 ^ (53 - d + j)) with (q * 2 ^ j)
    by (unfold q; rewrite Z.pow_add_r by lia; ring).
  assert (Hdm : Zdigits2 (q * 2 ^ j) = 53 + j).
  { rewrite Zdigits2_mul_pow2 by lia. lia. }
  unfold binary_round_aux, shr_fexp. rewrite !fexp_eq, Hdm.
  replace (53 + j + (d - 53 - j)) with d by lia.
  replace (fexp64 d - (d - 53 - j)) with j by (unfold fexp64; lia).
  assert (E : shr (shr_record_of_loc (q * 2 ^ j) loc_Exact) (d - 53 - j) j
              = (Build_shr_record q false false, d - 53)).
  { unfold shr. cbn [shr_record_of_loc]. destruct j as [| pj | pj]; [| | lia].
    - rewrite Z.mul_1_r. f_equal. lia.
    - rewrite iter_shr_exact by lia. f_equal. lia. }
  rewrite E. cbn [shr_m loc_of_shr_record round_nearest_even].
  rewrite fexp_eq, Hdq.
  replace (fexp64 (53 + (d - 53)) - (d - 53)) with 0 by (unfold fexp64; lia).
  cbn [shr shr_record_of_loc shr_m].
  unfold whole_float. fold d. fold q.
  destruct p as [| p' | p']; [lia | | lia].
  destruct q as [| q' | q'] eqn:Eq; [lia | | lia].
  replace (d - 53 <=? Float.emax - Float.prec) with true
    by (symmetry; apply Z.leb_le; unfold Float.emax, Float.prec; lia).
  reflexivity.
Qed.

Lemma binary_round_whole m :
  Zpos m < 2 ^ 53 ->
  binary_round Float.prec Float.emax false m 0 = whole_float (Zpos m).
Proof.
  intros H. pose proof (whole_digits (Zpos m) ltac:(lia)) as Hd.
  unfold binary_round, shl_align. rewrite fexp_eq.
  change (Zpos (digits2_pos m)) with (Zdigits2 (Zpos m)).
  rewrite Z.add_0_r.
  pose proof (round_whole (Zpos m) 0 ltac:(lia) ltac:(lia)) as R.
  rewrite Z.add_0_r, Z.sub_0_r in R.
  destruct (fexp64 (Zdigits2 (Zpos m)) - 0) as [| k | k] eqn:E;
    [| unfold fexp64 in E; lia |].
  - assert (D : Zdigits2 (Zpos m) = 53) by (unfold fexp64 in E; lia).
    rewrite D in R. change (2 ^ (53 - 53)) with 1 in R. rewrite Z.mul_1_r in R.
    exact R.
  - unfold shift_pos. rewrite iter_xO.
    replace (53 - Zdigits2 (Zpos m)) with (Zpos k) in R by (unfold fexp64 in E; lia).
    replace (fexp64 (Zdigits2 (Zpos m))) with (Zdigits2 (Zpos m) - 53)
      by (unfold fexp64 in *; lia).
    exact R.
Qed.

Lemma of_Z_whole p : 0 <= p < 2 ^ 53 -> Float.of_Z p = whole_float p.
Proof.
  intros H. unfold Float.of_Z, binary_normalize.
  destruct p as [| m | m]; [reflexivity | | lia].
  apply binary_round_whole. lia.
Qed.

Lemma of_decimal_whole p : 0 <= p < 2 ^ 53 -> Float.of_decimal false p 0 = whole_float p.
Proof.
  intros H. unfold Float.of_decimal.
  destruct (Z.eqb_spec p 0) as [-> | Hn]; [reflexivity |].
  change (0 <=? 0) with true. cbv beta iota. change (10 ^ 0) with 1. rewrite Z.mul_1_r.
  destruct p as [| m | m]; [lia | | lia].
  apply binary_round_whole. lia.
Qed.

Lemma mul_whole a b :
  0 <= a -> 0 <= b -> a * b < 2 ^ 53 ->
  Float.mul (whole_float a) (whole_float b) = whole_float (a * b).
Proof.
  intros Ha Hb Hab. unfold Float.mul.
  destruct a as [| a' | a'], b as [| b' | b']; try lia; try reflexivity.
  assert (Ha' : 0 < Zpos a' < 2 ^ 53) by nia.
  assert (Hb' : 0 < Zpos b' < 2 ^ 53) by nia.
  pose proof (whole_digits _ Ha') as Da. pose proof (whole_digits _ Hb') as Db.
  pose proof (whole_digits (Zpos a' * Zpos b') ltac:(lia)) as Dab.
  pose proof (Zdigits2_mul_ge (Zpos a') (Zpos b') ltac:(lia) ltac:(lia)) as Hge.
  unfold whole_float at 1 2. cbn [SFmul xorb].
  set (da := Zdigits2 (Zpos a')) in *. set (db := Zdigits2 (Zpos b')) in *.
  set (dab := Zdigits2 (Zpos a' * Zpos b')) in *.
  assert (Pa : 0 < 2 ^ (53 - da)) by (apply Z.pow_pos_nonneg; lia).
  assert (Pb : 0 < 2 ^ (53 - db)) by (apply Z.pow_pos_nonneg; lia).
  rewrite Pos2Z.inj_mul, !Z2Pos.id by nia.
  pose proof (round_whole (Zpos a' * Zpos b') (53 + dab - da - db) ltac:(lia) ltac:(lia))
    as R.
  fold dab in R.
  replace (53 - dab + (53 + dab - da - db)) with ((53 - da) + (53 - db)) in R by lia.
  replace (dab - 53 - (53 + dab - da - db)) with (da - 53 + (db - 53)) in R by lia.
  rewrite Z.pow_add_r in R by lia.
  replace (Zpos a' * 2 ^ (53 - da) * (Zpos b' * 2 ^ (53 - db)))
    with (Zpos a' * Zpos b' * (2 ^ (53 - da) * 2 ^ (53 - db))) by ring.
  exact R.
Qed.

Lemma to_int_whole p : 0 <= p < 2 ^ 53 -> Float.to_int (whole_float p) = Ok p.
Proof.
  intros H. destruct p as [| m | m]; [reflexivity | | lia].
  pose proof (whole_digits (Zpos m) ltac:(lia)) as Hd.
  unfold whole_float, Float.to_int.
  set (d := Zdigits2 (Zpos m)) in *.
  assert (P : 0 < 2 ^ (53 - d)) by (apply Z.pow_pos_nonneg; lia).
  rewrite Z2Pos.id by nia.
  rewrite Z.shiftl_div_pow2 by lia.
  replace (- (d - 53)) with (53 - d) by lia.
  rewrite Z.div_mul by lia. reflexivity.
Qed.

Lemma append_empty s : (s ++ "")%string = s.
Proof. induction s as [| c s IH]; cbn [append]; [reflexivity | rewrite IH; reflexivity]. Qed.

Lemma size_unit_range unit : 1 <= dict_get size_units unit 1 < 2 ^ 53.
Proof.
  unfold dict_get, size_units.
  repeat match goal with
    | |- context [String.eqb ?k unit] => destruct (String.eqb k unit)
    end;
    (vm_compute; split; [discriminate | reflexivity]).
Qed.

Lemma speed_unit_range unit : 1 <= dict_get speed_units unit 1 < 2 ^ 53.
Proof.
  unfold dict_get, speed_units.
  repeat match goal with
    | |- context [String.eqb ?k unit] => destruct (String.eqb k unit)
    end;
    (vm_compute; split; [discriminate | reflexivity]).
Qed.

(** a value that begins with a digit once normalised is neither empty nor
    the text [None] *)
Lemma digit_is_value v c r :
  normalise v = String c r -> Str.isdigit c = true -> no_value (Some v) = false.
Proof.
  intros H Hc. unfold no_value.
  destruct v as [| a v']; [discriminate H |]. cbn [Str.is_empty orb].
  destruct (String.eqb (String a v') "None") eqn:E; [| reflexivity].
  apply String.eqb_eq in E. rewrite E in H. vm_compute in H.
  injection H as <- _. discriminate Hc.
Qed.

Lemma of_string_digits digits :
  Str.is_empty digits = false -> Str.all Str.isdigit digits = true ->
  Float.digits_val 0 digits < 2 ^ 53 ->
  Float.of_string digits = Ok (whole_float (Float.digits_val 0 digits)).
Proof.
  intros Hn Ha Hb.
  assert (Hp : decimal_parts digits = Some (digits, EmptyString)).
  { unfold decimal_parts. rewrite (span_whole _ _ Ha), Hn. reflexivity. }
  rewrite (of_string_decimal digits digits EmptyString
             (all_impl _ _ _ isdigit_isnum Ha) Hp).
  rewrite append_empty. cbn [String.length Z.of_nat Z.opp].
  rewrite of_decimal_whole; [reflexivity |].
  pose proof (digits_val_bounds digits 0 Ha ltac:(lia)). lia.
Qed.

(** X26: a size given as a whole number and a unit of letters, or as a
    whole number alone, is converted without any rounding when the product
    is below 2^53: [convert_to_bytes] gives exactly the number times the
    multiplier of the unit (1 for no unit and for an unknown one). *)
Theorem whole_size_exact : forall v digits unit,
  normalise v = digits ++ unit ->
  Str.is_empty digits = false -> Str.all Str.isdigit digits = true ->
  Str.all Str.isaz unit = true ->
  Float.digits_val 0 digits * dict_get size_units unit 1 < 2 ^ 53 ->
  convert_to_bytes (Some v)
  = Ok (Float.digits_val 0 digits * dict_get size_units unit 1).
Proof.
  intros v digits unit Hv Hn Ha Hu Hb.
  pose proof (digits_val_bounds digits 0 Ha ltac:(lia)) as [Hd0 _].
  pose proof (size_unit_range unit) as Hm.
  assert (Hd : Float.digits_val 0 digits < 2 ^ 53) by nia.
  assert (Hnv : no_value (Some v) = false).
  { destruct digits as [| c r]; [discriminate |].
    cbn [Str.all] in Ha. apply andb_true_iff in Ha.
    apply (digit_is_value v c (r ++ unit) Hv). tauto. }
  unfold convert_to_bytes. rewrite Hnv, Hv.
  destruct unit as [| l unit'].
  - rewrite append_empty. unfold match_size.
    rewrite (span_whole _ _ (all_impl _ _ _ isdigit_isnum Ha)).
    cbn [Str.span Str.is_empty]. rewrite orb_true_r.
    rewrite (of_string_digits _ Hn Ha Hd). cbn [bind].
    change (dict_get size_units "" 1) with 1. rewrite Z.mul_1_r.
    apply to_int_whole. lia.
  - pose proof (match_size_longest digits (String l unit') EmptyString Hn
                  (all_impl _ _ _ isdigit_isnum Ha) eq_refl Hu) as M.
    rewrite !append_empty in M. cbn [Str.span fst] in M.
    rewrite M, (of_string_digits _ Hn Ha Hd). cbn [bind].
    rewrite of_Z_whole by lia. rewrite mul_whole by lia.
    apply to_int_whole. nia.
Qed.

Lemma whole_size_exact_witness :
  convert_to_bytes (Some "500 MiB")
  = Ok (Float.digits_val 0 "500" * dict_get size_units "mib" 1).
Proof.
  apply (whole_size_exact "500 MiB" "500" "mib"); vm_compute; reflexivity.
Defined.

(** X27: a rate given as a whole number and a unit of letters followed
    by [/s] is converted without any rounding when the product is below
    2^53: [convert_speed_to_bps] gives exactly the number times the
    multiplier of the unit (1 for an unknown one). *)
Theorem whole_rate_exact : forall v digits letters,
  normalise v = digits ++ letters ++ "/s" ->
  Str.is_empty digits = false -> Str.all Str.isdigit digits = true ->
  Str.is_empty letters = false -> Str.all Str.isaz letters = true ->
  Float.digits_val 0 digits * dict_get speed_units (letters ++ "/s") 1 < 2 ^ 53 ->
  convert_speed_to_bps (Some v)
  = Ok (Float.digits_val 0 digits * dict_get speed_units (letters ++ "/s") 1).
Proof.
  intros v digits letters Hv Hn Ha Hl Hu Hb.
  pose proof (digits_val_bounds digits 0 Ha ltac:(lia)) as [Hd0 _].
  pose proof (speed_unit_range (letters ++ "/s")) as Hm.
  assert (Hd : Float.digits_val 0 digits < 2 ^ 53) by nia.
  assert (Hnv : no_value (Some v) = false).
  { destruct digits as [| c r]; [discriminate |].
    cbn [Str.all] in Ha. apply andb_true_iff in Ha.
    apply (digit_is_value v c (r ++ letters ++ "/s") Hv). tauto. }
  unfold convert_speed_to_bps. rewrite Hnv, Hv.
  pose proof (match_speed_unique digits letters EmptyString Hn
                (all_impl _ _ _ isdigit_isnum Ha) Hl Hu) as M.
  change ("/s" ++ "")%string with "/s"%string in M.
  rewrite M, (of_string_digits _ Hn Ha Hd). cbn [bind].
  rewrite of_Z_whole by lia. rewrite mul_whole by lia.
  apply to_int_whole. nia.
Qed.

Lemma whole_rate_exact_witness :
  convert_speed_to_bps (Some "349 Mbit/s")
  = Ok (Float.digits_val 0 "349" * dict_get speed_units ("mbit" ++ "/s") 1).
Proof.
  apply (whole_rate_exact "349 Mbit/s" "349" "mbit"); vm_compute; reflexivity.
Defined.

(** ** Dates of the records and of the rows *)

Lemma date_shape_frame d p : date_shape d p = true -> date_frame d p = true.
Proof.
  unfold date_shape. destruct (date_parts d) as [[[y m] day] |] eqn:E; [| discriminate].
  destruct (date_parts_chars _ _ _ _ E)
    as (c0 & c1 & c2 & c3 & c5 & c6 & c8 & c9 & -> & _ & _ & -> & _).
  destruct p; intros H; unfold date_frame, hyphen_at; cbn [String.length String.get Nat.eqb].
  - reflexivity.
  - apply String.eqb_eq in H. injection H as -> ->. reflexivity.
Qed.

(** X12: every record the parser gives bears a date of ten characters
    with a hyphen as the fifth and as the eighth, and the date of a record
    of the monthly period ends with -01; when the characters of the date
    are ASCII, it has the form YYYY-MM-DD in the digits 0 to 9, and the day
    of a monthly date is 01. *)
Theorem parsed_dates_well_formed : forall text e,
  In e (parse_bandwidth_data text) ->
  date_sound (data_referencia e) (periodo e).
Proof.
  intros text e H. pose proof (parsed_date_shape text) as F.
  rewrite Forall_forall in F. specialize (F e H).
  split; [apply date_shape_frame, F | intros _; exact F].
Qed.

Lemma parsed_dates_well_formed_witness :
  In (scenario_entry "WAN") (parse_bandwidth_data (scenario "WAN")) /\
  date_sound (data_referencia (scenario_entry "WAN")) (periodo (scenario_entry "WAN")).
Proof.
  assert (H : In (scenario_entry "WAN") (parse_bandwidth_data (scenario "WAN"))).
  { vm_compute. left. reflexivity. }
  split; [exact H |].
  exact (parsed_dates_well_formed (scenario "WAN") (scenario_entry "WAN") H).
Defined.

(** X14: an upload stores only dates of that kind (ten characters with
    the two hyphens, -01 at the end of a monthly date, and the form
    YYYY-MM-DD in the digits 0 to 9 when the characters are ASCII): a table
    that holds only such dates holds only such dates after the upload. *)
Theorem upload_stores_well_formed_dates : forall db text,
  Forall (fun r => record_date_sound (content r)) (consumo_banda db) ->
  Forall (fun r => record_date_sound (content r))
         (consumo_banda (snd (upload_data db text))).
Proof.
  intros db text. apply (upload_forall record_date_sound).
  intros e r He H. apply accepted_record_parts in H.
  destruct H as [i [a [b [c [d [_ [_ [-> _]]]]]]]].
  cbn [record_date_sound]. pose proof (parsed_date_shape text) as F.
  rewrite Forall_forall in F. specialize (F e He).
  split; [apply date_shape_frame, F | intros _; exact F].
Qed.

Lemma upload_stores_well_formed_dates_witness :
  Forall (fun r => record_date_sound (content r))
         (consumo_banda (snd (upload_data (init_db empty_db) two_sections))).
Proof.
  apply (upload_stores_well_formed_dates (init_db empty_db) two_sections). constructor.
Defined.

Lemma sorted_impl_in {A : Type} (R R' : A -> A -> Prop) (l : list A) :
  (forall a b, In a l -> In b l -> R a b -> R' a b) ->
  StronglySorted R l -> StronglySorted R' l.
Proof.
  intros H S. induction S as [| a l S IH F]; [constructor |].
  constructor.
  - apply IH. intros x y Hx Hy. apply H; right; assumption.
  - rewrite Forall_forall in *. intros x Hx.
    apply H; [left; reflexivity | right; exact Hx | apply F, Hx].
Qed.

(** X25: when every date of the table has the form YYYY-MM-DD in the
    digits 0 to 9 and the table satisfies its constraint [UNIQUE], the
    rows of a query of the consumption come in the order of the calendar,
    the latest day first: for such dates the order of texts, by which the
    query sorts, is the order of the numbers YYYYMMDD. *)
Theorem consumo_calendar_order : forall db i periodo limite rows,
  unique_keys db ->
  Forall (fun r => date_number (cb_data_referencia r) <> None) (consumo_banda db) ->
  select_consumo db i periodo limite = Ok rows ->
  StronglySorted later_day rows.
Proof.
  intros db i periodo limite rows Hu Hd H. apply select_consumo_rows in H.
  pose proof (order_sorted _ (selected_dates_differ db i periodo Hu)) as Hs.
  destruct (sql_limit_prefix limite
              (order_by_date_desc (filter (selected i periodo) (consumo_banda db))))
    as [rest E].
  assert (Hin : forall r, In r rows -> In r (consumo_banda db)).
  { intros r Hr. rewrite H in Hr. apply sql_limit_In, order_In, filter_In in Hr. tauto. }
  rewrite E, <- H in Hs. apply sorted_app_inv in Hs. destruct Hs as [Hs _].
  apply (sorted_impl_in newer); [| exact Hs].
  intros a b Ha Hb Hab. rewrite Forall_forall in Hd.
  pose proof (Hd a (Hin a Ha)) as Na. pose proof (Hd b (Hin b Hb)) as Nb.
  destruct (date_number (cb_data_referencia a)) as [x |] eqn:Ex; [| congruence].
  destruct (date_number (cb_data_referencia b)) as [y |] eqn:Ey; [| congruence].
  unfold later_day. exists x, y. rewrite Ex, Ey. split; [reflexivity |]. split; [reflexivity |].
  unfold newer in Hab. rewrite (date_order_calendar _ _ x y Ex Ey) in Hab.
  apply Z.compare_gt_iff in Hab. exact Hab.
Qed.

Lemma consumo_calendar_order_witness : StronglySorted later_day [row_of_15; row_of_14].
Proof.
  apply (consumo_calendar_order three_days_db 1 "diario" 2 [row_of_15; row_of_14]
           three_days_unique).
  - rewrite three_days_rows. repeat constructor; discriminate.
  - exact three_days_newest.
Defined.

(** ** Several sections of one key *)

Lemma filter_none {A : Type} (f : A -> bool) (l : list A) :
  (forall x, In x l -> f x = false) -> filter f l = [].
Proof.
  induction l as [| x l IH]; cbn [filter]; intros H; [reflexivity |].
  rewrite (H x (or_introl eq_refl)). apply IH. intros y Hy. apply H. right. exact Hy.
Qed.

(** the rows of a key after a run of upserts: one row, of the last record
    of the key, when the run holds the key *)
Lemma fold_upsert_key_rows (rs : list record) : forall (l : list record) k,
  filter (fun r => key_eqb k (fst r)) (fold_left upsert rs l)
  = match last_with_key k rs with
    | Some v => [(k, v)]
    | None => filter (fun r => key_eqb k (fst r)) l
    end.
Proof.
  induction rs as [| r rs IH] using rev_ind; intros l k; [reflexivity |].
  rewrite fold_left_app, last_with_key_snoc. cbn [fold_left]. unfold upsert at 1.
  rewrite filter_app, filter_filter. cbn [filter].
  destruct (key_eqb k (fst r)) eqn:E.
  - apply key_eqb_eq in E. subst k. rewrite filter_none.
    + destruct r. reflexivity.
    + intros x _. destruct (key_eqb (fst r) (fst x)); reflexivity.
  - rewrite app_nil_r. rewrite <- IH. apply filter_ext. intros x.
    destruct (key_eqb k (fst x)) eqn:Ex; [| apply andb_false_r].
    apply key_eqb_eq in Ex. subst k.
    destruct (key_eqb (fst r) (fst x)) eqn:Er; [| reflexivity].
    apply key_eqb_eq in Er. rewrite Er, key_eqb_refl in E. discriminate.
Qed.

Lemma last_with_key_some (rs : list record) k v :
  In (k, v) rs -> exists v', last_with_key k rs = Some v'.
Proof.
  induction rs as [| r rs IH] using rev_ind; [intros [] |].
  intros H. rewrite last_with_key_snoc.
  destruct (key_eqb k (fst r)) eqn:E; [eauto |].
  apply in_app_or in H. destruct H as [H | [H | []]]; [apply IH, H |].
  subst r. cbn [fst] in E. rewrite key_eqb_refl in E. discriminate.
Qed.

(** C10: when the parsed text holds two sections of one (interface,
    date, period) for a known interface, a successful upload reports as
    [records] the number of all the sections of registered interfaces,
    these two among them: both are handed to the upsert. The table holds
    afterwards one row for the triple, with the numbers of the last of its
    sections, so that the count is larger than the number of rows the
    table gained; from an empty table it exceeds the number of rows
    stored. *)
Theorem records_saved_exceeds_rows : forall db text db' n es1 e1 es2 e2 es3 i,
  upload_data db text = (success_response n, db') ->
  parse_bandwidth_data text = (es1 ++ e1 :: es2 ++ e2 :: es3)%list ->
  select_interface_id (interfaces db) (interface e1) = Some i ->
  interface e2 = interface e1 ->
  data_referencia e2 = data_referencia e1 ->
  periodo e2 = periodo e1 ->
  n = Z.of_nat (List.length (filter (known (interfaces db)) (parse_bandwidth_data text))) /\
  n = Z.of_nat (List.length (accepted db text)) /\
  (2 <= List.length (filter (fun r => key_eqb (i, data_referencia e1, periodo e1) (fst r))
                            (accepted db text)))%nat /\
  (exists v,
     last_with_key (i, data_referencia e1, periodo e1) (accepted db text) = Some v /\
     filter (fun r => key_eqb (i, data_referencia e1, periodo e1) (fst r)) (stored db')
     = [((i, data_referencia e1, periodo e1), v)]) /\
  Z.of_nat (List.length (consumo_banda db')) < Z.of_nat (List.length (consumo_banda db)) + n.
Proof.
  intros db text db' n es1 e1 es2 e2 es3 i Hup Hparse Hi Hif Hd Hp.
  set (k := (i, data_referencia e1, periodo e1)).
  pose proof (upload_stored db text) as Hst. rewrite Hup in Hst. cbn [snd] in Hst.
  rewrite upload_data_accepted in Hup.
  destruct (Str.is_empty text); [discriminate |].
  destruct (negb (nonempty (parse_bandwidth_data text))); [discriminate |].
  unfold accepted in *.
  destruct (accepted_records (interfaces db) (parse_bandwidth_data text)) as [rs | x] eqn:A;
    [| discriminate].
  pose proof (accepted_records_length _ _ _ A) as Hlen.
  injection Hup as Hn Hdb. subst n db'.
  rewrite Hparse, accepted_records_app in A.
  destruct (accepted_records (interfaces db) es1) as [rs1 | x]; cbn [bind] in A; [| discriminate].
  cbn [accepted_records] in A.
  destruct (accepted_record (interfaces db) e1) as [o1 | x] eqn:A1; cbn [bind] in A; [| discriminate].
  rewrite accepted_records_app in A.
  destruct (accepted_records (interfaces db) es2) as [rs2 | x]; cbn [bind] in A; [| discriminate].
  cbn [accepted_records] in A.
  destruct (accepted_record (interfaces db) e2) as [o2 | x] eqn:A2; cbn [bind] in A; [| discriminate].
  destruct (accepted_records (interfaces db) es3) as [rs3 | x]; cbn [bind] in A; [| discriminate].
  destruct (accepted_record_known _ _ _ _ Hi A1) as [v1 ->].
  rewrite <- Hif in Hi.
  destruct (accepted_record_known _ _ _ _ Hi A2) as [v2 ->].
  rewrite Hd, Hp in A. fold k in A. injection A as A.
  assert (Hk2 : (2 <= List.length (filter (fun r : record => key_eqb k (fst r)) rs))%nat).
  { rewrite <- A, filter_app. cbn [filter fst]. rewrite key_eqb_refl.
    rewrite filter_app. cbn [filter fst]. rewrite key_eqb_refl.
    rewrite List.length_app. cbn [List.length]. rewrite List.length_app.
    cbn [List.length]. lia. }
  pose proof (fold_upsert_key_rows rs (stored db) k) as Hrows. rewrite <- Hst in Hrows.
  assert (Hlast : exists v, last_with_key k rs = Some v).
  { apply (last_with_key_some rs k v2). rewrite <- A.
    apply in_or_app. right. right. apply in_or_app. right. left. reflexivity. }
  destruct Hlast as [v Hv]. rewrite Hv in Hrows.
  split; [rewrite Hlen; reflexivity |]. split; [reflexivity |]. split; [exact Hk2 |].
  split; [exists v; split; [exact Hv | exact Hrows] |].
  pose proof (fold_upsert_length_dup rs1 (k, v1) rs2 (k, v2) rs3 (stored db) eq_refl) as H.
  rewrite A in H. rewrite <- stored_fold_put in H. unfold stored in H.
  rewrite !length_map in H. lia.
Qed.

Lemma records_saved_exceeds_rows_witness :
  2 = Z.of_nat (List.length (filter (known (interfaces (init_db empty_db)))
                                    (parse_bandwidth_data two_sections))) /\
  2 = Z.of_nat (List.length (accepted (init_db empty_db) two_sections)) /\
  (2 <= List.length (filter (fun r => key_eqb (1%Z, "2024-03-15"%string, diario) (fst r))
                            (accepted (init_db empty_db) two_sections)))%nat /\
  (exists v,
     last_with_key (1, "2024-03-15"%string, diario) (accepted (init_db empty_db) two_sections)
     = Some v /\
     filter (fun r => key_eqb (1, "2024-03-15"%string, diario) (fst r))
            (stored (snd (upload_data (init_db empty_db) two_sections)))
     = [((1, "2024-03-15"%string, diario), v)]) /\
  Z.of_nat (List.length (consumo_banda (snd (upload_data (init_db empty_db) two_sections))))
  < Z.of_nat (List.length (consumo_banda (init_db empty_db))) + 2.
Proof.
  apply (records_saved_exceeds_rows (init_db empty_db) two_sections
           (snd (upload_data (init_db empty_db) two_sections)) 2
           []
           (mk_entry "WAN" "2024-03-15" diario (Some "1KiB") None None None)
           []
           (mk_entry "WAN" "2024-03-15" diario (Some "2KiB") None None None)
           [] 1);
    vm_compute; reflexivity.
Defined.

(** ** Value lines and the last record *)

(** a value line assigns its value to the last record, whatever the
    context is *)
Lemma parse_value_line st raw d e :
  is_value_line raw = true -> data st = (d ++ [e])%list ->
  parse_line st raw
  = mk_parser (d ++ [assign raw e]) (current_date st) (current_period st).
Proof.
  unfold is_value_line, is_marker, is_section, assign, line_value, parse_line.
  intros H Hd. apply andb_true_iff in H. destruct H as [H Hv].
  apply andb_true_iff in H. destruct H as [Hm Hs].
  apply negb_true_iff in Hm, Hs. apply orb_false_iff in Hm. destruct Hm as [Ho Hm].
  rewrite Ho, Hm, Hs, Hd.
  replace (nonempty (d ++ [e])) with true by (destruct d; reflexivity).
  rewrite !andb_true_r.
  destruct (Str.startswith (Str.strip raw) entrada_label);
    [cbn [set_field]; rewrite update_last_snoc; reflexivity |].
  destruct (Str.startswith (Str.strip raw) saida_label);
    [cbn [set_field]; rewrite update_last_snoc; reflexivity |].
  destruct (Str.startswith (Str.strip raw) total_label);
    [cbn [set_field]; rewrite update_last_snoc; reflexivity |].
  destruct (Str.startswith (Str.strip raw) taxa_label);
    [cbn [set_field]; rewrite update_last_snoc; reflexivity |].
  discriminate Hv.
Qed.

Lemma parse_value_lines vals : forall st d e,
  forallb is_value_line vals = true -> data st = (d ++ [e])%list ->
  parse_lines st vals
  = mk_parser (d ++ [apply_values vals e]) (current_date st) (current_period st).
Proof.
  unfold parse_lines, apply_values.
  induction vals as [| v vals IH]; intros st d e H Hd; cbn [fold_left].
  - rewrite <- Hd. destruct st. reflexivity.
  - cbn [forallb] in H. apply andb_true_iff in H. destruct H as [Hv H].
    rewrite (parse_value_line st v d e Hv Hd).
    apply (IH (mk_parser (d ++ [assign v e]) (current_date st) (current_period st))
              d (assign v e) H).
    reflexivity.
Qed.




(** X28: a line [--- Interface] that bears no name opens no section: it
    changes nothing, and the value lines after it assign their values to
    the last record before it, whose own values they overwrite. *)
Theorem nameless_section_values_overwrite : forall st raw d e vals,
  Str.strip raw = "--- Interface"%string ->
  data st = (d ++ [e])%list ->
  forallb is_value_line vals = true ->
  parse_line st raw = st /\
  data (parse_lines (parse_line st raw) vals) = (d ++ [apply_values vals e])%list.
Proof.
  intros st raw d e vals Hr Hd Hv.
  assert (Hl : parse_line st raw = st).
  { apply labelled_false. unfold labelled, is_marker, is_section. rewrite Hr. reflexivity. }
  rewrite Hl. split; [reflexivity |].
  rewrite (parse_value_lines vals st d e Hv Hd). reflexivity.
Qed.

Lemma nameless_section_values_overwrite_witness :
  parse_line
    (parse_lines initial ["- Ontem (2024-03-15)"; "--- Interface WAN"; "Entrada: 1KiB"])
    "--- Interface "
  = parse_lines initial ["- Ontem (2024-03-15)"; "--- Interface WAN"; "Entrada: 1KiB"] /\
  data (parse_lines
          (parse_line
             (parse_lines initial
                ["- Ontem (2024-03-15)"; "--- Interface WAN"; "Entrada: 1KiB"])
             "--- Interface ")
          ["Entrada: 2KiB"])
  = [mk_entry "WAN" "2024-03-15" diario (Some "2KiB") None None None].
Proof.
  exact (nameless_section_values_overwrite
           (parse_lines initial
              ["- Ontem (2024-03-15)"; "--- Interface WAN"; "Entrada: 1KiB"])
           "--- Interface " []
           (mk_entry "WAN" "2024-03-15" diario (Some "1KiB") None None None)
           ["Entrada: 2KiB"]
           eq_refl eq_refl eq_refl).
Defined.

(** ** The end-to-end scenario in any text *)

Lemma parse_lines_labelled lines : forall st,
  parse_lines st lines = parse_lines st (filter labelled lines).
Proof.
  unfold parse_lines.
  induction lines as [| l lines IH]; intros st; cbn [fold_left filter]; [reflexivity |].
  destruct (labelled l) eqn:E; cbn [fold_left]; [apply IH |].
  rewrite (labelled_false l st E). apply IH.
Qed.

Lemma field_eqb_eq f g : field_eqb f g = true -> f = g.
Proof. destruct f, g; cbn [field_eqb]; intros H; try reflexivity; discriminate. Qed.

Lemma get_set_field f g x e :
  get_field f (set_field g x e) = if field_eqb f g then Some x else get_field f e.
Proof. destruct f, g; reflexivity. Qed.

Lemma set_field_keeps g x e :
  interface (set_field g x e) = interface e /\
  data_referencia (set_field g x e) = data_referencia e /\
  periodo (set_field g x e) = periodo e.
Proof. destruct g; repeat split. Qed.

(** value lines of the scenario, in any order and number, give each field
    they name its value of the scenario, and leave the others *)
Lemma apply_scenario_values vals : forall e,
  forallb scenario_value vals = true ->
  interface (apply_values vals e) = interface e /\
  data_referencia (apply_values vals e) = data_referencia e /\
  periodo (apply_values vals e) = periodo e /\
  forall f, get_field f (apply_values vals e)
            = if existsb (gives_field f) vals then Some (scenario_expected f)
              else get_field f e.
Proof.
  unfold apply_values.
  induction vals as [| v vals IH]; intros e H; cbn [fold_left existsb].
  - repeat split.
  - cbn [forallb] in H. apply andb_true_iff in H. destruct H as [Hv H].
    unfold scenario_value in Hv. apply andb_true_iff in Hv. destruct Hv as [_ Hv].
    destruct (line_value v) as [[g x] |] eqn:Elv; [| discriminate].
    apply String.eqb_eq in Hv. subst x.
    assert (Ha : assign v e = set_field g (scenario_expected g) e)
      by (unfold assign; rewrite Elv; reflexivity).
    assert (Hg : forall f, gives_field f v = field_eqb f g)
      by (intros f; unfold gives_field; rewrite Elv; reflexivity).
    rewrite Ha.
    destruct (IH (set_field g (scenario_expected g) e) H) as (H1 & H2 & H3 & H4).
    destruct (set_field_keeps g (scenario_expected g) e) as (K1 & K2 & K3).
    split; [congruence |]. split; [congruence |]. split; [congruence |].
    intros f. rewrite H4, get_set_field, Hg.
    destruct (existsb _ vals); [rewrite orb_true_r; reflexivity |].
    rewrite orb_false_r.
    destruct (field_eqb f g) eqn:E; [| reflexivity].
    apply field_eqb_eq in E. subst g. reflexivity.
Qed.

Lemma scenario_lines_parsed name lines :
  scenario_lines name lines = true ->
  data (parse_lines initial lines) = [scenario_entry name].
Proof.
  unfold scenario_lines. rewrite (parse_lines_labelled lines initial).
  destruct (filter labelled lines) as [| m [| s vals]]; try discriminate.
  intros H.
  apply andb_true_iff in H. destruct H as [H Hall].
  apply andb_true_iff in H. destruct H as [H Hvals].
  apply andb_true_iff in H. destruct H as [H Hname].
  apply andb_true_iff in H. destruct H as [Hm Hs].
  apply String.eqb_eq in Hname.
  unfold scenario_marker in Hm. apply andb_true_iff in Hm. destruct Hm as [Hm1 Hm2].
  destruct (search day_here (Str.strip m)) as [d |] eqn:Ed; [| discriminate].
  apply String.eqb_eq in Hm2. subst d.
  assert (S1 : parse_line initial m = mk_parser [] (Some "2024-03-15"%string) (Some diario)).
  { unfold parse_line. rewrite Hm1, Ed. reflexivity. }
  assert (S2 : parse_line (mk_parser [] (Some "2024-03-15"%string) (Some diario)) s
               = mk_parser ([] ++ [mk_entry name "2024-03-15" diario None None None None])
                           (Some "2024-03-15"%string) (Some diario)).
  { destruct (section_not_marker s Hs) as [Ho Hmes].
    unfold is_section in Hs. unfold section_name in Hname.
    unfold parse_line. rewrite Ho, Hmes, Hs, Hname. reflexivity. }
  assert (Hv : forallb is_value_line vals = true).
  { apply forallb_forall. intros v Hin.
    pose proof (proj1 (forallb_forall _ _) Hvals v Hin) as G.
    unfold scenario_value in G. apply andb_true_iff in G. tauto. }
  unfold parse_lines. cbn [fold_left]. rewrite S1, S2.
  pose proof (parse_value_lines vals
                (mk_parser ([] ++ [mk_entry name "2024-03-15" diario None None None None])
                           (Some "2024-03-15"%string) (Some diario))
                [] (mk_entry name "2024-03-15" diario None None None None) Hv eq_refl) as P.
  unfold parse_lines in P. rewrite P. cbn [data app]. f_equal.
  destruct (apply_scenario_values vals
              (mk_entry name "2024-03-15" diario None None None None) Hvals)
    as (H1 & H2 & H3 & H4).
  cbn [forallb] in Hall. rewrite !andb_true_iff in Hall.
  destruct Hall as (E1 & E2 & E3 & E4 & _).
  pose proof (H4 inbound) as F1. pose proof (H4 outbound) as F2.
  pose proof (H4 whole) as F3. pose proof (H4 rate) as F4.
  rewrite E1 in F1. rewrite E2 in F2. rewrite E3 in F3. rewrite E4 in F4.
  destruct (apply_values vals (mk_entry name "2024-03-15" diario None None None None)).
  cbn [interface data_referencia periodo get_field entrada saida total taxa_media
       scenario_expected] in *.
  subst. reflexivity.
Qed.

(** C1 fails on the code for a text that contains more than the scenario:
    the scenario followed by a section of another registered interface is
    accepted as two records. *)
Lemma scenario_in_longer_text_two_records : ~ scenario_one_record_in_every_text.
Proof.
  intros H.
  specialize (H (init_db empty_db) "WAN"%string 1 scenario_and_section eq_refl).
  assert (C : contains_scenario "WAN" scenario_and_section).
  { exists [], ["--- Interface DI"%string; "Entrada: 1KiB"%string]. vm_compute. reflexivity. }
  specialize (H C). vm_compute in H. discriminate H.
Qed.

(** C1, amended: for every text whose lines that the parser recognises
    are a daily marker of 2024-03-15, then one section line of an interface
    that the table [interfaces] registers under the id [i], then value
    lines giving inbound 1.00GiB, outbound 500.00MiB, total 1.50GiB and
    rate 10.00Mbit/s (each once at least, in any order; lines of other
    text, blank lines, indentation and carriage returns are free), the
    upload accepts exactly one record: 1073741824, 524288000 and
    1610612736 bytes, 10000000 bits per second, period [diario], date
    2024-03-15; the response counts one record and the record is stored. *)
Theorem scenario_text_one_record : forall db name i text,
  select_interface_id (interfaces db) name = Some i ->
  scenario_lines name (Str.split Str.newline text) = true ->
  parse_bandwidth_data text = [scenario_entry name] /\
  accepted db text = [scenario_record i] /\
  upload_data db text = (success_response 1, put db (scenario_record i)).
Proof.
  intros db name i text Hi Hl.
  assert (Hp : parse_bandwidth_data text = [scenario_entry name]).
  { unfold parse_bandwidth_data. apply (scenario_lines_parsed name _ Hl). }
  assert (He : Str.is_empty text = false).
  { destruct text; [discriminate Hl | reflexivity]. }
  assert (A : accepted_records (interfaces db) (parse_bandwidth_data text)
              = Ok [scenario_record i]).
  { rewrite Hp. cbn [accepted_records]. unfold accepted_record.
    cbn [interface scenario_entry]. rewrite Hi.
    change (mk_entry name "2024-03-15" diario (Some "1.00GiB") (Some "500.00MiB")
              (Some "1.50GiB") (Some "10.00Mbit/s")) with (scenario_entry name).
    rewrite scenario_values. reflexivity. }
  split; [exact Hp |]. split.
  - unfold accepted. rewrite A. reflexivity.
  - rewrite upload_data_accepted, He, A, Hp. reflexivity.
Qed.

Lemma scenario_text_one_record_witness :
  parse_bandwidth_data scenario_variant = [scenario_entry "WAN"] /\
  accepted (init_db empty_db) scenario_variant = [scenario_record 1] /\
  upload_data (init_db empty_db) scenario_variant
  = (success_response 1, put (init_db empty_db) (scenario_record 1)).
Proof.
  apply (scenario_text_one_record (init_db empty_db) "WAN" 1 scenario_variant).
  - reflexivity.
  - vm_compute. reflexivity.
Defined.
